(** * Dyson factory analysers: bottleneck, logistics and power reports

    A shallow embedding of
      - [src/mcp_server/tools/bottleneck_analyzer.py]
      - [src/mcp_server/tools/logistics_analyzer.py]
      - [src/mcp_server/tools/power_analyzer.py]
    together with the properties their specification states about them.

    Numbers.  The Python code computes on [int] and [float].  Integers are
    [Z]; a finite Python float is the exact rational it denotes ([Q]), and
    numeric results are compared with [==] ([Qeq]).  Where a report quotes
    an accumulated total, or a branch is taken on a computed percentage, the
    binary64 rounding of every operation is kept: [fl] rounds a rational to
    53 significant bits, ties to even, and [fadd], [fsub], [fmul], [fdiv]
    are the rounded operations.  The group statistics of the bottleneck
    analysis and the per-consumer power figures are computed exactly.  The
    exponent range is kept only where it decides an exception: a rate total
    that reaches [2 ** 1024] is [inf] in Python ([is_inf], [accumulate]).
    NaN, which the rate totals can only reach through a recipe count that is
    negative or fractional, is outside the model.

    Exceptions.  Indexing an empty list, dividing by zero and converting
    an infinite float to [int] raise in Python; the three are kept, in the
    [result] monad below.

    Dictionaries.  A Python [dict] keeps insertion order, so it is an
    association list; the reports, of type [Dict[str, Any]], are values of
    the JSON-like type [value]. *)

From Stdlib Require Import ZArith QArith Qround Qabs Qpower Lia Lqa.
From Stdlib Require Import Bool List String Ascii DecimalString.
From Stdlib Require Import Permutation Sorted.
Import ListNotations.

Set Warnings "-register-all".

Open Scope Q_scope.

(* ================================================================== *)
(** * Python runtime: exceptions, numbers, formatting, values          *)
(* ================================================================== *)

Module Py.

(** The exceptions the analysers can meet. *)
Inductive exn : Type :=
| IndexError
| ZeroDivisionError
| OverflowError.

Inductive result (A : Type) : Type :=
| Ok (a : A)
| Raise (e : exn).
Arguments Ok {A} a.
Arguments Raise {A} e.

Definition bind {A B : Type} (m : result A) (k : A -> result B) : result B :=
  match m with
  | Ok a => k a
  | Raise e => Raise e
  end.

(** [for x in l: acc = step acc x], where the body may raise. *)
Fixpoint for_each {A S : Type} (step : S -> A -> result S) (l : list A) (acc : S)
  : result S :=
  match l with
  | [] => Ok acc
  | x :: rest => bind (step acc x) (for_each step rest)
  end.

(** ** Comparisons *)

Definition Qltb (a b : Q) : bool := negb (Qle_bool b a).
Definition Qgtb (a b : Q) : bool := Qltb b a.
Definition Qleb (a b : Q) : bool := Qle_bool a b.
Definition Qgeb (a b : Q) : bool := Qle_bool b a.

(** ** Arithmetic *)

(** [a / b]: true division, raising on a zero divisor. *)
Definition div (a b : Q) : result Q :=
  if Qeq_bool b 0 then Raise ZeroDivisionError else Ok (a / b).

(** [sum(xs)] *)
Definition sum (xs : list Q) : Q := fold_left Qplus xs 0.

(** [len(xs)] *)
Definition len {A : Type} (xs : list A) : Z := Z.of_nat (List.length xs).

(** [sum(1 for x in xs if p(x))] *)
Definition count {A : Type} (p : A -> bool) (xs : list A) : Z :=
  Z.of_nat (List.length (filter p xs)).

(** [xs[0]] *)
Definition index0 {A : Type} (xs : list A) : result A :=
  match xs with
  | [] => Raise IndexError
  | x :: _ => Ok x
  end.

Definition Qmax (a b : Q) : Q := if Qltb a b then b else a.

(** [int(x)] on a float: truncation towards zero. *)
Definition int (x : Q) : Z :=
  if Qle_bool 0 x then Qfloor x else Qceiling x.

(** Nearest integer, ties to the even one. *)
Definition round_half_even (x : Q) : Z :=
  let f := Qfloor x in
  match Qcompare (x - inject_Z f) (1 # 2) with
  | Lt => f
  | Gt => (f + 1)%Z
  | Eq => if Z.even f then f else (f + 1)%Z
  end.

Definition pow10 (n : nat) : Q := inject_Z (10 ^ Z.of_nat n).

(** [round(x, ndigits)] *)
Definition round (x : Q) (ndigits : nat) : Q :=
  Qred (inject_Z (round_half_even (x * pow10 ndigits)) / pow10 ndigits).

(** ** Binary64 rounding *)

(** [2 ** e] *)
Definition pow2 (e : Z) : Q := 2 ^ e.

(** The binade of a non-zero [x]: the [b] with [2**b <= |x| < 2**(b+1)]. *)
Definition binade (x : Q) : Z :=
  let k := (Z.log2 (Z.abs (Qnum x)) - Z.log2 (Zpos (Qden x)))%Z in
  if Qle_bool (pow2 k) (Qabs x) then k else (k - 1)%Z.

(** Rounding to the nearest number with 53 significant bits, ties to the
    even significand: the result of a binary64 operation whose exact value
    is [x], as long as it neither overflows nor falls among the subnormals. *)
Definition fl (x : Q) : Q :=
  let x := Qred x in
  if Qeq_bool x 0 then 0
  else
    let e := (binade x - 52)%Z in
    Qred (inject_Z (round_half_even (x / pow2 e)) * pow2 e).

(** [a + b], [a - b], [a * b] and [a / b] on floats. *)
Definition fadd (a b : Q) : Q := fl (a + b).
Definition fsub (a b : Q) : Q := fl (a - b).
Definition fmul (a b : Q) : Q := fl (a * b).
Definition fdiv (a b : Q) : result Q :=
  if Qeq_bool b 0 then Raise ZeroDivisionError else Ok (fl (a / b)).

(** [total = 0; for x in xs: total += x] *)
Definition fsum (xs : list Q) : Q := fold_left fadd xs 0.

(** The unit roundoff of binary64, [2 ** -53]. *)
Definition unit_roundoff : Q := 1 # 9007199254740992.

(** A rounded result that reaches [2 ** 1024] in size has overflowed:
    Python holds [inf], or [-inf], in its place. *)
Definition is_inf (x : Q) : bool := Qle_bool (pow2 1024) x.
Definition is_neg_inf (x : Q) : bool := Qle_bool x (- pow2 1024).

(** [total + x] where [total] may have overflowed before: an infinity
    absorbs every finite term.  [inf + -inf], a NaN, is outside the model. *)
Definition accumulate (total x : Q) : Q :=
  if is_inf total || is_neg_inf total then total
  else if is_inf x || is_neg_inf x then x
  else fadd total x.

(** ** Formatting *)

Definition str_of_Z (z : Z) : string := NilZero.string_of_int (Z.to_int z).

(** [f"{x:.1f}"]: sign, integer part, one rounded decimal. *)
Definition fmt_1f (x : Q) : string :=
  let tenths := round_half_even (Qabs x * 10) in
  ((if Qltb x 0 then "-" else "")
     ++ str_of_Z (tenths / 10) ++ "." ++ str_of_Z (tenths mod 10))%string.

(** [sep.join(xs)] *)
Definition join (sep : string) (xs : list string) : string := String.concat sep xs.

(** [a or b] on an optional string: [None] and [""] are falsy. *)
Definition str_or (a : option string) (b : string) : string :=
  match a with
  | Some s => if String.eqb s "" then b else s
  | None => b
  end.

(** ** Report values ([Dict[str, Any]]) *)

Inductive value : Type :=
| VNone
| VBool (b : bool)
| VInt (z : Z)
| VFloat (q : Q)
| VStr (s : string)
| VList (l : list value)
| VDict (d : list (string * value)).

(** [d.get(k)] on an insertion-ordered dictionary. *)
Fixpoint assoc_find {K V : Type} (eqb : K -> K -> bool) (k : K)
         (d : list (K * V)) : option V :=
  match d with
  | [] => None
  | (k', v) :: rest => if eqb k k' then Some v else assoc_find eqb k rest
  end.

(** [v[k]] for a report value. *)
Definition get (k : string) (v : value) : option value :=
  match v with
  | VDict d => assoc_find String.eqb k d
  | _ => None
  end.

(** [d[k] = v]: overwrite in place, or append a new key. *)
Fixpoint assoc_set {K V : Type} (eqb : K -> K -> bool) (k : K) (v : V)
         (d : list (K * V)) : list (K * V) :=
  match d with
  | [] => [(k, v)]
  | (k', v') :: rest =>
      if eqb k k' then (k, v) :: rest else (k', v') :: assoc_set eqb k v rest
  end.

(** [xs.sort(key=key, reverse=True)]: stable, descending. *)
Fixpoint insert_desc {A : Type} (key : A -> Q) (x : A) (l : list A) : list A :=
  match l with
  | [] => [x]
  | y :: rest =>
      if Qltb (key x) (key y) then y :: insert_desc key x rest else x :: y :: rest
  end.

Definition sort_desc {A : Type} (key : A -> Q) (l : list A) : list A :=
  fold_right (insert_desc key) [] l.

End Py.

Notation "x <- m ;; k" := (Py.bind m (fun x => k))
  (at level 61, m at next level, right associativity).

Import Py.

(* ================================================================== *)
(** * Data model                                                       *)
(* ================================================================== *)

(** The classes of [models/factory_state.py] and [utils/recipe_database.py]
    are imported by the analysers but are not among the sources; the records
    below carry the fields the analysers read, with the types the
    specification's data model gives them. *)

Module RecipeInput.
Record t : Type := mk
  { item_id : Z;
    count : Q;                        (* units per cycle *)
    item_name : option string }.      (* cached display name *)
End RecipeInput.

Module RecipeOutput.
Record t : Type := mk
  { item_id : Z;
    count : Q;
    item_name : option string }.
End RecipeOutput.

Module Recipe.
Record t : Type := mk
  { id : Z;
    building : string;
    time : Q;                         (* seconds per cycle *)
    inputs : list RecipeInput.t;
    outputs : list RecipeOutput.t;
    primary_output : RecipeOutput.t;
    primary_output_id : Z }.
End Recipe.

Module RecipeDatabase.
(** Modelled from the spec: the interface of [RecipeDatabase], whose
    implementation ([utils/recipe_database.py]) is missing.  The analysers
    are verified against any catalogue with these total, pure lookups
    (the specification: unknown ids are never an error). *)
Record t : Type := mk
  { get_recipe : Z -> option Recipe.t;
    get_item_id : string -> option Z;
    get_item_name : Z -> string;
    calculate_theoretical_rate : Z -> Z -> Q;
    trace_bottleneck_upstream : Z -> Z -> list (Z * string * Z);
    trace_bottleneck_downstream : Z -> Z -> list (Z * string) }.
End RecipeDatabase.

Module AssemblerMetrics.
Record t : Type := mk
  { recipe_id : Z;
    production_rate : Q;              (* items/min, actual *)
    theoretical_max : Q;              (* items/min at 100% *)
    efficiency : Q;                   (* percent *)
    input_starved : bool;
    output_blocked : bool }.
End AssemblerMetrics.

Module BeltMetrics.
Record t : Type := mk
  { belt_id : Z;
    item_type : string;
    throughput : Q;
    max_throughput : Q;
    saturation_percent : Q }.
End BeltMetrics.

Module PowerState.
Record t : Type := mk
  { generation_mw : Q;
    consumption_mw : Q;
    surplus_mw : Q;
    accumulator_charge_percent : Q }.
End PowerState.

Module PlanetState.
Record t : Type := mk
  { planet_name : string;
    assemblers : list AssemblerMetrics.t;
    belts : list BeltMetrics.t;
    power : option PowerState.t }.
End PlanetState.

Module FactoryState.
(** [timestamp] is only ever passed through [isoformat()]; it is kept in
    that form.  [planets] is a dict keyed by planet id. *)
Record t : Type := mk
  { timestamp : string;
    planets : list (Z * PlanetState.t) }.
End FactoryState.

(* ================================================================== *)
(** * bottleneck_analyzer.py                                           *)
(* ================================================================== *)

Module Bottleneck.
(** The dataclass [Bottleneck]. *)
Record t : Type := mk
  { item_id : Z;
    item_name : string;
    recipe_id : Z;
    bottleneck_type : string;
    severity : Q;
    affected_throughput : Q;
    efficiency : Q;
    root_cause : string;
    recommendation : string;
    upstream_items : list string;
    downstream_impact : list string;
    planet_id : Z;
    assembler_count : Z }.

(** [b.planet_id = pid] *)
Definition set_planet_id (b : t) (pid : Z) : t :=
  mk (item_id b) (item_name b) (recipe_id b) (bottleneck_type b) (severity b)
     (affected_throughput b) (efficiency b) (root_cause b) (recommendation b)
     (upstream_items b) (downstream_impact b) pid (assembler_count b).
End Bottleneck.

Module BottleneckAnalyzer.
Section WithDatabase.

Variable db : RecipeDatabase.t.

Definition _get_upstream_items (recipe_id : Z) : list string :=
  match RecipeDatabase.get_recipe db recipe_id with
  | None => []
  | Some recipe =>
      map (fun inp => str_or (RecipeInput.item_name inp)
                             (RecipeDatabase.get_item_name db (RecipeInput.item_id inp)))
          (Recipe.inputs recipe)
  end.

Definition _get_downstream_items (item_id : Z) : list string :=
  map snd (RecipeDatabase.trace_bottleneck_downstream db item_id 3).

Definition _is_in_dependency_chain (recipe_id target_item_id : Z) : bool :=
  match RecipeDatabase.get_recipe db recipe_id with
  | None => false
  | Some recipe =>
      existsb (fun entry => (fst entry =? target_item_id)%Z)
              (RecipeDatabase.trace_bottleneck_downstream
                 db (Recipe.primary_output_id recipe) 5)
  end.

(** [xs[0] if xs else 'inputs'] *)
Definition first_or_inputs (xs : list string) : string :=
  match xs with
  | x :: _ => x
  | [] => "inputs"
  end.

(** The literal [0.3] of the two 30% tests.  The double nearest to 0.3 is
    3/10 to within 2^-54, and [len * 0.3] is compared with an integer count:
    for every group size below 2^50 the test decides as with 3/10. *)
Definition threshold_30 : Q := 3 # 10.

(** The total theoretical rate of a group (lines 181-185 of
    [_analyze_recipe_group]). *)
Definition total_theoretical_rate
           (recipe_id : Z) (assemblers : list AssemblerMetrics.t) : result Q :=
  first <- index0 assemblers ;;
  let total_theoretical :=
    if Qgtb (AssemblerMetrics.theoretical_max first) 0
    then sum (map AssemblerMetrics.theoretical_max assemblers)
    else 0 in
  (* if no theoretical max set, calculate from recipe *)
  if Qeq_bool total_theoretical 0
  then Ok (RecipeDatabase.calculate_theoretical_rate db recipe_id (len assemblers))
  else Ok total_theoretical.

(** The group statistics of [_analyze_recipe_group] (lines 180-187):
    total production, total theoretical rate, average efficiency. *)
Definition group_statistics (recipe_id : Z) (assemblers : list AssemblerMetrics.t)
  : result (Q * Q * Q) :=
  let total_production := sum (map AssemblerMetrics.production_rate assemblers) in
  total_theoretical <- total_theoretical_rate recipe_id assemblers ;;
  avg_efficiency <-
    (if Qgtb total_theoretical 0
     then (q <- div total_production total_theoretical ;; Ok (q * 100))
     else Ok 100) ;;
  Ok (total_production, total_theoretical, avg_efficiency).

Definition _analyze_recipe_group
           (recipe_id : Z) (assemblers : list AssemblerMetrics.t)
           (planet : PlanetState.t) (include_downstream : bool)
  : result (option Bottleneck.t) :=
  match RecipeDatabase.get_recipe db recipe_id with
  | None => Ok None
  | Some recipe =>
      statistics <- group_statistics recipe_id assemblers ;;
      let '(total_production, total_theoretical, avg_efficiency) := statistics in
      let input_starved_count := count AssemblerMetrics.input_starved assemblers in
      let output_blocked_count := count AssemblerMetrics.output_blocked assemblers in
      (* bottleneck type, severity, root cause, recommendation *)
      verdict <-
        (if Qgtb (inject_Z input_starved_count)
                 (inject_Z (len assemblers) * threshold_30)
         then
           frac <- div (inject_Z input_starved_count) (inject_Z (len assemblers)) ;;
           let upstream := _get_upstream_items recipe_id in
           Ok (Some "input_starvation"%string,
               frac * 100,
               ("Insufficient input: " ++ join ", " (firstn 3 upstream))%string,
               ("Increase production of " ++ first_or_inputs upstream
                  ++ " or add more input belts")%string)
         else if Qgtb (inject_Z output_blocked_count)
                      (inject_Z (len assemblers) * threshold_30)
         then
           frac <- div (inject_Z output_blocked_count) (inject_Z (len assemblers)) ;;
           let downstream :=
             if include_downstream
             then _get_downstream_items (Recipe.primary_output_id recipe)
             else [] in
           Ok (Some "output_blocked"%string,
               frac * 100,
               "Output buffer full, downstream consumption insufficient"%string,
               match downstream with
               | d :: _ =>
                   ("Increase consumption by " ++ d ++ " or add more output belts")%string
               | [] =>
                   "Add more output belts or increase downstream consumption"%string
               end)
         else if Qltb avg_efficiency 80
         then
           Ok (Some "low_efficiency"%string,
               100 - avg_efficiency,
               match PlanetState.power planet with
               | Some p =>
                   if Qltb (PowerState.surplus_mw p) 0
                   then ("Power deficit of " ++ fmt_1f (Qabs (PowerState.surplus_mw p))
                           ++ "MW limiting production")%string
                   else "Assemblers running below optimal efficiency"%string
               | None => "Assemblers running below optimal efficiency"%string
               end,
               match PlanetState.power planet with
               | Some p =>
                   if Qltb (PowerState.surplus_mw p) 0
                   then "Add power generation to restore full efficiency"%string
                   else "Check for sporadic input/output issues or power fluctuations"%string
               | None =>
                   "Check for sporadic input/output issues or power fluctuations"%string
               end)
         else Ok (None, 0, ""%string, ""%string)) ;;
      let '(bottleneck_type, severity, root_cause, recommendation) := verdict in
      match bottleneck_type with
      | None => Ok None
      | Some bottleneck_type =>
          let upstream_items := _get_upstream_items recipe_id in
          let downstream_items :=
            if include_downstream
            then _get_downstream_items (Recipe.primary_output_id recipe)
            else [] in
          Ok (Some
                {| Bottleneck.item_id := Recipe.primary_output_id recipe;
                   Bottleneck.item_name :=
                     str_or (RecipeOutput.item_name (Recipe.primary_output recipe))
                            (RecipeDatabase.get_item_name
                               db (Recipe.primary_output_id recipe));
                   Bottleneck.recipe_id := recipe_id;
                   Bottleneck.bottleneck_type := bottleneck_type;
                   Bottleneck.severity := severity;
                   Bottleneck.affected_throughput := total_theoretical - total_production;
                   Bottleneck.efficiency := avg_efficiency;
                   Bottleneck.root_cause := root_cause;
                   Bottleneck.recommendation := recommendation;
                   Bottleneck.upstream_items := firstn 5 upstream_items;
                   Bottleneck.downstream_impact := firstn 5 downstream_items;
                   Bottleneck.planet_id := 0;
                   Bottleneck.assembler_count := len assemblers |})
      end
  end.

Definition _build_critical_path
           (bottlenecks : list Bottleneck.t) (target_item_id : option Z)
  : list value :=
  match bottlenecks with
  | [] => []
  | root :: _ =>
      (* trace upstream of the most severe bottleneck *)
      let upstream :=
        RecipeDatabase.trace_bottleneck_upstream db (Bottleneck.item_id root) 5 in
      map (fun entry =>
             let '(item_id, item_name, recipe_id) := entry in
             let matching_bottleneck :=
               find (fun b => (Bottleneck.item_id b =? item_id)%Z) bottlenecks in
             VDict
               ([("item"%string, VStr item_name);
                 ("item_id"%string, VInt item_id);
                 ("recipe_id"%string, VInt recipe_id);
                 ("has_bottleneck"%string,
                  VBool (match matching_bottleneck with Some _ => true | None => false end))]
                  ++ match matching_bottleneck with
                     | Some b =>
                         [("bottleneck_type"%string, VStr (Bottleneck.bottleneck_type b));
                          ("severity"%string, VFloat (Bottleneck.severity b))]
                     | None => []
                     end))
          upstream
  end.

Definition _generate_summary_message (most_severe : Bottleneck.t) (count : Z) : string :=
  if String.eqb (Bottleneck.bottleneck_type most_severe) "input_starvation" then
    ("Production of " ++ Bottleneck.item_name most_severe
       ++ " is limited by input availability. "
       ++ "Upstream production of "
       ++ first_or_inputs (Bottleneck.upstream_items most_severe) ++ " "
       ++ "needs to be increased.")%string
  else if String.eqb (Bottleneck.bottleneck_type most_severe) "output_blocked" then
    ("Production of " ++ Bottleneck.item_name most_severe
       ++ " is backing up due to insufficient downstream consumption. "
       ++ "Consider adding more output capacity or increasing demand.")%string
  else if String.eqb (Bottleneck.bottleneck_type most_severe) "low_efficiency" then
    (str_of_Z count ++ " production lines running below optimal efficiency. "
       ++ "Check power supply and belt saturation.")%string
  else
    (str_of_Z count ++ " bottlenecks detected affecting factory throughput.")%string.

(** [by_type[t] = by_type.get(t, 0) + 1] over the bottlenecks. *)
Definition count_by_type (bottlenecks : list Bottleneck.t) : list (string * Z) :=
  fold_left
    (fun by_type b =>
       let t := Bottleneck.bottleneck_type b in
       assoc_set String.eqb t
                 (match assoc_find String.eqb t by_type with
                  | Some n => n
                  | None => 0
                  end + 1)%Z
                 by_type)
    bottlenecks [].

(** [max(d, key=d.get)]: the first key holding the largest value. *)
Definition max_key (d : list (string * Z)) : option string :=
  option_map fst
    (fold_left
       (fun best kv =>
          match best with
          | None => Some kv
          | Some b => if (snd b <? snd kv)%Z then Some kv else Some b
          end)
       d None).

Definition _generate_summary
           (bottlenecks : list Bottleneck.t)
           (total_assemblers inefficient_assemblers : Z)
  : result value :=
  match bottlenecks with
  | [] =>
      efficiency <-
        (if (total_assemblers =? 0)%Z
         then Ok 100
         else
           q <- div (inject_Z inefficient_assemblers) (inject_Z total_assemblers) ;;
           Ok (round ((1 - q) * 100) 1)) ;;
      Ok (VDict [("status"%string, VStr "healthy");
                 ("message"%string, VStr "No significant bottlenecks detected");
                 ("efficiency"%string, VFloat efficiency)])
  | most_severe :: _ =>
      let by_type := count_by_type bottlenecks in
      let most_common :=
        match max_key by_type with
        | Some k => k
        | None => "unknown"%string
        end in
      let status :=
        if Qgtb (Bottleneck.severity most_severe) 80 then "critical"%string
        else if Qgtb (Bottleneck.severity most_severe) 50 then "warning"%string
        else "minor"%string in
      q <- div (inject_Z inefficient_assemblers)
               (inject_Z (Z.max 1 total_assemblers)) ;;
      Ok (VDict [("status"%string, VStr status);
                 ("total_bottlenecks"%string, VInt (len bottlenecks));
                 ("most_common_type"%string, VStr most_common);
                 ("most_severe_item"%string, VStr (Bottleneck.item_name most_severe));
                 ("most_severe_type"%string, VStr (Bottleneck.bottleneck_type most_severe));
                 ("efficiency"%string, VFloat (round ((1 - q) * 100) 1));
                 ("message"%string,
                  VStr (_generate_summary_message most_severe (len bottlenecks)))])
  end.

(** [assemblers_by_recipe]: one list per recipe id, keys in order of
    first appearance, members in snapshot order. *)
Definition group_by_recipe (assemblers : list AssemblerMetrics.t)
  : list (Z * list AssemblerMetrics.t) :=
  fold_left
    (fun by_recipe assembler =>
       let r := AssemblerMetrics.recipe_id assembler in
       match assoc_find Z.eqb r by_recipe with
       | None => by_recipe ++ [(r, [assembler])]
       | Some members => assoc_set Z.eqb r (members ++ [assembler]) by_recipe
       end)
    assemblers [].

(** The counters [analyze] updates while it walks the snapshot. *)
Record tally : Type := mk_tally
  { bottlenecks : list Bottleneck.t;
    planets_analyzed : Z;
    total_assemblers : Z;
    inefficient_assemblers : Z }.

(** Body of [for recipe_id, recipe_assemblers in assemblers_by_recipe.items()]. *)
Definition analyze_group
           (pid : Z) (planet : PlanetState.t)
           (target_item_id : option Z) (include_downstream : bool)
           (st : tally) (group : Z * list AssemblerMetrics.t) : result tally :=
  let '(recipe_id, recipe_assemblers) := group in
  match RecipeDatabase.get_recipe db recipe_id with
  | None => Ok st
  | Some recipe =>
      let skipped :=
        match target_item_id with
        | Some target =>
            negb (Recipe.primary_output_id recipe =? target)%Z
            && negb (_is_in_dependency_chain recipe_id target)
        | None => false
        end in
      if skipped then Ok st
      else
        group_bottleneck <-
          _analyze_recipe_group recipe_id recipe_assemblers planet include_downstream ;;
        Ok {| bottlenecks :=
                match group_bottleneck with
                | Some b => bottlenecks st ++ [Bottleneck.set_planet_id b pid]
                | None => bottlenecks st
                end;
              planets_analyzed := planets_analyzed st;
              total_assemblers := total_assemblers st;
              inefficient_assemblers :=
                (inefficient_assemblers st
                 + count (fun asm => Qltb (AssemblerMetrics.efficiency asm) 90)
                         recipe_assemblers)%Z |}
  end.

(** Body of [for pid, planet in factory_state.planets.items()]. *)
Definition analyze_planet
           (planet_id : option Z) (target_item_id : option Z)
           (include_downstream : bool)
           (st : tally) (entry : Z * PlanetState.t) : result tally :=
  let '(pid, planet) := entry in
  if match planet_id with
     | Some wanted => negb (pid =? wanted)%Z
     | None => false
     end
  then Ok st
  else
    let st :=
      {| bottlenecks := bottlenecks st;
         planets_analyzed := (planets_analyzed st + 1)%Z;
         total_assemblers :=
           (total_assemblers st + len (PlanetState.assemblers planet))%Z;
         inefficient_assemblers := inefficient_assemblers st |} in
    for_each (analyze_group pid planet target_item_id include_downstream)
             (group_by_recipe (PlanetState.assemblers planet)) st.

(** One entry of the report's ["bottlenecks"] list. *)
Definition bottleneck_entry (b : Bottleneck.t) : value :=
  VDict [("item"%string, VStr (Bottleneck.item_name b));
         ("item_id"%string, VInt (Bottleneck.item_id b));
         ("recipe_id"%string, VInt (Bottleneck.recipe_id b));
         ("planet_id"%string, VInt (Bottleneck.planet_id b));
         ("type"%string, VStr (Bottleneck.bottleneck_type b));
         ("severity"%string, VFloat (round (Bottleneck.severity b) 1));
         ("efficiency"%string, VFloat (round (Bottleneck.efficiency b) 1));
         ("throughput_loss"%string, VFloat (round (Bottleneck.affected_throughput b) 2));
         ("assembler_count"%string, VInt (Bottleneck.assembler_count b));
         ("root_cause"%string, VStr (Bottleneck.root_cause b));
         ("recommendation"%string, VStr (Bottleneck.recommendation b));
         ("upstream_items"%string, VList (map VStr (Bottleneck.upstream_items b)));
         ("downstream_impact"%string, VList (map VStr (Bottleneck.downstream_impact b)))].

(** [target_item_id]: looked up only for a truthy (non-empty) name. *)
Definition resolve_target (target_item : option string) : option Z :=
  match target_item with
  | Some name =>
      if String.eqb name "" then None else RecipeDatabase.get_item_id db name
  | None => None
  end.

Definition analyze
           (factory_state : FactoryState.t)
           (planet_id : option Z) (target_item : option string)
           (time_window : Z) (include_downstream : bool)
  : result value :=
  let target_item_id := resolve_target target_item in
  st <- for_each (analyze_planet planet_id target_item_id include_downstream)
                 (FactoryState.planets factory_state)
                 (mk_tally [] 0 0 0) ;;
  (* sort by severity *)
  let bottlenecks := sort_desc Bottleneck.severity (bottlenecks st) in
  let critical_path :=
    if include_downstream
    then _build_critical_path bottlenecks target_item_id
    else [] in
  summary <- _generate_summary bottlenecks (total_assemblers st)
                               (inefficient_assemblers st) ;;
  Ok (VDict [("timestamp"%string, VStr (FactoryState.timestamp factory_state));
             ("planets_analyzed"%string, VInt (planets_analyzed st));
             ("total_assemblers"%string, VInt (total_assemblers st));
             ("inefficient_assemblers"%string, VInt (inefficient_assemblers st));
             ("bottlenecks_found"%string, VInt (len bottlenecks));
             ("summary"%string, summary);
             ("bottlenecks"%string, VList (map bottleneck_entry (firstn 10 bottlenecks)));
             ("critical_path"%string, VList critical_path)]).

End WithDatabase.
End BottleneckAnalyzer.

(* ================================================================== *)
(** * logistics_analyzer.py                                            *)
(* ================================================================== *)

Module ThroughputRequirement.
(** The dataclass [ThroughputRequirement]. *)
Record t : Type := mk
  { item_id : Z;
    item_name : string;
    production_rate : Q;              (* items/min *)
    consumption_rate : Q;             (* items/min *)
    net_rate : Q;
    required_belt_tier : string;
    belt_count_needed : Z }.
End ThroughputRequirement.

Module LogisticsAnalyzer.

(** [BELT_TIERS]: maximum throughput per tier, items/sec.  Only the three
    literal keys are ever looked up. *)
Definition BELT_TIERS (tier : string) : Q :=
  if String.eqb tier "mk1" then 6
  else if String.eqb tier "mk2" then 12
  else if String.eqb tier "mk3" then 30
  else 0.

Section WithDatabase.

Variable db : RecipeDatabase.t.

(** [d.get(k, 0)] *)
Definition rate_of (d : list (Z * Q)) (k : Z) : Q :=
  match assoc_find Z.eqb k d with
  | Some v => v
  | None => 0
  end.

(** [d[k] = d.get(k, 0) + x] *)
Definition add_rate (d : list (Z * Q)) (k : Z) (x : Q) : list (Z * Q) :=
  assoc_set Z.eqb k (accumulate (rate_of d k) x) d.

(** Body of [for assembler in assemblers]: the two aggregation dicts. *)
Definition aggregate_assembler
           (st : list (Z * Q) * list (Z * Q)) (assembler : AssemblerMetrics.t)
  : result (list (Z * Q) * list (Z * Q)) :=
  let '(production_by_item, consumption_by_item) := st in
  match RecipeDatabase.get_recipe db (AssemblerMetrics.recipe_id assembler) with
  | None => Ok st
  | Some recipe =>
      (* track production output *)
      let production_by_item :=
        fold_left
          (fun d output =>
             add_rate d (RecipeOutput.item_id output)
                      (AssemblerMetrics.production_rate assembler))
          (Recipe.outputs recipe) production_by_item in
      (* consumption from the recipe inputs *)
      if Qgtb (AssemblerMetrics.production_rate assembler) 0
         && Qgtb (Recipe.time recipe) 0
      then
        cycles_per_min <-
          fdiv (AssemblerMetrics.production_rate assembler)
               (RecipeOutput.count (Recipe.primary_output recipe)) ;;
        Ok (production_by_item,
            fold_left
              (fun d inp =>
                 add_rate d (RecipeInput.item_id inp)
                          (fmul cycles_per_min (RecipeInput.count inp)))
              (Recipe.inputs recipe) consumption_by_item)
      else Ok (production_by_item, consumption_by_item)
  end.

(** [set(production_by_item.keys()) | set(consumption_by_item.keys())].
    Python leaves the iteration order of a set unspecified; here the keys
    come in order of first appearance, production first.  Nothing below
    depends on that order. *)
Definition all_items (production_by_item consumption_by_item : list (Z * Q)) : list Z :=
  map fst production_by_item
      ++ filter (fun k => match assoc_find Z.eqb k production_by_item with
                          | Some _ => false
                          | None => true
                          end)
                (map fst consumption_by_item).

(** Body of [for item_id in all_items] (lines 183-210), for totals that
    are finite. *)
Definition requirement_for
           (production_by_item consumption_by_item : list (Z * Q)) (item_id : Z)
  : ThroughputRequirement.t :=
  let production := rate_of production_by_item item_id in
  let consumption := rate_of consumption_by_item item_id in
  let net_rate := production - consumption in
  (* belt requirements from the larger flow *)
  let max_flow := Qmax production consumption in
  let flow_per_sec := max_flow / 60 in
  let '(required_tier, belt_count) :=
    if Qleb flow_per_sec (BELT_TIERS "mk1") then
      ("mk1"%string,
       if Qgtb flow_per_sec 0
       then Z.max 1 (int (flow_per_sec / BELT_TIERS "mk1") + 1)
       else 0%Z)
    else if Qleb flow_per_sec (BELT_TIERS "mk2") then
      ("mk2"%string,
       if Qgtb flow_per_sec 0
       then Z.max 1 (int (flow_per_sec / BELT_TIERS "mk2") + 1)
       else 0%Z)
    else
      ("mk3"%string,
       if Qgtb flow_per_sec 0
       then Z.max 1 (int (flow_per_sec / BELT_TIERS "mk3") + 1)
       else 0%Z) in
  {| ThroughputRequirement.item_id := item_id;
     ThroughputRequirement.item_name := RecipeDatabase.get_item_name db item_id;
     ThroughputRequirement.production_rate := production;
     ThroughputRequirement.consumption_rate := consumption;
     ThroughputRequirement.net_rate := net_rate;
     ThroughputRequirement.required_belt_tier := required_tier;
     ThroughputRequirement.belt_count_needed := belt_count |}.

(** Body of [for item_id in all_items] with its exception: when a total
    is [inf], so is [flow_per_sec], the tier is mk3, and
    [int(flow_per_sec / BELT_TIERS["mk3"])] raises [OverflowError]. *)
Definition checked_requirement
           (production_by_item consumption_by_item : list (Z * Q)) (item_id : Z)
  : result ThroughputRequirement.t :=
  if is_inf (rate_of production_by_item item_id)
     || is_inf (rate_of consumption_by_item item_id)
  then Raise OverflowError
  else Ok (requirement_for production_by_item consumption_by_item item_id).

Definition _calculate_throughput_requirements (assemblers : list AssemblerMetrics.t)
  : result (list ThroughputRequirement.t) :=
  st <- for_each aggregate_assembler assemblers ([], []) ;;
  let '(production_by_item, consumption_by_item) := st in
  for_each (fun requirements item_id =>
              r <- checked_requirement production_by_item consumption_by_item item_id ;;
              Ok (requirements ++ [r]))
           (all_items production_by_item consumption_by_item) [].

(** [s.replace(old, new)] for a non-empty [old]: occurrences are replaced
    from the left, without overlap. *)
Fixpoint replace_upto (fuel : nat) (old new s : string) : string :=
  match fuel with
  | O => s
  | S fuel =>
      match s with
      | EmptyString => EmptyString
      | String c rest =>
          if String.prefix old s
          then (new ++ replace_upto fuel old new
                         (substring (String.length old)
                                    (String.length s - String.length old) s))%string
          else String c (replace_upto fuel old new rest)
      end
  end.

Definition replace (old new s : string) : string :=
  replace_upto (String.length s) old new s.

Definition _detect_tier (max_throughput : Q) : string :=
  if Qleb max_throughput 6 then "mk1"
  else if Qleb max_throughput 12 then "mk2"
  else "mk3".

Definition _upgrade_recommendation (belt : BeltMetrics.t) : string :=
  let current_tier := _detect_tier (BeltMetrics.max_throughput belt) in
  if String.eqb current_tier "mk1"
  then "Upgrade to Mk2 (green) belt for 2x throughput"
  else if String.eqb current_tier "mk2"
  then "Upgrade to Mk3 (yellow) belt for 2.5x throughput"
  else "At max tier - consider parallel belt lines".

(** The [belt_data] dict of [analyze]: fixed keys, of which ["status"] and
    ["recommendation"] are set only for a flagged belt. *)
Record belt_data : Type := mk_belt_data
  { bd_planet_id : Z;
    bd_belt_id : Z;
    bd_item : string;
    bd_throughput : Q;
    bd_max_throughput : Q;
    bd_saturation : Q;
    bd_status : option string;
    bd_recommendation : option string }.

(** [belt_data] as the report shows it. *)
Definition belt_entry (b : belt_data) : value :=
  VDict ([("planet_id"%string, VInt (bd_planet_id b));
          ("belt_id"%string, VInt (bd_belt_id b));
          ("item"%string, VStr (bd_item b));
          ("throughput"%string, VFloat (bd_throughput b));
          ("max_throughput"%string, VFloat (bd_max_throughput b));
          ("saturation"%string, VFloat (bd_saturation b))]
           ++ match bd_status b with
              | Some st => [("status"%string, VStr st)]
              | None => []
              end
           ++ match bd_recommendation b with
              | Some r => [("recommendation"%string, VStr r)]
              | None => []
              end).

(** [item_counts[item] = item_counts.get(item, 0) + 1] over the belts. *)
Definition count_items (belts : list belt_data) : list (string * Z) :=
  fold_left
    (fun item_counts belt =>
       let item := bd_item belt in
       assoc_set String.eqb item
                 (match assoc_find String.eqb item item_counts with
                  | Some n => n
                  | None => 0
                  end + 1)%Z
                 item_counts)
    belts [].

Definition _global_recommendations (saturated_belts : list belt_data) : list string :=
  if (len saturated_belts =? 0)%Z then
    ["No saturated belts detected - logistics healthy"%string]
  else if (len saturated_belts <? 5)%Z then
    [(str_of_Z (len saturated_belts)
        ++ " saturated belts - targeted upgrades recommended")%string]
  else
    [(str_of_Z (len saturated_belts)
        ++ " saturated belts - consider systematic belt upgrade")%string]
      ++ (* most common saturated item *)
      let item_counts := count_items saturated_belts in
      match BottleneckAnalyzer.max_key item_counts with
      | Some worst_item =>
          [("Most congested item: " ++ worst_item ++ " ("
              ++ str_of_Z (match assoc_find String.eqb worst_item item_counts with
                           | Some n => n
                           | None => 0
                           end)
              ++ " belts)")%string]
      | None => []
      end.

(** [int(s)] on a string, [None] standing for [ValueError].  The analyser
    is verified for whatever the conversion accepts. *)
Variable parse_int : string -> option Z.

(** The display name of a belt's item (lines 83-91 of [analyze]). *)
Definition item_display (belt : BeltMetrics.t) : string :=
  let item_type := BeltMetrics.item_type belt in
  if String.prefix "item_" item_type then
    match parse_int (replace "item_" "" item_type) with
    | Some item_id =>
        let resolved_name := RecipeDatabase.get_item_name db item_id in
        if negb (String.prefix "item_" resolved_name) then resolved_name else item_type
    | None => item_type
    end
  else item_type.

(** [x in xs] on strings. *)
Definition str_in (x : string) (xs : list string) : bool := existsb (String.eqb x) xs.

(** Body of [for belt in planet.belts]: the two lists of flagged belts. *)
Definition analyze_belt
           (pid : Z) (item_filter : option (list string)) (saturation_threshold : Q)
           (st : list belt_data * list belt_data) (belt : BeltMetrics.t)
  : list belt_data * list belt_data :=
  let '(saturated_belts, near_saturation) := st in
  let display := item_display belt in
  let filtered_out :=
    match item_filter with
    | Some (f :: fs) =>
        negb (str_in display (f :: fs))
        && negb (str_in (BeltMetrics.item_type belt) (f :: fs))
    | _ => false
    end in
  if filtered_out then st
  else
    let data status recommendation :=
      {| bd_planet_id := pid;
         bd_belt_id := BeltMetrics.belt_id belt;
         bd_item := display;
         bd_throughput := round (BeltMetrics.throughput belt) 2;
         bd_max_throughput := BeltMetrics.max_throughput belt;
         bd_saturation := round (BeltMetrics.saturation_percent belt) 1;
         bd_status := status;
         bd_recommendation := recommendation |} in
    if Qgeb (BeltMetrics.saturation_percent belt) saturation_threshold then
      (saturated_belts
         ++ [data (Some "saturated"%string) (Some (_upgrade_recommendation belt))],
       near_saturation)
    else if Qgeb (BeltMetrics.saturation_percent belt) (saturation_threshold - 10) then
      (saturated_belts,
       near_saturation ++ [data (Some "near_saturation"%string) None])
    else st.

(** What [analyze] accumulates over the planets. *)
Record tally : Type := mk_tally
  { saturated_belts : list belt_data;
    near_saturation : list belt_data;
    all_assemblers : list AssemblerMetrics.t }.

(** Body of [for pid, planet in factory_state.planets.items()]. *)
Definition analyze_planet
           (planet_id : option Z) (item_filter : option (list string))
           (saturation_threshold : Q)
           (st : tally) (entry : Z * PlanetState.t) : tally :=
  let '(pid, planet) := entry in
  if match planet_id with
     | Some wanted => negb (pid =? wanted)%Z
     | None => false
     end
  then st
  else
    let flagged :=
      fold_left (analyze_belt pid item_filter saturation_threshold)
                (PlanetState.belts planet)
                (saturated_belts st, near_saturation st) in
    {| saturated_belts := fst flagged;
       near_saturation := snd flagged;
       all_assemblers := all_assemblers st ++ PlanetState.assemblers planet |}.

(** One entry of the report's ["throughput_requirements"] list. *)
Definition requirement_entry (r : ThroughputRequirement.t) : value :=
  VDict [("item"%string, VStr (ThroughputRequirement.item_name r));
         ("item_id"%string, VInt (ThroughputRequirement.item_id r));
         ("production_rate"%string,
          VFloat (round (ThroughputRequirement.production_rate r) 2));
         ("consumption_rate"%string,
          VFloat (round (ThroughputRequirement.consumption_rate r) 2));
         ("net_rate"%string, VFloat (round (ThroughputRequirement.net_rate r) 2));
         ("required_belt_tier"%string, VStr (ThroughputRequirement.required_belt_tier r));
         ("belt_count_needed"%string, VInt (ThroughputRequirement.belt_count_needed r))].

Definition analyze
           (factory_state : FactoryState.t) (planet_id : option Z)
           (item_filter : option (list string)) (saturation_threshold : Q)
           (include_throughput_analysis : bool) : result value :=
  let st :=
    fold_left (analyze_planet planet_id item_filter saturation_threshold)
              (FactoryState.planets factory_state)
              (mk_tally [] [] []) in
  (* sort by saturation level *)
  let saturated_belts := sort_desc bd_saturation (saturated_belts st) in
  let near_saturation := sort_desc bd_saturation (near_saturation st) in
  let result :=
    [("timestamp"%string, VStr (FactoryState.timestamp factory_state));
     ("threshold"%string, VFloat saturation_threshold);
     ("summary"%string,
      VDict [("saturated_count"%string, VInt (len saturated_belts));
             ("near_saturation_count"%string, VInt (len near_saturation))]);
     ("saturated_belts"%string, VList (map belt_entry (firstn 20 saturated_belts)));
     ("near_saturation"%string, VList (map belt_entry (firstn 10 near_saturation)));
     ("recommendations"%string,
      VList (map VStr (_global_recommendations saturated_belts)))] in
  if include_throughput_analysis then
    requirements <- _calculate_throughput_requirements (all_assemblers st) ;;
    match requirements with
    | [] => Ok (VDict result)
    | _ :: _ =>
        Ok (VDict
              (result
                 ++ [("throughput_requirements"%string,
                      VList (map requirement_entry
                                 (firstn 15
                                    (sort_desc
                                       (fun x => Qabs (ThroughputRequirement.net_rate x))
                                       requirements))))]))
    end
  else Ok (VDict result).

End WithDatabase.
End LogisticsAnalyzer.

(* ================================================================== *)
(** * power_analyzer.py                                                *)
(* ================================================================== *)

Module PowerConsumer.
(** The dataclass [PowerConsumer]. *)
Record t : Type := mk
  { recipe_id : Z;
    item_name : string;
    building_type : string;
    building_count : Z;
    power_mw : Q;
    efficiency : Q;
    production_rate : Q }.
End PowerConsumer.

Module PowerAnalyzer.

(** [BUILDING_POWER_CONSUMPTION]: MW at full load, per building type and tier. *)
Definition BUILDING_POWER_CONSUMPTION : list (string * list (string * Q)) :=
  [("smelter", [("mk1", 36 # 100); ("mk2", 72 # 100)]);
   ("assembler", [("mk1", 27 # 100); ("mk2", 54 # 100); ("mk3", 108 # 100)]);
   ("chemical", [("mk1", 72 # 100); ("mk2", 144 # 100)]);
   ("refinery", [("mk1", 96 # 100); ("mk2", 192 # 100)]);
   ("particle", [("mk1", 12); ("mk2", 24)]);
   ("lab", [("mk1", 48 # 100); ("mk2", 96 # 100)]);
   ("mining", [("mk1", 42 # 100); ("mk2", 84 # 100); ("mk3", 168 # 100)]);
   ("oil_extractor", [("mk1", 84 # 100); ("mk2", 168 # 100)]);
   ("fractionator", [("mk1", 72 # 100)]);
   ("orbital_collector", [("mk1", 0)]);
   ("ray_receiver", [("mk1", - (15))])]%string.

(** [BUILDING_POWER_CONSUMPTION.get(building_type, {}).get("mk2", 0.5)] *)
Definition power_per_building (building_type : string) : Q :=
  let tiers :=
    match assoc_find String.eqb building_type BUILDING_POWER_CONSUMPTION with
    | Some tiers => tiers
    | None => []
    end in
  match assoc_find String.eqb "mk2"%string tiers with
  | Some mw => mw
  | None => 1 # 2
  end.

Definition _generate_recommendation (power : PowerState.t) : string :=
  let deficit := Qabs (PowerState.surplus_mw power) in
  if Qltb deficit 10 then
    ("Minor deficit of " ++ fmt_1f deficit ++ "MW - add 1 thermal plant")%string
  else if Qltb deficit 50 then
    let plants_needed := (int (deficit / 15) + 1)%Z in
    ("Deficit of " ++ fmt_1f deficit ++ "MW - add " ++ str_of_Z plants_needed
       ++ " fusion plants")%string
  else
    ("Major deficit of " ++ fmt_1f deficit
       ++ "MW - consider artificial sun or ray receivers")%string.

Definition _global_recommendations (generation consumption : Q) : result (list string) :=
  let surplus := fsub generation consumption in
  surplus_percent <-
    (if Qgtb consumption 0
     then (q <- fdiv surplus consumption ;; Ok (fmul q 100))
     else Ok 100) ;;
  if Qltb surplus 0 then
    Ok [("CRITICAL: Global power deficit of " ++ fmt_1f (Qabs surplus) ++ "MW")%string]
  else if Qltb surplus_percent 10 then
    Ok [("WARNING: Power surplus below 10% (" ++ fmt_1f surplus_percent ++ "%)")%string;
        "Consider adding generation capacity before expanding"%string]
  else if Qgtb surplus_percent 50 then
    Ok [("Healthy power surplus of " ++ fmt_1f surplus_percent ++ "%")%string]
  else Ok [].

Section WithDatabase.

Variable db : RecipeDatabase.t.

(** Body of [for assembler in assemblers] of [_analyze_power_consumers]. *)
Definition account_assembler
           (consumers_by_recipe : list (Z * PowerConsumer.t))
           (assembler : AssemblerMetrics.t) : list (Z * PowerConsumer.t) :=
  match RecipeDatabase.get_recipe db (AssemblerMetrics.recipe_id assembler) with
  | None => consumers_by_recipe
  | Some recipe =>
      let building_type := Recipe.building recipe in
      let rid := AssemblerMetrics.recipe_id assembler in
      let consumer :=
        match assoc_find Z.eqb rid consumers_by_recipe with
        | Some c => c
        | None =>
            {| PowerConsumer.recipe_id := rid;
               PowerConsumer.item_name :=
                 str_or (RecipeOutput.item_name (Recipe.primary_output recipe))
                        (RecipeDatabase.get_item_name
                           db (Recipe.primary_output_id recipe));
               PowerConsumer.building_type := building_type;
               PowerConsumer.building_count := 0;
               PowerConsumer.power_mw := 0;
               PowerConsumer.efficiency := 0;
               PowerConsumer.production_rate := 0 |}
        end in
      assoc_set Z.eqb rid
        {| PowerConsumer.recipe_id := PowerConsumer.recipe_id consumer;
           PowerConsumer.item_name := PowerConsumer.item_name consumer;
           PowerConsumer.building_type := PowerConsumer.building_type consumer;
           PowerConsumer.building_count := (PowerConsumer.building_count consumer + 1)%Z;
           PowerConsumer.power_mw :=
             PowerConsumer.power_mw consumer
             + power_per_building building_type
               * (AssemblerMetrics.efficiency assembler / 100);
           PowerConsumer.efficiency := PowerConsumer.efficiency consumer;
           PowerConsumer.production_rate :=
             PowerConsumer.production_rate consumer
             + AssemblerMetrics.production_rate assembler |}
        consumers_by_recipe
  end.

(** Body of [for consumer in consumers_by_recipe.values()]. *)
Definition average_efficiency (consumer : PowerConsumer.t) : result PowerConsumer.t :=
  if (0 <? PowerConsumer.building_count consumer)%Z then
    q <- div (PowerConsumer.power_mw consumer)
             (inject_Z (PowerConsumer.building_count consumer)
              * power_per_building (PowerConsumer.building_type consumer)) ;;
    Ok {| PowerConsumer.recipe_id := PowerConsumer.recipe_id consumer;
          PowerConsumer.item_name := PowerConsumer.item_name consumer;
          PowerConsumer.building_type := PowerConsumer.building_type consumer;
          PowerConsumer.building_count := PowerConsumer.building_count consumer;
          PowerConsumer.power_mw := PowerConsumer.power_mw consumer;
          PowerConsumer.efficiency := q * 100;
          PowerConsumer.production_rate := PowerConsumer.production_rate consumer |}
  else Ok consumer.

Definition _analyze_power_consumers
           (assemblers : list AssemblerMetrics.t) (planet_id : Z)
  : result (list PowerConsumer.t) :=
  let consumers_by_recipe := fold_left account_assembler assemblers [] in
  for_each (fun done consumer =>
              c <- average_efficiency consumer ;; Ok (done ++ [c]))
           (map snd consumers_by_recipe) [].

Definition _generate_power_breakdown (consumers : list PowerConsumer.t) : value :=
  let by_building :=
    fold_left
      (fun d consumer =>
         let k := PowerConsumer.building_type consumer in
         assoc_set String.eqb k
                   (fadd (match assoc_find String.eqb k d with
                          | Some v => v
                          | None => 0
                          end)
                         (PowerConsumer.power_mw consumer))
                   d)
      consumers [] in
  let total_tracked := sum (map PowerConsumer.power_mw consumers) in
  let top_consumers := firstn 10 (sort_desc PowerConsumer.power_mw consumers) in
  VDict [("by_building_type"%string,
          VDict (map (fun kv => (fst kv, VFloat (round (snd kv) 2)))
                     (sort_desc snd by_building)));
         ("top_power_consumers"%string,
          VList (map (fun c =>
                        VDict [("item"%string, VStr (PowerConsumer.item_name c));
                               ("recipe_id"%string, VInt (PowerConsumer.recipe_id c));
                               ("building_type"%string,
                                VStr (PowerConsumer.building_type c));
                               ("building_count"%string,
                                VInt (PowerConsumer.building_count c));
                               ("power_mw"%string,
                                VFloat (round (PowerConsumer.power_mw c) 2));
                               ("production_rate"%string,
                                VFloat (round (PowerConsumer.production_rate c) 2))])
                     top_consumers));
         ("total_tracked_mw"%string, VFloat (round total_tracked 2))].

(** What [analyze] accumulates over the planets. *)
Record tally : Type := mk_tally
  { planets_data : list value;
    total_generation : Q;
    total_consumption : Q;
    deficits_found : Z;
    all_consumers : list PowerConsumer.t }.

(** The [planet_data] dict of one planet (lines 93-122). *)
Definition planet_report
           (pid : Z) (planet : PlanetState.t) (power : PowerState.t)
           (include_accumulator_cycles include_consumers : bool)
           (consumers : list PowerConsumer.t) : value :=
  VDict
    ([("planet_id"%string, VInt pid);
      ("planet_name"%string, VStr (PlanetState.planet_name planet));
      ("generation_mw"%string, VFloat (round (PowerState.generation_mw power) 2));
      ("consumption_mw"%string, VFloat (round (PowerState.consumption_mw power) 2));
      ("surplus_mw"%string, VFloat (round (PowerState.surplus_mw power) 2));
      ("status"%string,
       VStr (if Qgeb (PowerState.surplus_mw power) 0 then "surplus" else "deficit"))]
       ++ (if Qltb (PowerState.surplus_mw power) 0
           then [("recommendation"%string, VStr (_generate_recommendation power))]
           else [])
       ++ (if include_accumulator_cycles
           then [("accumulator_charge"%string,
                  VStr (fmt_1f (PowerState.accumulator_charge_percent power) ++ "%"))]
           else [])
       ++ (if include_consumers
           then match consumers with
                | [] => []
                | _ :: _ =>
                    [("top_consumers"%string,
                      VList
                        (map (fun c =>
                                VDict [("item"%string, VStr (PowerConsumer.item_name c));
                                       ("power_mw"%string,
                                        VFloat (round (PowerConsumer.power_mw c) 2));
                                       ("building_count"%string,
                                        VInt (PowerConsumer.building_count c));
                                       ("efficiency"%string,
                                        VFloat (round (PowerConsumer.efficiency c) 1))])
                             (firstn 5 (sort_desc PowerConsumer.power_mw consumers))))]
                end
           else [])).

(** Body of [for pid, planet in factory_state.planets.items()]. *)
Definition analyze_planet
           (planet_id : option Z) (include_accumulator_cycles include_consumers : bool)
           (st : tally) (entry : Z * PlanetState.t) : result tally :=
  let '(pid, planet) := entry in
  if match planet_id with
     | Some wanted => negb (pid =? wanted)%Z
     | None => false
     end
  then Ok st
  else
    match PlanetState.power planet with
    | None => Ok st
    | Some power =>
        consumers <-
          (if include_consumers
           then _analyze_power_consumers (PlanetState.assemblers planet) pid
           else Ok []) ;;
        Ok {| planets_data :=
                planets_data st
                  ++ [planet_report pid planet power
                                    include_accumulator_cycles include_consumers consumers];
              total_generation :=
                fadd (total_generation st) (PowerState.generation_mw power);
              total_consumption :=
                fadd (total_consumption st) (PowerState.consumption_mw power);
              deficits_found :=
                if Qltb (PowerState.surplus_mw power) 0
                then (deficits_found st + 1)%Z
                else deficits_found st;
              all_consumers := all_consumers st ++ consumers |}
    end.

Definition analyze
           (factory_state : FactoryState.t) (planet_id : option Z)
           (include_accumulator_cycles include_consumers : bool)
  : result value :=
  st <- for_each (analyze_planet planet_id include_accumulator_cycles include_consumers)
                 (FactoryState.planets factory_state)
                 (mk_tally [] 0 0 0 []) ;;
  recommendations <-
    _global_recommendations (total_generation st) (total_consumption st) ;;
  Ok (VDict
        ([("timestamp"%string, VStr (FactoryState.timestamp factory_state));
          ("summary"%string,
           VDict [("total_generation_mw"%string,
                   VFloat (round (total_generation st) 2));
                  ("total_consumption_mw"%string,
                   VFloat (round (total_consumption st) 2));
                  ("net_surplus_mw"%string,
                   VFloat (round (fsub (total_generation st) (total_consumption st)) 2));
                  ("planets_with_deficit"%string, VInt (deficits_found st))]);
          ("planets"%string, VList (planets_data st));
          ("recommendations"%string, VList (map VStr recommendations))]
           ++ (if include_consumers
               then match all_consumers st with
                    | [] => []
                    | _ :: _ =>
                        [("power_breakdown"%string,
                          _generate_power_breakdown (all_consumers st))]
                    end
               else []))).

End WithDatabase.
End PowerAnalyzer.

(* ================================================================== *)
(** * A small catalogue and snapshots                                  *)
(* ================================================================== *)

Module Example.

Definition iron_ore : Z := 1001%Z.
Definition iron_ingot : Z := 1101%Z.

(** Smelting: one iron ore gives one iron ingot per second. *)
Definition smelt_iron : Recipe.t :=
  {| Recipe.id := 1;
     Recipe.building := "smelter";
     Recipe.time := 1;
     Recipe.inputs := [RecipeInput.mk iron_ore 1 (Some "Iron Ore"%string)];
     Recipe.outputs := [RecipeOutput.mk iron_ingot 1 (Some "Iron Ingot"%string)];
     Recipe.primary_output := RecipeOutput.mk iron_ingot 1 (Some "Iron Ingot"%string);
     Recipe.primary_output_id := iron_ingot |}.

(** A recipe entry whose cycle time is not filled in. *)
Definition untimed : Recipe.t :=
  {| Recipe.id := 2;
     Recipe.building := "assembler";
     Recipe.time := 0;
     Recipe.inputs := [RecipeInput.mk iron_ingot 1 None];
     Recipe.outputs := [RecipeOutput.mk 1201 1 None];
     Recipe.primary_output := RecipeOutput.mk 1201 1 None;
     Recipe.primary_output_id := 1201 |}.

(** Modelled from the spec: a [RecipeDatabase] holding the recipes
    [smelt_iron] (id 1) and [untimed] (id 2).  Unknown item ids are named [item_<id>], unknown
    names and recipes are absent, and the theoretical rate is
    [building_count * (primary_output.count / time) * 60], or 0 for an
    absent recipe or a non-positive [time] (section 4.1). *)
Definition db : RecipeDatabase.t :=
  let get_recipe :=
    fun id : Z =>
      if (id =? 1)%Z then Some smelt_iron
      else if (id =? 2)%Z then Some untimed
      else None in
  {| RecipeDatabase.get_recipe := get_recipe;
     RecipeDatabase.get_item_id :=
       fun name =>
         if String.eqb name "Iron Ore" then Some iron_ore
         else if String.eqb name "Iron Ingot" then Some iron_ingot
         else None;
     RecipeDatabase.get_item_name :=
       fun id =>
         if (id =? iron_ore)%Z then "Iron Ore"%string
         else if (id =? iron_ingot)%Z then "Iron Ingot"%string
         else ("item_" ++ str_of_Z id)%string;
     RecipeDatabase.calculate_theoretical_rate :=
       fun recipe_id building_count =>
         match get_recipe recipe_id with
         | Some r =>
             if Qgtb (Recipe.time r) 0
             then inject_Z building_count
                  * (RecipeOutput.count (Recipe.primary_output r) / Recipe.time r) * 60
             else 0
         | None => 0
         end;
     RecipeDatabase.trace_bottleneck_upstream :=
       fun item_id _ =>
         if (item_id =? iron_ingot)%Z then [(iron_ore, "Iron Ore"%string, 1%Z)] else [];
     RecipeDatabase.trace_bottleneck_downstream :=
       fun item_id _ =>
         if (item_id =? iron_ore)%Z then [(iron_ingot, "Iron Ingot"%string)] else [] |}.

Definition building (recipe_id : Z) (production theoretical : Q)
           (starved blocked : bool) : AssemblerMetrics.t :=
  {| AssemblerMetrics.recipe_id := recipe_id;
     AssemblerMetrics.production_rate := production;
     AssemblerMetrics.theoretical_max := theoretical;
     AssemblerMetrics.efficiency := 100;
     AssemblerMetrics.input_starved := starved;
     AssemblerMetrics.output_blocked := blocked |}.

(** A smelter of recipe 1. *)
Definition smelter : Q -> Q -> bool -> bool -> AssemblerMetrics.t := building 1.

Definition planet_of (assemblers : list AssemblerMetrics.t)
           (power : option PowerState.t) : PlanetState.t :=
  {| PlanetState.planet_name := "Terra";
     PlanetState.assemblers := assemblers;
     PlanetState.belts := [];
     PlanetState.power := power |}.

Definition snapshot (planets : list (Z * PlanetState.t)) : FactoryState.t :=
  {| FactoryState.timestamp := "2025-01-01T00:00:00";
     FactoryState.planets := planets |}.

(** Four smelters, exactly two of them input starved. *)
Definition two_of_four_starved : list AssemblerMetrics.t :=
  [smelter 60 60 false false; smelter 0 60 true false;
   smelter 60 60 false false; smelter 0 60 true false].

(** Four smelters, two starved and two blocked. *)
Definition starved_and_blocked : list AssemblerMetrics.t :=
  [smelter 0 60 true false; smelter 0 60 false true;
   smelter 0 60 true false; smelter 0 60 false true].

(** Five smelters with two, respectively three, input starved. *)
Definition two_of_five_starved : list AssemblerMetrics.t :=
  [smelter 0 60 true false; smelter 0 60 true false;
   smelter 60 60 false false; smelter 60 60 false false; smelter 60 60 false false].

Definition three_of_five_starved : list AssemblerMetrics.t :=
  [smelter 0 60 true false; smelter 0 60 true false;
   smelter 0 60 true false; smelter 60 60 false false; smelter 60 60 false false].

(** 2001 smelters of which the first [starved] are input starved. *)
Definition starved_of_2001 (starved : nat) : list AssemblerMetrics.t :=
  repeat (smelter 0 60 true false) starved
    ++ repeat (smelter 60 60 false false) (2001 - starved).

(** Two smelters of which only the second, respectively only the first,
    has its [theoretical_max] populated. *)
Definition unpopulated_first : list AssemblerMetrics.t :=
  [smelter 60 0 false false; smelter 60 60 false false].

Definition unpopulated_last : list AssemblerMetrics.t :=
  [smelter 60 60 false false; smelter 60 0 false false].

(** One building of the untimed recipe, with no [theoretical_max]. *)
Definition idle_group : list AssemblerMetrics.t :=
  [building 2 0 0 false false].

(** Two float totals, 8003.553375601769 MW generated and
    7275.957614183427 MW consumed, as the rationals they denote: the surplus
    is just under 10% of the consumption. *)
Definition generation_8003 : Q := 8800000000000001 # 1099511627776.
Definition consumption_7275 : Q := 8000000000000001 # 1099511627776.

(** A power state that generates [generation] MW and consumes nothing. *)
Definition generating (generation : Q) : PowerState.t :=
  {| PowerState.generation_mw := generation;
     PowerState.consumption_mw := 0;
     PowerState.surplus_mw := generation;
     PowerState.accumulator_charge_percent := 50 |}.

(** The floats 50.92 and 474.575. *)
Definition mw_50_92 : Q := 3583176453526651 # 70368744177664.
Definition mw_474_575 : Q := 8348811692028723 # 17592186044416.

(** A smelter line drawing [power_mw] MW. *)
Definition smelter_line (recipe_id : Z) (power_mw : Q) : PowerConsumer.t :=
  {| PowerConsumer.recipe_id := recipe_id;
     PowerConsumer.item_name := "Iron Ingot";
     PowerConsumer.building_type := "smelter";
     PowerConsumer.building_count := 10;
     PowerConsumer.power_mw := power_mw;
     PowerConsumer.efficiency := 100;
     PowerConsumer.production_rate := 60 |}.

(** Three lines drawing the floats 2.2344, 4.138848 and 4.231751999999999. *)
Definition three_smelter_lines : list PowerConsumer.t :=
  [smelter_line 1 (2515710751849159 # 1125899906842624);
   smelter_line 2 (4659928577635781 # 1125899906842624);
   smelter_line 3 (4764529182581087 # 1125899906842624)].

(** The float [2.0 ** 1023], half of the first power of two that a float
    cannot hold. *)
Definition rate_2_1023 : Q := inject_Z (2 ^ 1023).

(** Generation 80 MW against a consumption of 100 MW. *)
Definition power_80_100 : PowerState.t :=
  {| PowerState.generation_mw := 80;
     PowerState.consumption_mw := 100;
     PowerState.surplus_mw := - (20);
     PowerState.accumulator_charge_percent := 50 |}.


(** A bottleneck record on iron ingots, of a given type and severity. *)
Definition bottleneck_of (ty : string) (severity : Q) : Bottleneck.t :=
  {| Bottleneck.item_id := iron_ingot;
     Bottleneck.item_name := "Iron Ingot";
     Bottleneck.recipe_id := 1;
     Bottleneck.bottleneck_type := ty;
     Bottleneck.severity := severity;
     Bottleneck.affected_throughput := 0;
     Bottleneck.efficiency := 100 - severity;
     Bottleneck.root_cause := "";
     Bottleneck.recommendation := "";
     Bottleneck.upstream_items := ["Iron Ore"%string];
     Bottleneck.downstream_impact := [];
     Bottleneck.planet_id := 1;
     Bottleneck.assembler_count := 4 |}.

(** Three bottlenecks, most severe first. *)
Definition ranked_bottlenecks : list Bottleneck.t :=
  [bottleneck_of "input_starvation" 90;
   bottleneck_of "low_efficiency" 45;
   bottleneck_of "low_efficiency" 30].

(** Buildings of a recipe the catalogue does not know. *)
Definition uncatalogued_group : list AssemblerMetrics.t :=
  [building 99 0 60 true false; building 99 0 60 true false].


(** A reader of decimal item ids, standing for [int()]. *)
Definition parse_decimal (s : string) : option Z :=
  option_map Z.of_int (NilZero.int_of_string s).

Definition belt (belt_id : Z) (max_throughput saturation : Q) : BeltMetrics.t :=
  {| BeltMetrics.belt_id := belt_id;
     BeltMetrics.item_type := "1001";
     BeltMetrics.throughput := max_throughput * saturation / 100;
     BeltMetrics.max_throughput := max_throughput;
     BeltMetrics.saturation_percent := saturation |}.

(** A planet with one saturated, one nearly saturated and one idle belt. *)
Definition belt_planet : PlanetState.t :=
  {| PlanetState.planet_name := "Terra";
     PlanetState.assemblers := [];
     PlanetState.belts := [belt 1 6 97; belt 2 12 90; belt 3 30 50];
     PlanetState.power := None |}.

End Example.

(* ================================================================== *)
(** * Vocabulary of the specification                                  *)
(* ================================================================== *)

(** Fraction of a group's buildings that report [input_starved]. *)
Definition starved_fraction (assemblers : list AssemblerMetrics.t) : Q :=
  inject_Z (count AssemblerMetrics.input_starved assemblers) / inject_Z (len assemblers).

(** Fraction of a group's buildings that report [output_blocked]. *)
Definition blocked_fraction (assemblers : list AssemblerMetrics.t) : Q :=
  inject_Z (count AssemblerMetrics.output_blocked assemblers) / inject_Z (len assemblers).

(** The bottleneck type a group analysis recorded, if any. *)
Definition recorded_type (r : result (option Bottleneck.t)) : result (option string) :=
  match r with
  | Ok (Some b) => Ok (Some (Bottleneck.bottleneck_type b))
  | Ok None => Ok None
  | Raise e => Raise e
  end.

(** The precedence of section 4.2, step 4: first matching rule wins. *)
Definition classify_by_precedence (starved blocked avg_efficiency : Q) : option string :=
  if Qgtb starved (3 # 10) then Some "input_starvation"%string
  else if Qgtb blocked (3 # 10) then Some "output_blocked"%string
  else if Qltb avg_efficiency 80 then Some "low_efficiency"%string
  else None.

(** Section 4.2, step 3, on the total theoretical rate: the sum of the
    [theoretical_max] values if those are populated and nonzero, else the
    rate derived from the recipe.  Two readings of "populated and nonzero":
    the summed value is nonzero, or every building's value is nonzero. *)
Definition spec_total_theoretical_sum
           (db : RecipeDatabase.t) (recipe_id : Z) (assemblers : list AssemblerMetrics.t)
  : Q :=
  let total := sum (map AssemblerMetrics.theoretical_max assemblers) in
  if Qeq_bool total 0
  then RecipeDatabase.calculate_theoretical_rate db recipe_id (len assemblers)
  else total.

Definition spec_total_theoretical_all
           (db : RecipeDatabase.t) (recipe_id : Z) (assemblers : list AssemblerMetrics.t)
  : Q :=
  if forallb (fun a => negb (Qeq_bool (AssemblerMetrics.theoretical_max a) 0)) assemblers
  then sum (map AssemblerMetrics.theoretical_max assemblers)
  else RecipeDatabase.calculate_theoretical_rate db recipe_id (len assemblers).

(** A planet is in the scope of a call when no [planet_id] is given or it
    is the one given. *)
Definition in_scope (planet_id : option Z) (pid : Z) : Prop :=
  match planet_id with
  | Some wanted => pid = wanted
  | None => True
  end.

(** The flow of an item, items/sec: the larger of its production and its
    consumption (items/min), over 60. *)
Definition flow_per_sec (r : ThroughputRequirement.t) : Q :=
  Qmax (ThroughputRequirement.production_rate r)
       (ThroughputRequirement.consumption_rate r) / 60.

(** Section 4.3: the belts a flow needs at a given capacity are the ceiling
    of flow over capacity, at least 1 for a positive flow and 0 for none. *)
Definition spec_belt_count (flow capacity : Q) : Z :=
  if Qgtb flow 0 then Z.max 1 (Qceiling (flow / capacity)) else 0%Z.

(** A rational that a float can hold: rounding leaves it as it is. *)
Definition is_float (x : Q) : Prop := fl x == x.

(** Three roundings in a row (the subtraction, the division and the
    multiplication by 100 of the surplus percentage) stay within a relative
    [2 ** -51] of the exact value. *)
Definition percent_margin : Q := 1 # 2251799813685248.

(** The float total produced or consumed of an item is [inf]. *)
Definition overflowed (production_by_item consumption_by_item : list (Z * Q)) (k : Z)
  : bool :=
  is_inf (LogisticsAnalyzer.rate_of production_by_item k)
  || is_inf (LogisticsAnalyzer.rate_of consumption_by_item k).

(** A list of recommendations holds an entry that starts with [tag]. *)
Definition mentions (tag : string) (recommendations : list string) : bool :=
  existsb (String.prefix tag) recommendations.

(** Largest key first: every element is at least as large, under [key],
    as those after it. *)
Definition descending {A : Type} (key : A -> Q) (l : list A) : Prop :=
  StronglySorted (fun a b => key b <= key a) l.

(** The assemblers of a list that run recipe [recipe_id], in list order. *)
Definition recipe_members (recipe_id : Z) (assemblers : list AssemblerMetrics.t)
  : list AssemblerMetrics.t :=
  filter (fun a => (AssemblerMetrics.recipe_id a =? recipe_id)%Z) assemblers.

(** The planets of a snapshot a call looks at. *)
Definition planets_in_scope (planet_id : option Z) (planets : list (Z * PlanetState.t))
  : list (Z * PlanetState.t) :=
  filter (fun entry => match planet_id with
                       | Some wanted => (fst entry =? wanted)%Z
                       | None => true
                       end)
         planets.

(** A bottleneck comes from the analysis of one recipe group of planet
    [pid], with the planet id filled in by the caller. *)
Definition recorded_on
           (db : RecipeDatabase.t) (include_downstream : bool)
           (pid : Z) (planet : PlanetState.t) (b : Bottleneck.t) : Prop :=
  exists recipe_id members b0,
    In (recipe_id, members)
       (BottleneckAnalyzer.group_by_recipe (PlanetState.assemblers planet))
    /\ BottleneckAnalyzer._analyze_recipe_group
         db recipe_id members planet include_downstream = Ok (Some b0)
    /\ b = Bottleneck.set_planet_id b0 pid.

Definition recorded_in
           (db : RecipeDatabase.t) (include_downstream : bool)
           (planet_id : option Z) (planets : list (Z * PlanetState.t))
           (b : Bottleneck.t) : Prop :=
  exists pid planet,
    In (pid, planet) (planets_in_scope planet_id planets)
    /\ recorded_on db include_downstream pid planet b.

(** A recipe group is analysed when its recipe is catalogued and, if a
    target item is set, produces the target or feeds it. *)
Definition group_analysed
           (db : RecipeDatabase.t) (target_item_id : option Z) (recipe_id : Z) : bool :=
  match RecipeDatabase.get_recipe db recipe_id with
  | None => false
  | Some recipe =>
      match target_item_id with
      | Some target =>
          (Recipe.primary_output_id recipe =? target)%Z
          || BottleneckAnalyzer._is_in_dependency_chain db recipe_id target
      | None => true
      end
  end.

(** An assembler that the report counts as inefficient. *)
Definition counted_inefficient
           (db : RecipeDatabase.t) (target_item_id : option Z) (a : AssemblerMetrics.t)
  : bool :=
  group_analysed db target_item_id (AssemblerMetrics.recipe_id a)
  && Qltb (AssemblerMetrics.efficiency a) 90.

(** What the analysis of one recipe group of planet [pid] adds to the list
    of bottlenecks: nothing for a group that is skipped or healthy. *)
Definition recorded_for_group
           (db : RecipeDatabase.t) (include_downstream : bool) (target_item_id : option Z)
           (pid : Z) (planet : PlanetState.t) (group : Z * list AssemblerMetrics.t)
  : list Bottleneck.t :=
  if group_analysed db target_item_id (fst group) then
    match BottleneckAnalyzer._analyze_recipe_group
            db (fst group) (snd group) planet include_downstream with
    | Ok (Some b) => [Bottleneck.set_planet_id b pid]
    | _ => []
    end
  else [].

(** The bottlenecks of a snapshot, in the order the loops meet them:
    planet by planet in scope, recipe group by recipe group. *)
Definition recorded_bottlenecks
           (db : RecipeDatabase.t) (include_downstream : bool)
           (planet_id target_item_id : option Z) (planets : list (Z * PlanetState.t))
  : list Bottleneck.t :=
  flat_map (fun entry =>
              flat_map (recorded_for_group db include_downstream target_item_id
                                           (fst entry) (snd entry))
                       (BottleneckAnalyzer.group_by_recipe
                          (PlanetState.assemblers (snd entry))))
           (planets_in_scope planet_id planets).

(** All assemblers of the planets in scope. *)
Definition assemblers_in_scope (planet_id : option Z) (planets : list (Z * PlanetState.t))
  : list AssemblerMetrics.t :=
  flat_map (fun entry => PlanetState.assemblers (snd entry))
           (planets_in_scope planet_id planets).

(** How many bottlenecks of a list have type [ty]. *)
Definition type_count (ty : string) (bottlenecks : list Bottleneck.t) : Z :=
  count (fun b => String.eqb (Bottleneck.bottleneck_type b) ty) bottlenecks.

(** An assembler on which the throughput analysis divides by zero: it
    produces, its recipe is catalogued with a positive cycle time, and the
    recipe's primary output has count 0. *)
Definition divides_by_zero (db : RecipeDatabase.t) (a : AssemblerMetrics.t) : bool :=
  match RecipeDatabase.get_recipe db (AssemblerMetrics.recipe_id a) with
  | Some recipe =>
      Qgtb (AssemblerMetrics.production_rate a) 0
      && Qgtb (Recipe.time recipe) 0
      && Qeq_bool (RecipeOutput.count (Recipe.primary_output recipe)) 0
  | None => false
  end.

(** A recipe count as the game has them: whole and not negative. *)
Definition is_whole_count (q : Q) : bool :=
  Qle_bool 0 q && Qeq_bool q (inject_Z (Qfloor q)).

(** The recipe of an assembler, if catalogued, has whole counts for its
    primary output and its inputs: the rate totals then hold no NaN. *)
Definition whole_counts (db : RecipeDatabase.t) (a : AssemblerMetrics.t) : bool :=
  match RecipeDatabase.get_recipe db (AssemblerMetrics.recipe_id a) with
  | Some recipe =>
      is_whole_count (RecipeOutput.count (Recipe.primary_output recipe))
      && forallb (fun inp => is_whole_count (RecipeInput.count inp)) (Recipe.inputs recipe)
  | None => true
  end.

(** Item [k] is an output of the catalogued recipe of some assembler. *)
Definition produced_by
           (db : RecipeDatabase.t) (assemblers : list AssemblerMetrics.t) (k : Z) : Prop :=
  exists a recipe output,
    In a assemblers
    /\ RecipeDatabase.get_recipe db (AssemblerMetrics.recipe_id a) = Some recipe
    /\ In output (Recipe.outputs recipe)
    /\ RecipeOutput.item_id output = k.

(** Item [k] is an input of the catalogued recipe, with a positive cycle
    time, of some assembler that produces. *)
Definition consumed_by
           (db : RecipeDatabase.t) (assemblers : list AssemblerMetrics.t) (k : Z) : Prop :=
  exists a recipe input,
    In a assemblers
    /\ RecipeDatabase.get_recipe db (AssemblerMetrics.recipe_id a) = Some recipe
    /\ 0 < AssemblerMetrics.production_rate a
    /\ 0 < Recipe.time recipe
    /\ In input (Recipe.inputs recipe)
    /\ RecipeInput.item_id input = k.

(** The belts of the planets in scope, each with its planet id. *)
Definition belts_in_scope (planet_id : option Z) (planets : list (Z * PlanetState.t))
  : list (Z * BeltMetrics.t) :=
  flat_map (fun entry => map (pair (fst entry)) (PlanetState.belts (snd entry)))
           (planets_in_scope planet_id planets).

(** A belt passes the item filter: there is no filter (absent or empty), or
    the filter names its display name or its raw item type. *)
Definition passes_filter
           (db : RecipeDatabase.t) (parse_int : string -> option Z)
           (item_filter : option (list string)) (belt : BeltMetrics.t) : bool :=
  match item_filter with
  | Some (f :: fs) =>
      LogisticsAnalyzer.str_in (LogisticsAnalyzer.item_display db parse_int belt) (f :: fs)
      || LogisticsAnalyzer.str_in (BeltMetrics.item_type belt) (f :: fs)
  | _ => true
  end.

(** Saturated: at or above the threshold.  Near saturation: below it by at
    most 10 points. *)
Definition is_saturated (threshold : Q) (belt : BeltMetrics.t) : bool :=
  Qgeb (BeltMetrics.saturation_percent belt) threshold.

Definition is_near_saturation (threshold : Q) (belt : BeltMetrics.t) : bool :=
  negb (Qgeb (BeltMetrics.saturation_percent belt) threshold)
  && Qgeb (BeltMetrics.saturation_percent belt) (threshold - 10).

(** The report entry of a flagged belt of planet [pid]. *)
Definition flagged_belt
           (db : RecipeDatabase.t) (parse_int : string -> option Z)
           (status : string) (with_recommendation : bool)
           (located : Z * BeltMetrics.t) : LogisticsAnalyzer.belt_data :=
  let belt := snd located in
  {| LogisticsAnalyzer.bd_planet_id := fst located;
     LogisticsAnalyzer.bd_belt_id := BeltMetrics.belt_id belt;
     LogisticsAnalyzer.bd_item := LogisticsAnalyzer.item_display db parse_int belt;
     LogisticsAnalyzer.bd_throughput := round (BeltMetrics.throughput belt) 2;
     LogisticsAnalyzer.bd_max_throughput := BeltMetrics.max_throughput belt;
     LogisticsAnalyzer.bd_saturation := round (BeltMetrics.saturation_percent belt) 1;
     LogisticsAnalyzer.bd_status := Some status;
     LogisticsAnalyzer.bd_recommendation :=
       if with_recommendation
       then Some (LogisticsAnalyzer._upgrade_recommendation belt)
       else None |}.

(** How many belts of a list carry item [item]. *)
Definition item_count (item : string) (belts : list LogisticsAnalyzer.belt_data) : Z :=
  count (fun b => String.eqb (LogisticsAnalyzer.bd_item b) item) belts.

(** The saturated, and the nearly saturated, belts of a call, most
    saturated first. *)
Definition saturated_listing
           (db : RecipeDatabase.t) (parse_int : string -> option Z)
           (planet_id : option Z) (item_filter : option (list string))
           (threshold : Q) (planets : list (Z * PlanetState.t))
  : list LogisticsAnalyzer.belt_data :=
  sort_desc LogisticsAnalyzer.bd_saturation
            (map (flagged_belt db parse_int "saturated" true)
                 (filter (fun pb => passes_filter db parse_int item_filter (snd pb)
                                    && is_saturated threshold (snd pb))
                         (belts_in_scope planet_id planets))).

Definition near_listing
           (db : RecipeDatabase.t) (parse_int : string -> option Z)
           (planet_id : option Z) (item_filter : option (list string))
           (threshold : Q) (planets : list (Z * PlanetState.t))
  : list LogisticsAnalyzer.belt_data :=
  sort_desc LogisticsAnalyzer.bd_saturation
            (map (flagged_belt db parse_int "near_saturation" false)
                 (filter (fun pb => passes_filter db parse_int item_filter (snd pb)
                                    && is_near_saturation threshold (snd pb))
                         (belts_in_scope planet_id planets))).

(** The planets in scope that have a power state, with that state. *)
Definition powered_in_scope (planet_id : option Z) (planets : list (Z * PlanetState.t))
  : list (Z * PlanetState.t * PowerState.t) :=
  flat_map (fun entry =>
              match PlanetState.power (snd entry) with
              | Some power => [(fst entry, snd entry, power)]
              | None => []
              end)
           (planets_in_scope planet_id planets).

(** A power state in deficit. *)
Definition in_deficit (power : PowerState.t) : bool :=
  Qltb (PowerState.surplus_mw power) 0.

(** A planet entry of the power report reflects the planet's power state. *)
Definition reports_power (entry : value) (located : Z * PlanetState.t * PowerState.t)
  : Prop :=
  let '(pid, planet, power) := located in
  get "planet_id" entry = Some (VInt pid)
  /\ get "planet_name" entry = Some (VStr (PlanetState.planet_name planet))
  /\ get "surplus_mw" entry = Some (VFloat (round (PowerState.surplus_mw power) 2))
  /\ (PowerState.surplus_mw power < 0 ->
      get "status" entry = Some (VStr "deficit")
      /\ get "recommendation" entry
         = Some (VStr (PowerAnalyzer._generate_recommendation power)))
  /\ (0 <= PowerState.surplus_mw power ->
      get "status" entry = Some (VStr "surplus")
      /\ get "recommendation" entry = None).

(** Power attributed to a list of buildings of one building type, and
    their production, accumulated in list order as the analyser does. *)
Definition attributed_power (building_type : string) (members : list AssemblerMetrics.t)
  : Q :=
  fold_left (fun acc a =>
               acc + PowerAnalyzer.power_per_building building_type
                     * (AssemblerMetrics.efficiency a / 100))
            members 0.

Definition attributed_production (members : list AssemblerMetrics.t) : Q :=
  fold_left (fun acc a => acc + AssemblerMetrics.production_rate a) members 0.

(** The consumer entry of a recipe before its efficiency is averaged. *)
Definition consumer_of
           (db : RecipeDatabase.t) (recipe_id : Z) (recipe : Recipe.t)
           (members : list AssemblerMetrics.t) : PowerConsumer.t :=
  {| PowerConsumer.recipe_id := recipe_id;
     PowerConsumer.item_name :=
       str_or (RecipeOutput.item_name (Recipe.primary_output recipe))
              (RecipeDatabase.get_item_name db (Recipe.primary_output_id recipe));
     PowerConsumer.building_type := Recipe.building recipe;
     PowerConsumer.building_count := len members;
     PowerConsumer.power_mw := attributed_power (Recipe.building recipe) members;
     PowerConsumer.efficiency := 0;
     PowerConsumer.production_rate := attributed_production members |}.

(** A consumer with its efficiency averaged over its buildings. *)
Definition averaged (c : PowerConsumer.t) : PowerConsumer.t :=
  if (0 <? PowerConsumer.building_count c)%Z then
    {| PowerConsumer.recipe_id := PowerConsumer.recipe_id c;
       PowerConsumer.item_name := PowerConsumer.item_name c;
       PowerConsumer.building_type := PowerConsumer.building_type c;
       PowerConsumer.building_count := PowerConsumer.building_count c;
       PowerConsumer.power_mw := PowerConsumer.power_mw c;
       PowerConsumer.efficiency :=
         PowerConsumer.power_mw c
         / (inject_Z (PowerConsumer.building_count c)
            * PowerAnalyzer.power_per_building (PowerConsumer.building_type c))
         * 100;
       PowerConsumer.production_rate := PowerConsumer.production_rate c |}
  else c.

(** Power drawn by the consumers of one building type, added up in list
    order in float arithmetic. *)
Definition power_of_type (building_type : string) (consumers : list PowerConsumer.t) : Q :=
  fsum (map PowerConsumer.power_mw
            (filter (fun c => String.eqb (PowerConsumer.building_type c) building_type)
                    consumers)).

(** The per-building-type dictionary the breakdown accumulates. *)
Definition power_by_building (consumers : list PowerConsumer.t) : list (string * Q) :=
  fold_left
    (fun d consumer =>
       let k := PowerConsumer.building_type consumer in
       assoc_set String.eqb k
                 (fadd (match assoc_find String.eqb k d with
                        | Some v => v
                        | None => 0
                        end)
                       (PowerConsumer.power_mw consumer))
                 d)
    consumers [].

(** The bottlenecks recorded on one item, in list order. *)
Definition bottlenecks_on (item_id : Z) (bottlenecks : list Bottleneck.t)
  : list Bottleneck.t :=
  filter (fun b => (Bottleneck.item_id b =? item_id)%Z) bottlenecks.

(* ================================================================== *)
(** * Basic facts about the runtime                                    *)
(* ================================================================== *)

Section RuntimeFacts.

Lemma Qltb_true (a b : Q) : Qltb a b = true <-> a < b.
Proof.
  unfold Qltb. rewrite negb_true_iff. split; intro H.
  - destruct (Qlt_le_dec a b) as [Hlt | Hle]; [exact Hlt |].
    apply Qle_bool_iff in Hle. congruence.
  - destruct (Qle_bool b a) eqn:E; [| reflexivity].
    apply Qle_bool_iff in E. exfalso. apply (Qlt_irrefl a). apply Qlt_le_trans with b; assumption.
Qed.

Lemma Qltb_false (a b : Q) : Qltb a b = false <-> b <= a.
Proof.
  unfold Qltb. rewrite negb_false_iff. apply Qle_bool_iff.
Qed.

Lemma Qgtb_true (a b : Q) : Qgtb a b = true <-> b < a.
Proof. unfold Qgtb. apply Qltb_true. Qed.

Lemma Qgtb_false (a b : Q) : Qgtb a b = false <-> a <= b.
Proof. unfold Qgtb. apply Qltb_false. Qed.

Lemma Qeq_bool_false (a b : Q) : Qeq_bool a b = false <-> ~ a == b.
Proof.
  split; intro H.
  - intro E. apply Qeq_bool_iff in E. congruence.
  - destruct (Qeq_bool a b) eqn:E; [| reflexivity].
    apply Qeq_bool_iff in E. contradiction.
Qed.

Lemma div_ok (a b : Q) : ~ b == 0 -> div a b = Ok (a / b).
Proof.
  intro H. unfold div. apply Qeq_bool_false in H. rewrite H. reflexivity.
Qed.

Lemma div_no_fault (a b : Q) : 0 < b -> div a b = Ok (a / b).
Proof.
  intro H. apply div_ok. intro E. rewrite E in H. apply (Qlt_irrefl 0 H).
Qed.

Lemma len_positive {A : Type} (xs : list A) : xs <> [] -> 0 < inject_Z (len xs).
Proof.
  intro H. destruct xs as [| x rest]; [congruence |].
  unfold len. change 0 with (inject_Z 0). rewrite <- Zlt_Qlt. simpl List.length. lia.
Qed.

(** [c > n * 0.3] is the test "the fraction [c / n] exceeds 30%". *)
Lemma over_30_percent (c n : Q) :
  0 < n -> (Qgtb c (n * (3 # 10)) = Qgtb (c / n) (3 # 10)).
Proof.
  intro Hn.
  assert (Hc : c == (c / n) * n).
  { field. intro E. rewrite E in Hn. apply (Qlt_irrefl 0 Hn). }
  set (q := c / n) in *.
  destruct (Qgtb q (3 # 10)) eqn:E.
  - apply Qgtb_true in E. apply Qgtb_true. rewrite Hc. nra.
  - apply Qgtb_false in E. apply Qgtb_false. rewrite Hc. nra.
Qed.

(** Rounding keeps the order. *)
Lemma round_half_even_bounds (x : Q) :
  (Qfloor x <= round_half_even x <= Qfloor x + 1)%Z.
Proof.
  unfold round_half_even.
  destruct (Qcompare (x - inject_Z (Qfloor x)) (1 # 2)); [destruct (Z.even _) | |]; lia.
Qed.

Lemma round_half_even_monotone (a b : Q) :
  a <= b -> (round_half_even a <= round_half_even b)%Z.
Proof.
  intro Hab. pose proof (Qfloor_resp_le _ _ Hab) as Hfloor.
  pose proof (round_half_even_bounds a) as Ha.
  pose proof (round_half_even_bounds b) as Hb.
  destruct (Z.eq_dec (Qfloor a) (Qfloor b)) as [Heq | Hneq]; [| lia].
  clear Ha Hb. unfold round_half_even. rewrite <- Heq.
  destruct (Qcompare_spec (a - inject_Z (Qfloor a)) (1 # 2)) as [Ea | Ea | Ea];
    destruct (Qcompare_spec (b - inject_Z (Qfloor a)) (1 # 2)) as [Eb | Eb | Eb];
    try (destruct (Z.even (Qfloor a))); try lia; exfalso; lra.
Qed.

Lemma round_monotone (a b : Q) (ndigits : nat) : a <= b -> round a ndigits <= round b ndigits.
Proof.
  intro Hab. unfold round. rewrite !Qred_correct.
  assert (Hpow : 0 < pow10 ndigits).
  { unfold pow10. change 0 with (inject_Z 0). rewrite <- Zlt_Qlt.
    apply Z.pow_pos_nonneg; lia. }
  apply Qmult_le_compat_r.
  - rewrite <- Zle_Qle. apply round_half_even_monotone.
    apply Qmult_le_compat_r; [exact Hab | apply Qlt_le_weak; exact Hpow].
  - apply Qlt_le_weak. apply Qinv_lt_0_compat. exact Hpow.
Qed.

End RuntimeFacts.

Lemma round_half_even_comp (x y : Q) : x == y -> round_half_even x = round_half_even y.
Proof.
  intro E. unfold round_half_even. rewrite (Qfloor_comp _ _ E).
  assert (Hc : Qcompare (x - inject_Z (Qfloor y)) (1 # 2)
               = Qcompare (y - inject_Z (Qfloor y)) (1 # 2)).
  { rewrite E. reflexivity. }
  rewrite Hc. reflexivity.
Qed.

(** [round] depends on the value only, and yields a reduced fraction. *)
Lemma round_comp (x y : Q) (ndigits : nat) : x == y -> round x ndigits = round y ndigits.
Proof.
  intro E. unfold round. apply Qred_complete.
  rewrite (round_half_even_comp (x * pow10 ndigits) (y * pow10 ndigits)).
  - reflexivity.
  - rewrite E. reflexivity.
Qed.

(* ================================================================== *)
(** * Binary64 rounding                                                *)
(* ================================================================== *)

Lemma pow2_pos (e : Z) : 0 < pow2 e.
Proof. apply Qpower_0_lt. reflexivity. Qed.

Lemma pow2_plus (a b : Z) : pow2 (a + b) == pow2 a * pow2 b.
Proof. apply Qpower_plus. discriminate. Qed.

Lemma pow2_of_Z (n : Z) : (0 <= n)%Z -> pow2 n == inject_Z (2 ^ n).
Proof. intro H. unfold pow2. rewrite Zpower_Qpower by exact H. reflexivity. Qed.

Lemma Qabs_as_div (x : Q) :
  Qabs x == inject_Z (Z.abs (Qnum x)) / inject_Z (Zpos (Qden x)).
Proof.
  destruct x as [n d]. unfold Qabs. cbn [Qnum Qden]. apply Qmake_Qdiv.
Qed.

Lemma binade_spec (x : Q) :
  ~ x == 0 -> pow2 (binade x) <= Qabs x /\ Qabs x < pow2 (binade x + 1).
Proof.
  intro Hx.
  set (a := Z.abs (Qnum x)). set (d := Zpos (Qden x)).
  assert (Ha : (0 < a)%Z).
  { unfold a. destruct x as [n dd]. cbn [Qnum].
    assert (n <> 0)%Z by (intro E; apply Hx; subst n; reflexivity). lia. }
  assert (Hd : (0 < d)%Z) by (unfold d; lia).
  pose proof (Z.log2_spec a Ha) as [Ha1 Ha2].
  pose proof (Z.log2_spec d Hd) as [Hd1 Hd2].
  pose proof (Z.log2_nonneg a) as Hla. pose proof (Z.log2_nonneg d) as Hld.
  set (la := Z.log2 a) in *. set (ld := Z.log2 d) in *.
  assert (Habs : Qabs x == inject_Z a / inject_Z d) by apply Qabs_as_div.
  assert (HdQ : 0 < inject_Z d).
  { change 0 with (inject_Z 0). rewrite <- Zlt_Qlt. exact Hd. }
  (* 2^(k-1) < |x| < 2^(k+1) *)
  assert (Hup : Qabs x < pow2 (la - ld + 1)).
  { replace (la - ld + 1)%Z with ((la + 1) + - ld)%Z by lia.
    rewrite pow2_plus. unfold pow2 at 2. rewrite Qpower_opp. fold (pow2 ld).
    rewrite (pow2_of_Z (la + 1)) by lia. rewrite (pow2_of_Z ld) by exact Hld.
    rewrite Habs.
    assert (Hp : 0 < inject_Z (2 ^ ld)).
    { change 0 with (inject_Z 0). rewrite <- Zlt_Qlt. apply Z.pow_pos_nonneg; lia. }
    apply Qlt_shift_div_r; [exact HdQ |].
    setoid_replace (inject_Z (2 ^ (la + 1)) * / inject_Z (2 ^ ld) * inject_Z d)
      with (inject_Z (2 ^ (la + 1)) * inject_Z d / inject_Z (2 ^ ld))
      by (field; intro E; rewrite E in Hp; apply (Qlt_irrefl 0 Hp)).
    apply Qlt_shift_div_l; [exact Hp |].
    rewrite <- !inject_Z_mult. rewrite <- Zlt_Qlt.
    replace (Z.succ la) with (la + 1)%Z in Ha2 by lia.
    assert (0 < 2 ^ ld)%Z by (apply Z.pow_pos_nonneg; lia).
    nia. }
  assert (Hlow : pow2 (la - ld - 1) < Qabs x).
  { replace (la - ld - 1)%Z with (la + - (ld + 1))%Z by lia.
    rewrite pow2_plus. unfold pow2 at 2. rewrite Qpower_opp. fold (pow2 (ld + 1)).
    rewrite (pow2_of_Z la) by lia. rewrite (pow2_of_Z (ld + 1)) by lia.
    rewrite Habs.
    assert (Hp : 0 < inject_Z (2 ^ (ld + 1))).
    { change 0 with (inject_Z 0). rewrite <- Zlt_Qlt. apply Z.pow_pos_nonneg; lia. }
    apply Qlt_shift_div_l; [exact HdQ |].
    setoid_replace (inject_Z (2 ^ la) * / inject_Z (2 ^ (ld + 1)) * inject_Z d)
      with (inject_Z (2 ^ la) * inject_Z d / inject_Z (2 ^ (ld + 1)))
      by (field; intro E; rewrite E in Hp; apply (Qlt_irrefl 0 Hp)).
    apply Qlt_shift_div_r; [exact Hp |].
    rewrite <- !inject_Z_mult. rewrite <- Zlt_Qlt.
    replace (Z.succ ld) with (ld + 1)%Z in Hd2 by lia.
    assert (0 < 2 ^ la)%Z by (apply Z.pow_pos_nonneg; lia).
    nia. }
  unfold binade. fold a d la ld.
  destruct (Qle_bool (pow2 (la - ld)) (Qabs x)) eqn:E.
  - apply Qle_bool_iff in E. split; [exact E | exact Hup].
  - split.
    + apply Qlt_le_weak. exact Hlow.
    + replace (la - ld - 1 + 1)%Z with (la - ld)%Z by lia.
      apply Qnot_le_lt. intro C. apply Qle_bool_iff in C. congruence.
Qed.

Lemma round_half_even_error (t : Q) :
  - (1 # 2) <= inject_Z (round_half_even t) - t <= 1 # 2.
Proof.
  unfold round_half_even.
  pose proof (Qfloor_le t) as Hlo. pose proof (Qlt_floor t) as Hhi.
  rewrite inject_Z_plus in Hhi. change (inject_Z 1) with 1 in Hhi.
  destruct (Qcompare_spec (t - inject_Z (Qfloor t)) (1 # 2)) as [E | E | E].
  - destruct (Z.even (Qfloor t)).
    + split; lra.
    + rewrite inject_Z_plus. change (inject_Z 1) with 1. split; lra.
  - split; lra.
  - rewrite inject_Z_plus. change (inject_Z 1) with 1. split; lra.
Qed.

Lemma fl_comp (x y : Q) : x == y -> fl x = fl y.
Proof.
  intro E. unfold fl. rewrite (Qred_complete x y E). reflexivity.
Qed.

Lemma fl_zero (x : Q) : x == 0 -> fl x = 0.
Proof.
  intro E. rewrite (fl_comp x 0 E). reflexivity.
Qed.

(** One rounding moves a number by at most [2 ** -53] of its size. *)
Lemma fl_error (x : Q) :
  - (Qabs x * unit_roundoff) <= fl x - x <= Qabs x * unit_roundoff.
Proof.
  unfold fl.
  pose proof (Qred_correct x) as Hred.
  set (x' := Qred x) in *.
  destruct (Qeq_bool x' 0) eqn:E0.
  - apply Qeq_bool_eq in E0. rewrite <- Hred, E0. split; discriminate.
  - assert (Hx : ~ x' == 0).
    { intro C. apply Qeq_eq_bool in C. congruence. }
    destruct (binade_spec x' Hx) as [Hlo _].
    set (e := (binade x' - 52)%Z).
    replace (binade x') with (e + 52)%Z in Hlo by (unfold e; lia).
    rewrite pow2_plus in Hlo. change (pow2 52) with 4503599627370496 in Hlo.
    pose proof (pow2_pos e) as He.
    pose proof (round_half_even_error (x' / pow2 e)) as Hr.
    set (m := inject_Z (round_half_even (x' / pow2 e))) in *.
    rewrite Qred_correct. rewrite <- Hred.
    assert (Hdiff : m * pow2 e - x' == (m - x' / pow2 e) * pow2 e).
    { field. intro C. rewrite C in He. apply (Qlt_irrefl 0 He). }
    rewrite Hdiff. unfold unit_roundoff.
    set (p := pow2 e) in *. set (r := m - x' / p) in *.
    set (ax := Qabs x') in *. clearbody p r ax. nra.
Qed.

Lemma fl_nonneg (x : Q) : 0 <= x -> 0 <= fl x.
Proof.
  intro H. pose proof (fl_error x) as [Hlo _].
  rewrite (Qabs_pos x H) in Hlo. unfold unit_roundoff in Hlo. nra.
Qed.

Lemma fl_pos (x : Q) : 0 < x -> 0 < fl x.
Proof.
  intro H. pose proof (fl_error x) as [Hlo _].
  rewrite (Qabs_pos x (Qlt_le_weak _ _ H)) in Hlo. unfold unit_roundoff in Hlo. nra.
Qed.

Lemma fl_neg (x : Q) : x < 0 -> fl x < 0.
Proof.
  intro H. pose proof (fl_error x) as [_ Hhi].
  rewrite (Qabs_neg x (Qlt_le_weak _ _ H)) in Hhi. unfold unit_roundoff in Hhi. nra.
Qed.

Lemma fl_bounds (x : Q) :
  0 <= x -> x * (1 - unit_roundoff) <= fl x <= x * (1 + unit_roundoff).
Proof.
  intro H. pose proof (fl_error x) as [Hlo Hhi].
  rewrite (Qabs_pos x H) in Hlo, Hhi. split; lra.
Qed.

Lemma three_roundings (r a b c' u : Q) :
  0 <= r -> 0 <= u -> u <= 1 # 8 ->
  r * (1 - u) <= a <= r * (1 + u) ->
  a * (1 - u) <= b <= a * (1 + u) ->
  b * (1 - u) <= c' <= b * (1 + u) ->
  r * (1 - 4 * u) <= c' <= r * (1 + 4 * u).
Proof.
  intros Hr Hu0 Hu1 [Ha1 Ha2] [Hb1 Hb2] [Hc1 Hc2].
  assert (Ha0 : 0 <= a) by nra.
  assert (Hb0 : 0 <= b) by nra.
  assert (Hb3 : b <= r * ((1 + u) * (1 + u))) by nra.
  assert (Hb4 : r * ((1 - u) * (1 - u)) <= b) by nra.
  assert (Hc3 : c' <= r * ((1 + u) * (1 + u) * (1 + u))) by nra.
  assert (Hc4 : r * ((1 - u) * (1 - u) * (1 - u)) <= c') by nra.
  assert (Hk1 : (1 + u) * (1 + u) * (1 + u) <= 1 + 4 * u) by nra.
  assert (Hk2 : 1 - 4 * u <= (1 - u) * (1 - u) * (1 - u)) by nra.
  split; nra.
Qed.

Lemma computed_percent_bounds (surplus consumption : Q) :
  0 <= surplus -> 0 < consumption ->
  let exact := surplus / consumption * 100 in
  let computed := fl (fl (fl surplus / consumption) * 100) in
  exact * (1 - percent_margin) <= computed <= exact * (1 + percent_margin).
Proof.
  intros Hs Hc exact computed.
  assert (Hic : 0 < / consumption) by (apply Qinv_lt_0_compat; exact Hc).
  pose proof (fl_bounds surplus Hs) as H1.
  pose proof (fl_nonneg surplus Hs) as Hs0.
  assert (Hq0 : 0 <= fl surplus / consumption).
  { unfold Qdiv. apply Qmult_le_0_compat; [exact Hs0 | apply Qlt_le_weak; exact Hic]. }
  pose proof (fl_bounds _ Hq0) as H2.
  pose proof (fl_nonneg _ Hq0) as Hq1.
  assert (Hp0 : 0 <= fl (fl surplus / consumption) * 100) by nra.
  pose proof (fl_bounds _ Hp0) as H3.
  fold computed in H3.
  set (u := unit_roundoff) in *.
  set (q := fl (fl surplus / consumption)) in *.
  set (s := fl surplus) in *.
  assert (Hr : 0 <= exact).
  { unfold exact, Qdiv. 
    assert (0 <= surplus * / consumption)
      by (apply Qmult_le_0_compat; [exact Hs | apply Qlt_le_weak; exact Hic]).
    nra. }
  assert (Ha : exact * (1 - u) <= s / consumption * 100 <= exact * (1 + u)).
  { unfold exact, Qdiv in *. set (ic := / consumption) in *. clearbody ic s.
    destruct H1 as [H1a H1b]. split; nra. }
  assert (Hb : (s / consumption * 100) * (1 - u) <= q * 100
               <= (s / consumption * 100) * (1 + u)).
  { destruct H2 as [H2a H2b]. split; nra. }
  assert (Hm : percent_margin == 4 * u) by reflexivity.
  destruct (three_roundings exact (s / consumption * 100) (q * 100) computed u)
    as [Hlo Hhi]; try assumption; try (unfold u, unit_roundoff; discriminate).
  rewrite Hm. split; assumption.
Qed.

(** ** Exactness on the float grid *)

Lemma round_half_even_whole (n : Z) : round_half_even (inject_Z n) = n.
Proof.
  unfold round_half_even. rewrite Qfloor_Z.
  assert (E : inject_Z n - inject_Z n == 0) by ring.
  rewrite E. reflexivity.
Qed.

Lemma pow2_le (a b : Z) : (a <= b)%Z -> pow2 a <= pow2 b.
Proof. intro H. apply Qpower_le_compat_l; [exact H | discriminate]. Qed.

Lemma pow2_lt (a b : Z) : (a < b)%Z -> pow2 a < pow2 b.
Proof. intro H. apply Qpower_lt_compat_l; [exact H | reflexivity]. Qed.

Lemma binade_unique (x : Q) (b : Z) :
  pow2 b <= Qabs x -> Qabs x < pow2 (b + 1) -> binade x = b.
Proof.
  intros Hlo Hhi.
  assert (Hx : ~ x == 0).
  { intro E. rewrite E in Hlo. pose proof (pow2_pos b). 
    change (Qabs 0) with 0 in Hlo. lra. }
  destruct (binade_spec x Hx) as [Hlo' Hhi'].
  assert (H1 : (binade x < b + 1)%Z).
  { apply Z.lt_nge. intro C. apply pow2_le in C. lra. }
  assert (H2 : (b < binade x + 1)%Z).
  { apply Z.lt_nge. intro C. apply pow2_le in C. lra. }
  lia.
Qed.

Lemma binade_comp (x y : Q) : ~ x == 0 -> x == y -> binade x = binade y.
Proof.
  intros Hx E. symmetry.
  destruct (binade_spec x Hx) as [Hlo Hhi].
  apply binade_unique; rewrite <- E; assumption.
Qed.

Lemma binade_monotone (x y : Q) : 0 < x -> x <= y -> (binade x <= binade y)%Z.
Proof.
  intros Hx Hxy.
  assert (Hx0 : ~ x == 0) by (intro E; rewrite E in Hx; apply (Qlt_irrefl 0 Hx)).
  assert (Hy0 : ~ y == 0) by (intro E; rewrite E in Hxy; lra).
  destruct (binade_spec x Hx0) as [Hlo _].
  destruct (binade_spec y Hy0) as [_ Hhi].
  rewrite (Qabs_pos x) in Hlo by lra. rewrite (Qabs_pos y) in Hhi by lra.
  apply Z.le_ngt. intro C.
  assert (C' : (binade y + 1 <= binade x)%Z) by lia.
  apply pow2_le in C'. lra.
Qed.

(** [fl] in terms of the binade of its argument. *)
Lemma fl_unfold (x : Q) :
  ~ x == 0 ->
  fl x == inject_Z (round_half_even (x / pow2 (binade x - 52))) * pow2 (binade x - 52).
Proof.
  intro Hx. unfold fl.
  pose proof (Qred_correct x) as Hred.
  set (x' := Qred x) in *.
  assert (Hx' : ~ x' == 0) by (rewrite Hred; exact Hx).
  assert (E0 : Qeq_bool x' 0 = false).
  { destruct (Qeq_bool x' 0) eqn:E; [| reflexivity].
    apply Qeq_bool_eq in E. contradiction. }
  rewrite E0, Qred_correct.
  rewrite (binade_comp x' x Hx' Hred).
  rewrite (round_half_even_comp (x' / pow2 (binade x - 52)) (x / pow2 (binade x - 52)))
    by (rewrite Hred; reflexivity).
  reflexivity.
Qed.

Lemma scaled_in_binade (x : Q) :
  0 < x ->
  4503599627370496 <= x / pow2 (binade x - 52)
  /\ x / pow2 (binade x - 52) < 9007199254740992.
Proof.
  intro Hx.
  assert (Hx0 : ~ x == 0) by (intro E; rewrite E in Hx; apply (Qlt_irrefl 0 Hx)).
  destruct (binade_spec x Hx0) as [Hlo Hhi].
  rewrite (Qabs_pos x) in Hlo, Hhi by lra.
  set (e := (binade x - 52)%Z).
  replace (binade x) with (e + 52)%Z in Hlo by (unfold e; lia).
  replace (binade x + 1)%Z with (e + 53)%Z in Hhi by (unfold e; lia).
  rewrite pow2_plus in Hlo, Hhi.
  change (pow2 52) with 4503599627370496 in Hlo.
  change (pow2 53) with 9007199254740992 in Hhi.
  pose proof (pow2_pos e) as He.
  split.
  - apply Qle_shift_div_l; [exact He |]. lra.
  - apply Qlt_shift_div_r; [exact He |]. lra.
Qed.

(** Rounding keeps the order (on positive numbers). *)
Lemma fl_monotone (x y : Q) : 0 < x -> x <= y -> fl x <= fl y.
Proof.
  intros Hx Hxy.
  assert (Hy : 0 < y) by lra.
  assert (Hx0 : ~ x == 0) by (intro E; rewrite E in Hx; apply (Qlt_irrefl 0 Hx)).
  assert (Hy0 : ~ y == 0) by (intro E; rewrite E in Hy; apply (Qlt_irrefl 0 Hy)).
  rewrite (fl_unfold x Hx0), (fl_unfold y Hy0).
  pose proof (binade_monotone x y Hx Hxy) as Hb.
  destruct (scaled_in_binade x Hx) as [_ Hxhi].
  destruct (scaled_in_binade y Hy) as [Hylo _].
  set (ex := (binade x - 52)%Z) in *. set (ey := (binade y - 52)%Z) in *.
  destruct (Z.eq_dec ex ey) as [E | Hne].
  - rewrite <- E in *.
    pose proof (pow2_pos ex) as He.
    apply Qmult_le_compat_r; [| lra].
    rewrite <- Zle_Qle. apply round_half_even_monotone.
    unfold Qdiv. apply Qmult_le_compat_r; [exact Hxy |].
    apply Qlt_le_weak. apply Qinv_lt_0_compat. exact He.
  - assert (Hlt : (ex + 1 <= ey)%Z) by (unfold ex, ey in *; lia).
    assert (Hmx : (round_half_even (x / pow2 ex) <= 9007199254740992)%Z).
    { rewrite <- (round_half_even_whole 9007199254740992).
      apply round_half_even_monotone. apply Qlt_le_weak. exact Hxhi. }
    assert (Hmy : (4503599627370496 <= round_half_even (y / pow2 ey))%Z).
    { rewrite <- (round_half_even_whole 4503599627370496).
      apply round_half_even_monotone. exact Hylo. }
    rewrite Zle_Qle in Hmx, Hmy.
    change (inject_Z 9007199254740992) with 9007199254740992 in Hmx.
    change (inject_Z 4503599627370496) with 4503599627370496 in Hmy.
    pose proof (pow2_pos ex) as Hex. pose proof (pow2_pos ey) as Hey.
    pose proof (pow2_le (ex + 1) ey Hlt) as Hpow.
    rewrite pow2_plus in Hpow. change (pow2 1) with 2 in Hpow.
    set (mx := inject_Z (round_half_even (x / pow2 ex))) in *.
    set (my := inject_Z (round_half_even (y / pow2 ey))) in *.
    set (px := pow2 ex) in *. set (py := pow2 ey) in *.
    clearbody mx my px py.
    apply Qle_trans with (9007199254740992 * px); [nra |].
    apply Qle_trans with (4503599627370496 * py); nra.
Qed.

(** A number with at most 53 significant bits is a float. *)
Lemma fl_fixed (j e : Z) :
  (0 < j < 9007199254740992)%Z -> fl (inject_Z j * pow2 e) == inject_Z j * pow2 e.
Proof.
  intros [Hj0 Hj1].
  set (x := inject_Z j * pow2 e).
  pose proof (pow2_pos e) as He.
  assert (HjQ : 0 < inject_Z j) by (change 0 with (inject_Z 0); rewrite <- Zlt_Qlt; exact Hj0).
  assert (Hx : 0 < x) by (unfold x; nra).
  assert (Hx0 : ~ x == 0) by (intro E; rewrite E in Hx; apply (Qlt_irrefl 0 Hx)).
  rewrite (fl_unfold x Hx0).
  destruct (binade_spec x Hx0) as [Hlo _].
  rewrite (Qabs_pos x) in Hlo by lra.
  assert (Hb : (binade x - 52 <= e)%Z).
  { assert (Hlt : pow2 (binade x) < pow2 (e + 53)).
    { eapply Qle_lt_trans; [exact Hlo |]. unfold x. rewrite pow2_plus.
      change (pow2 53) with 9007199254740992.
      rewrite Zlt_Qlt in Hj1. change (inject_Z 9007199254740992) with 9007199254740992 in Hj1.
      nra. }
    apply Qpower_lt_compat_l_inv in Hlt; [lia | reflexivity]. }
  set (b := (binade x - 52)%Z) in *.
  assert (Hscaled : x / pow2 b == inject_Z (j * 2 ^ (e - b))).
  { unfold x. rewrite inject_Z_mult. rewrite <- (pow2_of_Z (e - b)) by lia.
    replace e with ((e - b) + b)%Z at 1 by lia. rewrite pow2_plus.
    pose proof (pow2_pos b) as Hpb.
    field. intro C. rewrite C in Hpb. apply (Qlt_irrefl 0 Hpb). }
  rewrite (round_half_even_comp _ _ Hscaled), round_half_even_whole.
  rewrite <- Hscaled. pose proof (pow2_pos b) as Hpb.
  field. intro C. rewrite C in Hpb. apply (Qlt_irrefl 0 Hpb).
Qed.

(** A positive float is a whole multiple of the grid step of any positive
    number below it. *)
Lemma float_on_grid (c y : Q) :
  0 < c -> c <= y -> fl y == y ->
  exists M : Z, y == inject_Z M * pow2 (binade c - 52).
Proof.
  intros Hc Hcy Hy.
  assert (Hypos : 0 < y) by lra.
  assert (Hy0 : ~ y == 0) by (intro E; rewrite E in Hypos; apply (Qlt_irrefl 0 Hypos)).
  pose proof (binade_monotone c y Hc Hcy) as Hb.
  rewrite (fl_unfold y Hy0) in Hy.
  set (my := round_half_even (y / pow2 (binade y - 52))) in *.
  exists (my * 2 ^ (binade y - binade c))%Z.
  rewrite inject_Z_mult, <- (pow2_of_Z (binade y - binade c)) by lia.
  rewrite <- Qmult_assoc, <- pow2_plus.
  replace (binade y - binade c + (binade c - 52))%Z with (binade y - 52)%Z by lia.
  symmetry. exact Hy.
Qed.

(** On float totals the healthy-surplus bound is exact: a surplus over
    half of the consumption is computed as more than 50 percent. *)
Lemma computed_percent_over_half (generation consumption : Q) :
  fl generation == generation -> fl consumption == consumption ->
  0 < consumption ->
  (50 # 100) * consumption < generation - consumption ->
  50 < fl (fl (fl (generation - consumption) / consumption) * 100).
Proof.
  intros Hg Hc Hpos Hhalf.
  set (d := generation - consumption) in *.
  assert (Hd : 0 < d) by lra.
  assert (Hic : 0 < / consumption) by (apply Qinv_lt_0_compat; exact Hpos).
  destruct (Qlt_le_dec consumption d) as [Hbig | Hsmall].
  - (* more than twice the consumption: the rounding margin is enough *)
    pose proof (computed_percent_bounds d consumption (Qlt_le_weak _ _ Hd) Hpos) as [Hlo _].
    cbv zeta in Hlo.
    assert (Hratio : 1 <= d / consumption).
    { apply Qle_shift_div_l; [exact Hpos | lra]. }
    assert (Hm : percent_margin < 1 # 1000) by reflexivity.
    assert (Hm0 : 0 < percent_margin) by reflexivity.
    set (m := percent_margin) in *. set (r := d / consumption) in *.
    clearbody m r. eapply Qlt_le_trans; [| exact Hlo]. nra.
  - (* at most twice: the subtraction is exact *)
    set (P := pow2 (binade consumption - 52)).
    pose proof (pow2_pos (binade consumption - 52)) as HP. fold P in HP.
    destruct (float_on_grid consumption generation Hpos ltac:(unfold d in Hd; lra) Hg)
      as [Mg HMg].
    destruct (float_on_grid consumption consumption Hpos (Qle_refl _) Hc) as [Mc HMc].
    fold P in HMg, HMc.
    destruct (scaled_in_binade consumption Hpos) as [Hclo Hchi]. fold P in Hclo, Hchi.
    assert (HcP : consumption / P == inject_Z Mc).
    { rewrite HMc. field. intro C. rewrite C in HP. apply (Qlt_irrefl 0 HP). }
    rewrite HcP in Hclo, Hchi.
    change 4503599627370496 with (inject_Z 4503599627370496) in Hclo.
    change 9007199254740992 with (inject_Z 9007199254740992) in Hchi.
    rewrite <- Zle_Qle in Hclo. rewrite <- Zlt_Qlt in Hchi.
    set (J := (Mg - Mc)%Z).
    assert (HdJ : d == inject_Z J * P).
    { unfold d, J. rewrite HMg, HMc. unfold Zminus.
      rewrite inject_Z_plus, inject_Z_opp. ring. }
    assert (HJ0 : (0 < J)%Z).
    { rewrite Zlt_Qlt. change (inject_Z 0) with 0.
      rewrite HdJ in Hd. nra. }
    assert (HJc : (J <= Mc)%Z).
    { rewrite Zle_Qle. rewrite HdJ, HMc in Hsmall. nra. }
    assert (HJ2 : (Mc + 1 <= 2 * J)%Z).
    { assert (Hlt : (Mc < 2 * J)%Z); [| lia].
      rewrite Zlt_Qlt, inject_Z_mult. change (inject_Z 2) with 2.
      rewrite HdJ, HMc in Hhalf. nra. }
    assert (Hexact : fl d == d).
    { rewrite (fl_comp d (inject_Z J * P) HdJ), HdJ. apply fl_fixed. lia. }
    assert (Hq : fl (fl d / consumption) = fl (d / consumption)).
    { apply fl_comp. rewrite Hexact. reflexivity. }
    rewrite Hq.
    assert (HK : (4503599627370496 # 9007199254740991) <= d / consumption).
    { apply Qle_shift_div_l; [exact Hpos |].
      rewrite HdJ, HMc.
      assert (Hz : (4503599627370496 * Mc <= 9007199254740991 * J)%Z) by lia.
      rewrite Zle_Qle, !inject_Z_mult in Hz.
      change (inject_Z 4503599627370496) with 4503599627370496 in Hz.
      change (inject_Z 9007199254740991) with 9007199254740991 in Hz.
      setoid_replace (4503599627370496 # 9007199254740991)
        with (4503599627370496 / 9007199254740991) by reflexivity.
      set (mc := inject_Z Mc) in *. set (j := inject_Z J) in *. clearbody mc j P.
      assert (Hgoal : 4503599627370496 * mc * P <= 9007199254740991 * (j * P)) by nra.
      apply Qle_trans with (9007199254740991 * (j * P) / 9007199254740991).
      - apply Qle_shift_div_l; [reflexivity |]. 
        setoid_replace (4503599627370496 / 9007199254740991 * (mc * P) * 9007199254740991)
          with (4503599627370496 * mc * P) by field.
        exact Hgoal.
      - apply Qle_lteq. right. field. }
    assert (Hq1 : (4503599627370497 # 9007199254740992) <= fl (d / consumption)).
    { change (4503599627370497 # 9007199254740992)
        with (fl (4503599627370496 # 9007199254740991)).
      apply fl_monotone; [reflexivity | exact HK]. }
    assert (Hp : fl ((4503599627370497 # 9007199254740992) * 100)
                 <= fl (fl (d / consumption) * 100)).
    { apply fl_monotone; [reflexivity |]. lra. }
    eapply Qlt_le_trans; [| exact Hp]. vm_compute. reflexivity.
Qed.

(** ... and a surplus of at most half of the consumption as at most 50. *)
Lemma computed_percent_at_most_half (surplus consumption : Q) :
  fl consumption == consumption ->
  0 < consumption -> 0 <= surplus ->
  surplus <= (50 # 100) * consumption ->
  fl (fl (fl surplus / consumption) * 100) <= 50.
Proof.
  intros Hc Hpos Hs Hhalf.
  destruct (Qeq_dec surplus 0) as [E0 | Hne].
  - rewrite (fl_zero surplus E0).
    assert (E1 : 0 / consumption == 0) by (unfold Qdiv; ring).
    rewrite (fl_zero _ E1).
    assert (E2 : 0 * 100 == 0) by ring.
    rewrite (fl_zero _ E2). discriminate.
  - assert (Hs' : 0 < surplus).
    { apply Qnot_le_lt. intro C. apply Hne. apply Qle_antisym; assumption. }
    (* half of the consumption is a float *)
    set (P := pow2 (binade consumption - 52)).
    pose proof (pow2_pos (binade consumption - 52)) as HP. fold P in HP.
    destruct (float_on_grid consumption consumption Hpos (Qle_refl _) Hc) as [Mc HMc].
    fold P in HMc.
    destruct (scaled_in_binade consumption Hpos) as [Hclo Hchi]. fold P in Hclo, Hchi.
    assert (HcP : consumption / P == inject_Z Mc).
    { rewrite HMc. field. intro C. rewrite C in HP. apply (Qlt_irrefl 0 HP). }
    rewrite HcP in Hclo, Hchi.
    change 4503599627370496 with (inject_Z 4503599627370496) in Hclo.
    change 9007199254740992 with (inject_Z 9007199254740992) in Hchi.
    rewrite <- Zle_Qle in Hclo. rewrite <- Zlt_Qlt in Hchi.
    assert (Hhalf_eq : (50 # 100) * consumption
                       == inject_Z Mc * pow2 (binade consumption - 52 - 1)).
    { assert (HP2 : P == pow2 (binade consumption - 52 - 1) * 2).
      { unfold P.
        replace (binade consumption - 52)%Z with ((binade consumption - 52 - 1) + 1)%Z
          at 1 by lia.
        rewrite pow2_plus. reflexivity. }
      generalize dependent (pow2 (binade consumption - 52 - 1)). intros p2 HP2.
      clearbody P. rewrite HMc, HP2. ring. }
    assert (Hfix : fl ((50 # 100) * consumption) == (50 # 100) * consumption).
    { rewrite (fl_comp _ _ Hhalf_eq), Hhalf_eq. apply fl_fixed. lia. }
    assert (H1 : fl surplus <= (50 # 100) * consumption).
    { rewrite <- Hfix. apply fl_monotone; assumption. }
    pose proof (fl_pos surplus Hs') as H0.
    assert (Hic : 0 < / consumption) by (apply Qinv_lt_0_compat; exact Hpos).
    assert (H2 : fl surplus / consumption <= 1 # 2).
    { apply Qle_shift_div_r; [exact Hpos | lra]. }
    assert (H2' : 0 < fl surplus / consumption).
    { unfold Qdiv. apply Qmult_lt_0_compat; assumption. }
    assert (H3 : fl (fl surplus / consumption) <= 1 # 2).
    { change (1 # 2) with (fl (1 # 2)). apply fl_monotone; assumption. }
    pose proof (fl_pos _ H2') as H3'.
    change 50 with (fl 50).
    apply fl_monotone; lra.
Qed.

Lemma fdiv_no_fault (a b : Q) : 0 < b -> fdiv a b = Ok (fl (a / b)).
Proof.
  intro H. unfold fdiv.
  assert (E : Qeq_bool b 0 = false).
  { apply Qeq_bool_false. intro E. rewrite E in H. apply (Qlt_irrefl 0 H). }
  rewrite E. reflexivity.
Qed.

Lemma fsum_snoc (xs : list Q) (x : Q) : fsum (xs ++ [x]) = fadd (fsum xs) x.
Proof.
  unfold fsum. rewrite fold_left_app. reflexivity.
Qed.

(* ================================================================== *)
(** * Bottleneck analysis of one recipe group                          *)
(* ================================================================== *)

Section GroupFacts.

Variable db : RecipeDatabase.t.

Lemma total_theoretical_rate_ok (recipe_id : Z) (assemblers : list AssemblerMetrics.t) :
  assemblers <> [] ->
  exists tt, BottleneckAnalyzer.total_theoretical_rate db recipe_id assemblers = Ok tt.
Proof.
  intro Hne. destruct assemblers as [| a rest]; [congruence |].
  unfold BottleneckAnalyzer.total_theoretical_rate. cbn [index0 bind].
  match goal with |- context [if ?c then Ok _ else Ok _] => destruct c end;
    eexists; reflexivity.
Qed.

Lemma group_statistics_of_total
      (recipe_id : Z) (assemblers : list AssemblerMetrics.t) (tt : Q) :
  BottleneckAnalyzer.total_theoretical_rate db recipe_id assemblers = Ok tt ->
  BottleneckAnalyzer.group_statistics db recipe_id assemblers
  = Ok (sum (map AssemblerMetrics.production_rate assemblers), tt,
        if Qgtb tt 0
        then sum (map AssemblerMetrics.production_rate assemblers) / tt * 100
        else 100).
Proof.
  intro Htt. unfold BottleneckAnalyzer.group_statistics. rewrite Htt. cbn [bind].
  destruct (Qgtb tt 0) eqn:E; [| reflexivity].
  apply Qgtb_true in E. rewrite (div_no_fault _ _ E). reflexivity.
Qed.

Lemma group_statistics_inv
      (recipe_id : Z) (assemblers : list AssemblerMetrics.t) (tp tt avg : Q) :
  BottleneckAnalyzer.group_statistics db recipe_id assemblers = Ok (tp, tt, avg) ->
  assemblers <> []
  /\ BottleneckAnalyzer.total_theoretical_rate db recipe_id assemblers = Ok tt
  /\ avg = (if Qgtb tt 0 then tp / tt * 100 else 100).
Proof.
  intro H. split.
  - intro E. subst assemblers. discriminate H.
  - destruct (BottleneckAnalyzer.total_theoretical_rate db recipe_id assemblers)
      as [tt' | e] eqn:Htt.
    + rewrite (group_statistics_of_total _ _ _ Htt) in H.
      injection H as Hp Ht Ha. subst tt'. subst tp. split; [reflexivity | ].
      symmetry. exact Ha.
    + unfold BottleneckAnalyzer.group_statistics in H. rewrite Htt in H. discriminate H.
Qed.

Lemma group_statistics_ok (recipe_id : Z) (assemblers : list AssemblerMetrics.t) :
  assemblers <> [] ->
  exists tp tt avg,
    BottleneckAnalyzer.group_statistics db recipe_id assemblers = Ok (tp, tt, avg).
Proof.
  intro Hne. destruct (total_theoretical_rate_ok recipe_id assemblers Hne) as [tt Htt].
  do 3 eexists. apply group_statistics_of_total. exact Htt.
Qed.

(** With a known recipe and the statistics at hand, the analysis of a
    group records the type the precedence dictates, and its severity. *)
Lemma analyze_recipe_group_recorded
      (recipe_id : Z) (recipe : Recipe.t) (assemblers : list AssemblerMetrics.t)
      (planet : PlanetState.t) (include_downstream : bool) (tp tt avg : Q) :
  RecipeDatabase.get_recipe db recipe_id = Some recipe ->
  BottleneckAnalyzer.group_statistics db recipe_id assemblers = Ok (tp, tt, avg) ->
  match classify_by_precedence (starved_fraction assemblers)
                               (blocked_fraction assemblers) avg with
  | None =>
      BottleneckAnalyzer._analyze_recipe_group
        db recipe_id assemblers planet include_downstream = Ok None
  | Some ty =>
      exists b,
      BottleneckAnalyzer._analyze_recipe_group
        db recipe_id assemblers planet include_downstream = Ok (Some b)
      /\ Bottleneck.bottleneck_type b = ty
      /\ Bottleneck.efficiency b = avg
      /\ Bottleneck.severity b
         = (if Qgtb (starved_fraction assemblers) (3 # 10)
            then starved_fraction assemblers * 100
            else if Qgtb (blocked_fraction assemblers) (3 # 10)
                 then blocked_fraction assemblers * 100
                 else 100 - avg)
  end.
Proof.
  intros Hrec Hstats.
  destruct (group_statistics_inv _ _ _ _ _ Hstats) as (Hne & _ & _).
  pose proof (len_positive assemblers Hne) as Hlen.
  unfold BottleneckAnalyzer._analyze_recipe_group, classify_by_precedence.
  rewrite Hrec, Hstats. cbn [bind].
  unfold BottleneckAnalyzer.threshold_30.
  rewrite !(over_30_percent _ _ Hlen).
  fold (starved_fraction assemblers). fold (blocked_fraction assemblers).
  destruct (Qgtb (starved_fraction assemblers) (3 # 10)) eqn:Es.
  - rewrite (div_no_fault _ _ Hlen). cbn [bind].
    eexists. split; [reflexivity |]. cbn. repeat split; reflexivity.
  - destruct (Qgtb (blocked_fraction assemblers) (3 # 10)) eqn:Eb.
    + rewrite (div_no_fault _ _ Hlen). cbn [bind].
      eexists. split; [reflexivity |]. cbn. repeat split; reflexivity.
    + destruct (Qltb avg 80) eqn:Ea.
      * cbn [bind]. eexists. split; [reflexivity |]. cbn. repeat split; reflexivity.
      * reflexivity.
Qed.

End GroupFacts.

Lemma fraction_defined (c : Z) (assemblers : list AssemblerMetrics.t) :
  3 # 10 < inject_Z c / inject_Z (len assemblers) -> assemblers <> [].
Proof.
  intros H E. subst assemblers. unfold len in H. simpl in H.
  unfold Qdiv, Qinv in H. simpl in H. rewrite Qmult_0_r in H.
  revert H. apply Qle_not_lt. discriminate.
Qed.

(** C1.  Classification of a recipe group follows the fixed precedence
    input_starvation, then output_blocked, then low_efficiency, first match
    winning: the recorded type is the one [classify_by_precedence] gives for
    the group's starved fraction, blocked fraction and average efficiency.
    In particular a group with more than 30% starved and more than 30%
    blocked buildings is classified input_starvation. *)
Theorem classification_follows_precedence
        (db : RecipeDatabase.t) (recipe_id : Z) (recipe : Recipe.t)
        (assemblers : list AssemblerMetrics.t)
        (planet : PlanetState.t) (include_downstream : bool) :
  RecipeDatabase.get_recipe db recipe_id = Some recipe ->
  assemblers <> [] ->
  exists tp tt avg,
    BottleneckAnalyzer.group_statistics db recipe_id assemblers = Ok (tp, tt, avg)
    /\ recorded_type
         (BottleneckAnalyzer._analyze_recipe_group
            db recipe_id assemblers planet include_downstream)
       = Ok (classify_by_precedence (starved_fraction assemblers)
                                    (blocked_fraction assemblers) avg)
    /\ (3 # 10 < starved_fraction assemblers ->
        3 # 10 < blocked_fraction assemblers ->
        recorded_type
          (BottleneckAnalyzer._analyze_recipe_group
             db recipe_id assemblers planet include_downstream)
        = Ok (Some "input_starvation"%string)).
Proof.
  intros Hrec Hne.
  destruct (group_statistics_ok db recipe_id assemblers Hne) as (tp & tt & avg & Hstats).
  exists tp, tt, avg. split; [exact Hstats |].
  pose proof (analyze_recipe_group_recorded
                db recipe_id recipe assemblers planet include_downstream
                tp tt avg Hrec Hstats) as H.
  assert (Htype :
            recorded_type
              (BottleneckAnalyzer._analyze_recipe_group
                 db recipe_id assemblers planet include_downstream)
            = Ok (classify_by_precedence (starved_fraction assemblers)
                                         (blocked_fraction assemblers) avg)).
  { destruct (classify_by_precedence (starved_fraction assemblers)
                                     (blocked_fraction assemblers) avg) as [ty |].
    - destruct H as (b & Hb & Hty & _). rewrite Hb. simpl. rewrite Hty. reflexivity.
    - rewrite H. reflexivity. }
  split; [exact Htype |].
  intros Hs _. rewrite Htype. unfold classify_by_precedence.
  apply Qgtb_true in Hs. rewrite Hs. reflexivity.
Qed.

Lemma classification_follows_precedence_witness :
  3 # 10 < starved_fraction Example.starved_and_blocked
  /\ 3 # 10 < blocked_fraction Example.starved_and_blocked
  /\ recorded_type
       (BottleneckAnalyzer._analyze_recipe_group
          Example.db 1 Example.starved_and_blocked (Example.planet_of [] None) true)
     = Ok (Some "input_starvation"%string).
Proof.
  destruct (classification_follows_precedence
              Example.db 1 Example.smelt_iron Example.starved_and_blocked
              (Example.planet_of [] None) true)
    as (tp & tt & avg & _ & _ & H).
  - reflexivity.
  - discriminate.
  - split; [reflexivity |]. split; [reflexivity |]. apply H; reflexivity.
Defined.

(** A group starved above 30% is recorded as input_starvation, with the
    starved fraction times 100 as severity. *)
Lemma starved_group_severity
      (db : RecipeDatabase.t) (recipe_id : Z) (recipe : Recipe.t)
      (assemblers : list AssemblerMetrics.t)
      (planet : PlanetState.t) (include_downstream : bool) :
  RecipeDatabase.get_recipe db recipe_id = Some recipe ->
  3 # 10 < starved_fraction assemblers ->
  exists b,
    BottleneckAnalyzer._analyze_recipe_group
      db recipe_id assemblers planet include_downstream = Ok (Some b)
    /\ Bottleneck.bottleneck_type b = "input_starvation"%string
    /\ Bottleneck.severity b = starved_fraction assemblers * 100.
Proof.
  intros Hrec Hfrac.
  pose proof (fraction_defined _ _ Hfrac) as Hne.
  destruct (group_statistics_ok db recipe_id assemblers Hne) as (tp & tt & avg & Hstats).
  pose proof (analyze_recipe_group_recorded
                db recipe_id recipe assemblers planet include_downstream
                tp tt avg Hrec Hstats) as H.
  unfold classify_by_precedence in H.
  apply Qgtb_true in Hfrac. rewrite Hfrac in H.
  destruct H as (b & Hb & Hty & _ & Hsev).
  exists b. split; [exact Hb |]. split; [exact Hty | exact Hsev].
Qed.

(** C3.  A group whose starved fraction strictly exceeds 0.3 gets a
    bottleneck of type input_starvation whose severity is that fraction
    times 100.  A group of 4 assemblers with exactly 2 starved gets severity
    50; and the report of a one-planet snapshot holding such a group lists
    one bottleneck, of type input_starvation and severity 50.0. *)
Theorem starved_group_is_input_starvation
        (db : RecipeDatabase.t) (recipe_id : Z) (recipe : Recipe.t)
        (assemblers : list AssemblerMetrics.t)
        (planet : PlanetState.t) (include_downstream : bool) :
  RecipeDatabase.get_recipe db recipe_id = Some recipe ->
  3 # 10 < starved_fraction assemblers ->
  (exists b,
      BottleneckAnalyzer._analyze_recipe_group
        db recipe_id assemblers planet include_downstream = Ok (Some b)
      /\ Bottleneck.bottleneck_type b = "input_starvation"%string
      /\ Bottleneck.severity b == starved_fraction assemblers * 100
      /\ (len assemblers = 4%Z ->
          count AssemblerMetrics.input_starved assemblers = 2%Z ->
          Bottleneck.severity b == 50))
  /\ (exists report entry,
         BottleneckAnalyzer.analyze
           Example.db
           (Example.snapshot [(1%Z, Example.planet_of Example.two_of_four_starved None)])
           None None 60 true = Ok report
         /\ get "bottlenecks" report = Some (VList [entry])
         /\ get "type" entry = Some (VStr "input_starvation")
         /\ get "severity" entry = Some (VFloat 50)).
Proof.
  intros Hrec Hfrac. split.
  - destruct (starved_group_severity db recipe_id recipe assemblers planet
                                     include_downstream Hrec Hfrac)
      as (b & Hb & Hty & Hsev).
    exists b. split; [exact Hb |]. split; [exact Hty |].
    split; [rewrite Hsev; reflexivity |].
    intros Hlen Hcount. rewrite Hsev. unfold starved_fraction.
    rewrite Hlen, Hcount. reflexivity.
  - eexists. eexists. split; [vm_compute; reflexivity |].
    split; [reflexivity |]. split; reflexivity.
Qed.

Lemma starved_group_is_input_starvation_witness :
  exists b,
    BottleneckAnalyzer._analyze_recipe_group
      Example.db 1 Example.two_of_four_starved (Example.planet_of [] None) true
    = Ok (Some b)
    /\ Bottleneck.bottleneck_type b = "input_starvation"%string
    /\ Bottleneck.severity b == 50.
Proof.
  destruct (starved_group_is_input_starvation
              Example.db 1 Example.smelt_iron Example.two_of_four_starved
              (Example.planet_of [] None) true)
    as ((b & Hb & Hty & _ & Hsev) & _).
  - reflexivity.
  - reflexivity.
  - exists b. split; [exact Hb |]. split; [exact Hty |]. apply Hsev; reflexivity.
Defined.

Lemma round_separates (a b : Q) (ndigits : nat) :
  1 / pow10 ndigits < b - a -> round a ndigits < round b ndigits.
Proof.
  intro H. unfold round. rewrite !Qred_correct.
  assert (Hpow : 0 < pow10 ndigits).
  { unfold pow10. change 0 with (inject_Z 0). rewrite <- Zlt_Qlt.
    apply Z.pow_pos_nonneg; lia. }
  assert (Hgap : 1 < b * pow10 ndigits - a * pow10 ndigits).
  { pose proof (Qmult_lt_compat_r _ _ _ Hpow H) as Hscaled.
    assert (E : 1 / pow10 ndigits * pow10 ndigits == 1).
    { field. intro C. rewrite C in Hpow. apply (Qlt_irrefl 0 Hpow). }
    rewrite E in Hscaled. lra. }
  pose proof (round_half_even_error (a * pow10 ndigits)) as [_ Ha].
  pose proof (round_half_even_error (b * pow10 ndigits)) as [Hb _].
  assert (Hz : (round_half_even (a * pow10 ndigits)
                < round_half_even (b * pow10 ndigits))%Z).
  { rewrite Zlt_Qlt. lra. }
  rewrite Zlt_Qlt in Hz.
  apply Qmult_lt_compat_r; [apply Qinv_lt_0_compat; exact Hpow | exact Hz].
Qed.

(** C4, as amended.  Severity is strictly monotonic in the starved
    fraction: of two groups of one recipe whose starved fractions both exceed
    30%, the one with the larger fraction is recorded with the strictly
    greater severity.  The report shows the severity rounded to one decimal:
    the reported severity of the group with the larger fraction is at least
    that of the other, and strictly greater as soon as the two severities
    are more than 0.1 apart. *)
Theorem severity_strictly_monotonic
        (db : RecipeDatabase.t) (recipe_id : Z) (recipe : Recipe.t)
        (group1 group2 : list AssemblerMetrics.t)
        (planet : PlanetState.t) (include_downstream : bool) :
  RecipeDatabase.get_recipe db recipe_id = Some recipe ->
  3 # 10 < starved_fraction group1 ->
  starved_fraction group1 < starved_fraction group2 ->
  exists b1 b2,
    BottleneckAnalyzer._analyze_recipe_group
      db recipe_id group1 planet include_downstream = Ok (Some b1)
    /\ BottleneckAnalyzer._analyze_recipe_group
         db recipe_id group2 planet include_downstream = Ok (Some b2)
    /\ Bottleneck.bottleneck_type b1 = "input_starvation"%string
    /\ Bottleneck.bottleneck_type b2 = "input_starvation"%string
    /\ Bottleneck.severity b1 < Bottleneck.severity b2
    /\ round (Bottleneck.severity b1) 1 <= round (Bottleneck.severity b2) 1
    /\ (1 # 1000 < starved_fraction group2 - starved_fraction group1 ->
        round (Bottleneck.severity b1) 1 < round (Bottleneck.severity b2) 1).
Proof.
  intros Hrec H1 H12.
  assert (H2 : 3 # 10 < starved_fraction group2) by (eapply Qlt_trans; eassumption).
  destruct (starved_group_severity db recipe_id recipe group1 planet include_downstream
                                   Hrec H1) as (b1 & Hb1 & Ht1 & Hs1).
  destruct (starved_group_severity db recipe_id recipe group2 planet include_downstream
                                   Hrec H2) as (b2 & Hb2 & Ht2 & Hs2).
  exists b1, b2. repeat (split; [assumption |]).
  assert (Hlt : Bottleneck.severity b1 < Bottleneck.severity b2)
    by (rewrite Hs1, Hs2; lra).
  split; [exact Hlt |].
  split; [apply round_monotone; apply Qlt_le_weak; exact Hlt |].
  intro Hgap. apply round_separates. rewrite Hs1, Hs2.
  change (1 / pow10 1) with (1 # 10). lra.
Qed.

(** C4, as first stated, fails on the reported severity: of 2001 smelters,
    1000 starved and 1001 starved give the severities 49.975... and
    50.024..., and both reports show 50.0. *)
Lemma reported_severity_not_strict :
  3 # 10 < starved_fraction (Example.starved_of_2001 1000)
  /\ starved_fraction (Example.starved_of_2001 1000)
     < starved_fraction (Example.starved_of_2001 1001)
  /\ exists report1 report2 entry1 entry2,
      BottleneckAnalyzer.analyze
        Example.db
        (Example.snapshot [(1%Z, Example.planet_of (Example.starved_of_2001 1000) None)])
        None None 60 true = Ok report1
      /\ BottleneckAnalyzer.analyze
           Example.db
           (Example.snapshot [(1%Z, Example.planet_of (Example.starved_of_2001 1001) None)])
           None None 60 true = Ok report2
      /\ get "bottlenecks" report1 = Some (VList [entry1])
      /\ get "bottlenecks" report2 = Some (VList [entry2])
      /\ get "type" entry1 = Some (VStr "input_starvation")
      /\ get "type" entry2 = Some (VStr "input_starvation")
      /\ get "severity" entry1 = Some (VFloat 50)
      /\ get "severity" entry2 = Some (VFloat 50).
Proof.
  split; [vm_compute; reflexivity |]. split; [vm_compute; reflexivity |].
  eexists. eexists. eexists. eexists.
  split; [vm_compute; reflexivity |]. split; [vm_compute; reflexivity |].
  repeat split; reflexivity.
Qed.

Lemma severity_strictly_monotonic_witness :
  exists b1 b2,
    BottleneckAnalyzer._analyze_recipe_group
      Example.db 1 Example.two_of_five_starved (Example.planet_of [] None) true
    = Ok (Some b1)
    /\ BottleneckAnalyzer._analyze_recipe_group
         Example.db 1 Example.three_of_five_starved (Example.planet_of [] None) true
       = Ok (Some b2)
    /\ Bottleneck.severity b1 == 40
    /\ Bottleneck.severity b2 == 60
    /\ Bottleneck.severity b1 < Bottleneck.severity b2.
Proof.
  destruct (severity_strictly_monotonic
              Example.db 1 Example.smelt_iron
              Example.two_of_five_starved Example.three_of_five_starved
              (Example.planet_of [] None) true)
    as (b1 & b2 & Hb1 & Hb2 & _ & _ & Hlt & _).
  - reflexivity.
  - reflexivity.
  - reflexivity.
  - exists b1, b2. split; [exact Hb1 |]. split; [exact Hb2 |].
    vm_compute in Hb1. injection Hb1 as <-.
    vm_compute in Hb2. injection Hb2 as <-.
    split; [reflexivity |]. split; reflexivity.
Defined.

(* ================================================================== *)
(** * Total theoretical rate and average efficiency                    *)
(* ================================================================== *)

Lemma fold_Qplus_shift (xs : list Q) (acc : Q) :
  fold_left Qplus xs acc == acc + fold_left Qplus xs 0.
Proof.
  revert acc. induction xs as [| x rest IH]; intro acc; simpl.
  - lra.
  - rewrite (IH (acc + x)), (IH (0 + x)). lra.
Qed.

Lemma sum_cons (x : Q) (xs : list Q) : sum (x :: xs) == x + sum xs.
Proof.
  unfold sum. simpl. rewrite fold_Qplus_shift. lra.
Qed.

Lemma sum_nonnegative (xs : list Q) : Forall (fun x => 0 < x) xs -> 0 <= sum xs.
Proof.
  induction 1 as [| x rest Hx _ IH].
  - unfold sum. simpl. lra.
  - rewrite sum_cons. lra.
Qed.

Lemma sum_positive (x : Q) (xs : list Q) : Forall (fun x => 0 < x) (x :: xs) -> 0 < sum (x :: xs).
Proof.
  intro H. inversion H as [| y ys Hx Hrest]; subst.
  rewrite sum_cons. pose proof (sum_nonnegative xs Hrest). lra.
Qed.

Lemma sum_zero (xs : list Q) : Forall (fun x => x == 0) xs -> sum xs == 0.
Proof.
  induction 1 as [| x rest Hx _ IH].
  - reflexivity.
  - rewrite sum_cons. lra.
Qed.

(** C5, as the specification words it, fails on the code under both
    readings: with only the second building populated the summed
    [theoretical_max] is 60 but the code derives 120 from the recipe; with
    only the first populated the code uses the sum 60 although a value is
    missing. *)
Lemma total_theoretical_not_the_populated_sum :
  (exists tt,
      BottleneckAnalyzer.total_theoretical_rate Example.db 1 Example.unpopulated_first
      = Ok tt
      /\ ~ tt == spec_total_theoretical_sum Example.db 1 Example.unpopulated_first)
  /\ (exists tt,
         BottleneckAnalyzer.total_theoretical_rate Example.db 1 Example.unpopulated_last
         = Ok tt
         /\ ~ tt == spec_total_theoretical_all Example.db 1 Example.unpopulated_last).
Proof.
  split; eexists; (split; [reflexivity |]); vm_compute; discriminate.
Qed.

(** C5, amended.  The total theoretical rate of a group is the sum of the
    [theoretical_max] values when the first building's value is positive and
    that sum is nonzero, and is otherwise derived by
    [calculate_theoretical_rate] from the recipe and the building count.  In
    particular it is the sum when every building's value is positive, and is
    derived when every building's value is zero. *)
Theorem total_theoretical_decided_by_first
        (db : RecipeDatabase.t) (recipe_id : Z)
        (assemblers : list AssemblerMetrics.t) (first : AssemblerMetrics.t) :
  index0 assemblers = Ok first ->
  let total := sum (map AssemblerMetrics.theoretical_max assemblers) in
  let derived := RecipeDatabase.calculate_theoretical_rate db recipe_id (len assemblers) in
  exists tt,
    BottleneckAnalyzer.total_theoretical_rate db recipe_id assemblers = Ok tt
    /\ (0 < AssemblerMetrics.theoretical_max first /\ ~ total == 0 -> tt = total)
    /\ (~ (0 < AssemblerMetrics.theoretical_max first /\ ~ total == 0) -> tt = derived)
    /\ (Forall (fun a => 0 < AssemblerMetrics.theoretical_max a) assemblers -> tt = total)
    /\ (Forall (fun a => AssemblerMetrics.theoretical_max a == 0) assemblers ->
        tt = derived).
Proof.
  intros Hfirst total derived.
  destruct assemblers as [| a rest]; [discriminate Hfirst |].
  injection Hfirst as ->.
  assert (Hcode :
            BottleneckAnalyzer.total_theoretical_rate db recipe_id (first :: rest)
            = Ok (if Qgtb (AssemblerMetrics.theoretical_max first) 0
                  then if Qeq_bool total 0 then derived else total
                  else derived)).
  { unfold BottleneckAnalyzer.total_theoretical_rate. cbn [index0 bind].
    fold total. fold derived.
    destruct (Qgtb (AssemblerMetrics.theoretical_max first) 0).
    - destruct (Qeq_bool total 0); reflexivity.
    - reflexivity. }
  eexists. split; [exact Hcode |].
  destruct (Qgtb (AssemblerMetrics.theoretical_max first) 0) eqn:Ef;
    [apply Qgtb_true in Ef | apply Qgtb_false in Ef];
    (destruct (Qeq_bool total 0) eqn:Et;
     [apply Qeq_bool_iff in Et | apply Qeq_bool_false in Et]).
  - repeat split.
    + intros [_ Hn]. contradiction.
    + intro Hall. exfalso.
      assert (Hpos : 0 < total).
      { unfold total. cbn [map]. apply sum_positive.
        exact (proj2 (Forall_map _ _ _) Hall). }
      rewrite Et in Hpos. apply (Qlt_irrefl 0 Hpos).
  - repeat split.
    intro Hn. exfalso. apply Hn. split; assumption.
    intro Hall. exfalso. apply Et. apply sum_zero.
    apply (proj2 (Forall_map _ _ _)). exact Hall.
  - repeat split.
    + intros [Hp _]. exfalso. apply (Qlt_irrefl 0). eapply Qlt_le_trans; eassumption.
    + intro Hall. inversion Hall as [| x xs Hx _]; subst.
      exfalso. apply (Qlt_irrefl 0). eapply Qlt_le_trans; eassumption.
  - repeat split.
    + intros [Hp _]. exfalso. apply (Qlt_irrefl 0). eapply Qlt_le_trans; eassumption.
    + intro Hall. inversion Hall as [| x xs Hx _]; subst.
      exfalso. apply (Qlt_irrefl 0). eapply Qlt_le_trans; eassumption.
Qed.

Lemma total_theoretical_decided_by_first_witness :
  exists tt,
    BottleneckAnalyzer.total_theoretical_rate Example.db 1 Example.two_of_four_starved
    = Ok tt
    /\ tt = sum (map AssemblerMetrics.theoretical_max Example.two_of_four_starved).
Proof.
  destruct (total_theoretical_decided_by_first
              Example.db 1 Example.two_of_four_starved
              (Example.smelter 60 60 false false) eq_refl)
    as (tt & Htt & Hsum & _).
  exists tt. split; [exact Htt |]. apply Hsum. split.
  - reflexivity.
  - vm_compute. discriminate.
Defined.

(** The analysis of a group never raises [ZeroDivisionError], whatever the
    group, the catalogue and the planet. *)
Lemma analyze_recipe_group_no_division_fault
      (db : RecipeDatabase.t) (recipe_id : Z) (assemblers : list AssemblerMetrics.t)
      (planet : PlanetState.t) (include_downstream : bool) :
  BottleneckAnalyzer._analyze_recipe_group
    db recipe_id assemblers planet include_downstream
  <> Raise ZeroDivisionError.
Proof.
  destruct (RecipeDatabase.get_recipe db recipe_id) as [recipe |] eqn:Hrec.
  - destruct assemblers as [| a rest].
    + unfold BottleneckAnalyzer._analyze_recipe_group. rewrite Hrec. discriminate.
    + assert (Hne : a :: rest <> []) by discriminate.
      destruct (group_statistics_ok db recipe_id (a :: rest) Hne)
        as (tp & tt & avg & Hstats).
      pose proof (analyze_recipe_group_recorded
                    db recipe_id recipe (a :: rest) planet include_downstream
                    tp tt avg Hrec Hstats) as H.
      destruct (classify_by_precedence _ _ _).
      * destruct H as (b & Hb & _). rewrite Hb. discriminate.
      * rewrite H. discriminate.
  - unfold BottleneckAnalyzer._analyze_recipe_group. rewrite Hrec. discriminate.
Qed.

(** C6.  For a group whose total theoretical rate is 0 the average
    efficiency is 100, the analysis returns without a division fault, and
    the group is not recorded as a low_efficiency bottleneck. *)
Theorem zero_theoretical_rate_is_fully_efficient
        (db : RecipeDatabase.t) (recipe_id : Z) (assemblers : list AssemblerMetrics.t)
        (planet : PlanetState.t) (include_downstream : bool) (tp tt avg : Q) :
  BottleneckAnalyzer.group_statistics db recipe_id assemblers = Ok (tp, tt, avg) ->
  tt == 0 ->
  avg = 100
  /\ exists outcome,
      BottleneckAnalyzer._analyze_recipe_group
        db recipe_id assemblers planet include_downstream = Ok outcome
      /\ forall b, outcome = Some b ->
                   Bottleneck.bottleneck_type b <> "low_efficiency"%string.
Proof.
  intros Hstats Hzero.
  destruct (group_statistics_inv db _ _ _ _ _ Hstats) as (Hne & _ & Havg).
  assert (Hz : Qgtb tt 0 = false) by (apply Qgtb_false; rewrite Hzero; apply Qle_refl).
  rewrite Hz in Havg. split; [exact Havg |]. subst avg.
  destruct (RecipeDatabase.get_recipe db recipe_id) as [recipe |] eqn:Hrec.
  - pose proof (analyze_recipe_group_recorded
                  db recipe_id recipe assemblers planet include_downstream
                  tp tt 100 Hrec Hstats) as H.
    unfold classify_by_precedence in H.
    destruct (Qgtb (starved_fraction assemblers) (3 # 10)).
    + destruct H as (b & Hb & Hty & _). exists (Some b). split; [exact Hb |].
      intros b' [= <-]. rewrite Hty. discriminate.
    + destruct (Qgtb (blocked_fraction assemblers) (3 # 10)).
      * destruct H as (b & Hb & Hty & _). exists (Some b). split; [exact Hb |].
        intros b' [= <-]. rewrite Hty. discriminate.
      * change (Qltb 100 80) with false in H. exists None. split; [exact H |].
        discriminate.
  - exists None. split; [| discriminate].
    unfold BottleneckAnalyzer._analyze_recipe_group. rewrite Hrec. reflexivity.
Qed.

Lemma zero_theoretical_rate_is_fully_efficient_witness :
  exists avg,
    BottleneckAnalyzer.group_statistics Example.db 2 Example.idle_group
    = Ok (0, 0, avg)
    /\ avg = 100
    /\ exists outcome,
        BottleneckAnalyzer._analyze_recipe_group
          Example.db 2 Example.idle_group (Example.planet_of [] None) true
        = Ok outcome
        /\ forall b, outcome = Some b ->
                     Bottleneck.bottleneck_type b <> "low_efficiency"%string.
Proof.
  exists 100. split; [reflexivity |].
  apply (zero_theoretical_rate_is_fully_efficient
           Example.db 2 Example.idle_group (Example.planet_of [] None) true
           0 0 100).
  - reflexivity.
  - reflexivity.
Defined.

(* ================================================================== *)
(** * The bottleneck report                                            *)
(* ================================================================== *)

Section ReportFacts.

Variable db : RecipeDatabase.t.

(** Walking planets that hold no assembler in scope leaves the list of
    bottlenecks and the assembler counters as they were. *)
Lemma analyze_planets_without_assemblers
      (planet_id target_item_id : option Z) (include_downstream : bool)
      (planets : list (Z * PlanetState.t)) (st : BottleneckAnalyzer.tally) :
  (forall pid planet,
      In (pid, planet) planets -> in_scope planet_id pid ->
      PlanetState.assemblers planet = []) ->
  exists n,
    for_each (BottleneckAnalyzer.analyze_planet
                db planet_id target_item_id include_downstream)
             planets st
    = Ok (BottleneckAnalyzer.mk_tally
            (BottleneckAnalyzer.bottlenecks st) n
            (BottleneckAnalyzer.total_assemblers st)
            (BottleneckAnalyzer.inefficient_assemblers st)).
Proof.
  revert st. induction planets as [| [pid planet] rest IH]; intros st Hnone.
  - exists (BottleneckAnalyzer.planets_analyzed st). destruct st. reflexivity.
  - assert (Hrest : forall p pl, In (p, pl) rest -> in_scope planet_id p ->
                                 PlanetState.assemblers pl = []).
    { intros p pl Hin. apply Hnone. right. exact Hin. }
    cbn [for_each]. unfold BottleneckAnalyzer.analyze_planet at 1.
    destruct (match planet_id with
              | Some wanted => negb (pid =? wanted)%Z
              | None => false
              end) eqn:Hskip.
    + cbn [bind]. apply IH. exact Hrest.
    + assert (Hscope : in_scope planet_id pid).
      { unfold in_scope. destruct planet_id as [wanted |]; [| exact I].
        apply negb_false_iff in Hskip. apply Z.eqb_eq. exact Hskip. }
      rewrite (Hnone pid planet (or_introl eq_refl) Hscope).
      cbn [BottleneckAnalyzer.group_by_recipe fold_left for_each bind].
      match goal with
      | |- context [for_each _ rest ?s] => destruct (IH s Hrest) as [n Hn]
      end.
      exists n. rewrite Hn. cbn. f_equal. f_equal. unfold len. cbn. lia.
Qed.

End ReportFacts.

(** C7.  When no planet in scope holds an assembler, the bottleneck
    analysis returns a report whose summary has status "healthy" and
    efficiency 100.0 and whose list of bottlenecks is empty. *)
Theorem no_assemblers_reports_healthy
        (db : RecipeDatabase.t) (factory_state : FactoryState.t)
        (planet_id : option Z) (target_item : option string)
        (time_window : Z) (include_downstream : bool) :
  (forall pid planet,
      In (pid, planet) (FactoryState.planets factory_state) ->
      in_scope planet_id pid ->
      PlanetState.assemblers planet = []) ->
  exists report summary,
    BottleneckAnalyzer.analyze
      db factory_state planet_id target_item time_window include_downstream
    = Ok report
    /\ get "summary" report = Some summary
    /\ get "status" summary = Some (VStr "healthy")
    /\ get "efficiency" summary = Some (VFloat 100)
    /\ get "bottlenecks" report = Some (VList []).
Proof.
  intro Hnone. unfold BottleneckAnalyzer.analyze.
  destruct (analyze_planets_without_assemblers
              db planet_id (BottleneckAnalyzer.resolve_target db target_item)
              include_downstream (FactoryState.planets factory_state)
              (BottleneckAnalyzer.mk_tally [] 0 0 0) Hnone) as [n Hn].
  rewrite Hn. cbn [bind BottleneckAnalyzer.bottlenecks BottleneckAnalyzer.total_assemblers
                   BottleneckAnalyzer.inefficient_assemblers
                   BottleneckAnalyzer.planets_analyzed sort_desc fold_right
                   BottleneckAnalyzer._generate_summary Z.eqb].
  eexists. eexists. split; [reflexivity |].
  repeat split; reflexivity.
Qed.

Lemma no_assemblers_reports_healthy_witness :
  exists report summary,
    BottleneckAnalyzer.analyze
      Example.db
      (Example.snapshot [(1%Z, Example.planet_of [] None);
                         (2%Z, Example.planet_of Example.two_of_four_starved None)])
      (Some 1%Z) None 60 true
    = Ok report
    /\ get "summary" report = Some summary
    /\ get "status" summary = Some (VStr "healthy")
    /\ get "efficiency" summary = Some (VFloat 100)
    /\ get "bottlenecks" report = Some (VList []).
Proof.
  apply (no_assemblers_reports_healthy
           Example.db
           (Example.snapshot [(1%Z, Example.planet_of [] None);
                              (2%Z, Example.planet_of Example.two_of_four_starved None)])
           (Some 1%Z) None 60 true).
  intros pid planet Hin Hscope. simpl in Hscope. subst pid.
  destruct Hin as [H | [H | []]].
  - injection H as <-. reflexivity.
  - discriminate H.
Defined.

(** C10.  A [target_item] name that the catalogue does not resolve to an
    item id is dropped: the analysis is the one obtained with no
    [target_item] at all, so no recipe group is filtered out. *)
Theorem unresolved_target_is_ignored
        (db : RecipeDatabase.t) (factory_state : FactoryState.t)
        (planet_id : option Z) (name : string)
        (time_window : Z) (include_downstream : bool) :
  RecipeDatabase.get_item_id db name = None ->
  BottleneckAnalyzer.analyze
    db factory_state planet_id (Some name) time_window include_downstream
  = BottleneckAnalyzer.analyze
      db factory_state planet_id None time_window include_downstream.
Proof.
  intro Hmiss. unfold BottleneckAnalyzer.analyze.
  assert (Hnone : BottleneckAnalyzer.resolve_target db (Some name) = None).
  { unfold BottleneckAnalyzer.resolve_target. rewrite Hmiss.
    destruct (String.eqb name ""); reflexivity. }
  rewrite Hnone. reflexivity.
Qed.

Lemma unresolved_target_is_ignored_witness :
  BottleneckAnalyzer.analyze
    Example.db
    (Example.snapshot [(1%Z, Example.planet_of Example.two_of_four_starved None)])
    None (Some "Unobtainium"%string) 60 true
  = BottleneckAnalyzer.analyze
      Example.db
      (Example.snapshot [(1%Z, Example.planet_of Example.two_of_four_starved None)])
      None None 60 true
  /\ exists report,
      BottleneckAnalyzer.analyze
        Example.db
        (Example.snapshot [(1%Z, Example.planet_of Example.two_of_four_starved None)])
        None (Some "Unobtainium"%string) 60 true
      = Ok report
      /\ get "bottlenecks_found" report = Some (VInt 1).
Proof.
  split.
  - apply (unresolved_target_is_ignored Example.db). reflexivity.
  - eexists. split; [vm_compute; reflexivity | reflexivity].
Defined.

(* ================================================================== *)
(** * Belt sizing                                                      *)
(* ================================================================== *)

Section BeltFacts.

Variable db : RecipeDatabase.t.

Lemma int_nonnegative (x : Q) : 0 <= x -> int x = Qfloor x /\ (0 <= Qfloor x)%Z.
Proof.
  intro H. unfold int. apply Qle_bool_iff in H. rewrite H. split; [reflexivity |].
  apply Qle_bool_iff in H. change 0%Z with (Qfloor 0). apply Qfloor_resp_le. exact H.
Qed.

(** The belt count the code computes for a positive flow on a belt of
    capacity [cap]. *)
Lemma belt_count_floor (flow cap : Q) :
  0 < cap -> 0 < flow ->
  Z.max 1 (int (flow / cap) + 1) = (Qfloor (flow / cap) + 1)%Z
  /\ (0 <= Qfloor (flow / cap))%Z.
Proof.
  intros Hcap Hflow.
  assert (Hq : 0 <= flow / cap).
  { apply Qle_shift_div_l; [exact Hcap |]. lra. }
  destruct (int_nonnegative _ Hq) as [-> Hfloor]. lia.
Qed.

Lemma requirement_sizing
      (production_by_item consumption_by_item : list (Z * Q)) (item_id : Z) :
  let r := LogisticsAnalyzer.requirement_for
             db production_by_item consumption_by_item item_id in
  let flow := Qmax (ThroughputRequirement.production_rate r)
                   (ThroughputRequirement.consumption_rate r) / 60 in
  let tier := ThroughputRequirement.required_belt_tier r in
  0 < LogisticsAnalyzer.BELT_TIERS tier
  /\ (flow <= 6 -> tier = "mk1"%string)
  /\ (6 < flow -> flow <= 12 -> tier = "mk2"%string)
  /\ (12 < flow -> tier = "mk3"%string)
  /\ (flow <= 0 -> ThroughputRequirement.belt_count_needed r = 0%Z)
  /\ (0 < flow ->
      ThroughputRequirement.belt_count_needed r
      = (Qfloor (flow / LogisticsAnalyzer.BELT_TIERS tier) + 1)%Z
      /\ (0 <= Qfloor (flow / LogisticsAnalyzer.BELT_TIERS tier))%Z).
Proof.
  unfold LogisticsAnalyzer.requirement_for.
  change (LogisticsAnalyzer.BELT_TIERS "mk1") with 6.
  change (LogisticsAnalyzer.BELT_TIERS "mk2") with 12.
  change (LogisticsAnalyzer.BELT_TIERS "mk3") with 30.
  set (production := LogisticsAnalyzer.rate_of production_by_item item_id).
  set (consumption := LogisticsAnalyzer.rate_of consumption_by_item item_id).
  set (f := Qmax production consumption / 60).
  destruct (Qleb f 6) eqn:E1; [| destruct (Qleb f 12) eqn:E2];
    cbn [ThroughputRequirement.production_rate ThroughputRequirement.consumption_rate
         ThroughputRequirement.required_belt_tier
         ThroughputRequirement.belt_count_needed];
    fold f;
    unfold Qleb in *;
    repeat match goal with
           | H : Qle_bool _ _ = true |- _ => apply Qle_bool_iff in H
           | H : Qle_bool ?a ?b = false |- _ =>
               assert (b < a) by (apply Qltb_true; unfold Qltb; rewrite H; reflexivity);
               clear H
           end.
  all: clearbody f; clear production consumption.
  all: repeat split; intros; try reflexivity; try (exfalso; lra).
  all: try (assert (Hz : Qgtb f 0 = false) by (apply Qgtb_false; assumption);
            rewrite Hz; reflexivity).
  all: try (assert (Hp : Qgtb f 0 = true) by (apply Qgtb_true; assumption);
            rewrite Hp).
  all: change (LogisticsAnalyzer.BELT_TIERS "mk1") with 6;
    change (LogisticsAnalyzer.BELT_TIERS "mk2") with 12;
    change (LogisticsAnalyzer.BELT_TIERS "mk3") with 30.
  all: apply belt_count_floor; [reflexivity | assumption].
Qed.

(** Off an exact multiple of the capacity, [floor + 1] is the ceiling. *)
Lemma floor_plus_one_is_ceiling (x : Q) :
  ~ x == inject_Z (Qfloor x) -> (Qfloor x + 1)%Z = Qceiling x.
Proof.
  intro Hfrac.
  pose proof (Qfloor_le x) as Hlo. pose proof (Qlt_floor x) as Hhi.
  pose proof (Qle_ceiling x) as Hc. pose proof (Qceiling_lt x) as Hc'.
  assert (Hlt : inject_Z (Qfloor x) < x).
  { destruct (Qle_lt_or_eq _ _ Hlo) as [H | H]; [exact H |].
    exfalso. apply Hfrac. symmetry. exact H. }
  assert (H1 : (Qfloor x < Qceiling x)%Z).
  { rewrite Zlt_Qlt. eapply Qlt_le_trans; eassumption. }
  assert (H2 : (Qceiling x - 1 < Qfloor x + 1)%Z).
  { rewrite Zlt_Qlt. eapply Qlt_trans; eassumption. }
  lia.
Qed.

(** On an exact multiple of the capacity, [floor + 1] is one more than
    the ceiling. *)
Lemma floor_plus_one_over_ceiling (x : Q) :
  x == inject_Z (Qfloor x) -> (Qfloor x + 1)%Z = (Qceiling x + 1)%Z.
Proof.
  intro Hint. f_equal. rewrite (Qceiling_comp _ _ Hint).
  rewrite Qceiling_Z. reflexivity.
Qed.
End BeltFacts.

(** Belt counts against the specified ceiling: the code's count is the
    ceiling off the exact multiples of the tier capacity, and one belt more
    on them. *)
Lemma belt_count_against_ceiling
      (db : RecipeDatabase.t)
      (production_by_item consumption_by_item : list (Z * Q)) (item_id : Z) :
  let r := LogisticsAnalyzer.requirement_for
             db production_by_item consumption_by_item item_id in
  let capacity := LogisticsAnalyzer.BELT_TIERS (ThroughputRequirement.required_belt_tier r) in
  let loads := flow_per_sec r / capacity in
  0 < flow_per_sec r ->
  (~ loads == inject_Z (Qfloor loads) ->
   ThroughputRequirement.belt_count_needed r = spec_belt_count (flow_per_sec r) capacity)
  /\ (loads == inject_Z (Qfloor loads) ->
      ThroughputRequirement.belt_count_needed r
      = (spec_belt_count (flow_per_sec r) capacity + 1)%Z).
Proof.
  intros r capacity loads Hflow.
  destruct (requirement_sizing db production_by_item consumption_by_item item_id)
    as (Hcap & _ & _ & _ & _ & Hcount).
  destruct (Hcount Hflow) as [Hcount' Hfloor]. clear Hcount.
  fold r in Hcap. fold capacity in Hcap.
  assert (Hloads : 0 < loads).
  { unfold loads. apply Qlt_shift_div_l; [exact Hcap |]. lra. }
  fold r in Hcount', Hfloor. fold (flow_per_sec r) in Hcount', Hfloor.
  fold capacity in Hcount', Hfloor. fold loads in Hcount', Hfloor.
  unfold spec_belt_count. apply Qgtb_true in Hflow. rewrite Hflow. fold loads.
  pose proof (Qle_ceiling loads) as Hc. pose proof (Qfloor_le loads) as Hf.
  assert (Hfc : (Qfloor loads <= Qceiling loads)%Z).
  { rewrite Zle_Qle. eapply Qle_trans; eassumption. }
  split; intro H.
  - rewrite Hcount'. pose proof (floor_plus_one_is_ceiling _ H) as E.
    clearbody loads. revert E Hfloor. generalize (Qfloor loads), (Qceiling loads). lia.
  - rewrite Hcount'. pose proof (floor_plus_one_over_ceiling _ H) as E.
    assert (Hone : (0 < Qfloor loads)%Z).
    { rewrite Zlt_Qlt. rewrite <- H. exact Hloads. }
    clearbody loads. revert E Hone. generalize (Qfloor loads), (Qceiling loads). lia.
Qed.

(** C2.  At a flow of exactly 6 items/sec (one smelter producing 360
    iron ingots per minute) the throughput analysis picks tier mk1 and asks
    for 2 belts, where the ceiling of flow over capacity is 1. *)
Theorem full_belt_counts_two :
  exists r rest,
    LogisticsAnalyzer._calculate_throughput_requirements
      Example.db [Example.smelter 360 360 false false] = Ok (r :: rest)
    /\ ThroughputRequirement.item_id r = Example.iron_ingot
    /\ flow_per_sec r == 6
    /\ ThroughputRequirement.required_belt_tier r = "mk1"%string
    /\ ThroughputRequirement.belt_count_needed r = 2%Z
    /\ spec_belt_count (flow_per_sec r) (LogisticsAnalyzer.BELT_TIERS "mk1") = 1%Z.
Proof.
  eexists. eexists. split; [vm_compute; reflexivity |].
  repeat split; reflexivity.
Qed.

(** Just above the mk1 capacity (6.01 items/sec, as the float nearest to
    360.6 items/min gives it) the tier is mk2, with one belt. *)
Example flow_just_over_mk1 :
  exists r rest,
    LogisticsAnalyzer._calculate_throughput_requirements
      Example.db [Example.smelter (3606 # 10) 360 false false] = Ok (r :: rest)
    /\ flow_per_sec r == fl (3606 # 10) / 60
    /\ Qabs (flow_per_sec r - (601 # 100)) <= 1 # 1000000000000
    /\ ThroughputRequirement.required_belt_tier r = "mk2"%string
    /\ ThroughputRequirement.belt_count_needed r = 1%Z.
Proof.
  eexists. eexists. split; [vm_compute; reflexivity |].
  repeat split; vm_compute; congruence.
Qed.

(* ================================================================== *)
(** * The power report                                                 *)
(* ================================================================== *)

Lemma power_per_building_positive (building_type : string) :
  0 < PowerAnalyzer.power_per_building building_type.
Proof.
  unfold PowerAnalyzer.power_per_building, PowerAnalyzer.BUILDING_POWER_CONSUMPTION.
  cbn [assoc_find].
  repeat (destruct (String.eqb building_type _); [reflexivity |]).
  reflexivity.
Qed.

Section PowerFacts.

Variable db : RecipeDatabase.t.

(** Every entry of [consumers_by_recipe] counts at least one building. *)
Lemma average_efficiency_ok (consumer : PowerConsumer.t) :
  exists c, PowerAnalyzer.average_efficiency consumer = Ok c.
Proof.
  unfold PowerAnalyzer.average_efficiency.
  destruct (0 <? PowerConsumer.building_count consumer)%Z eqn:E.
  - apply Z.ltb_lt in E. rewrite div_no_fault.
    + eexists. reflexivity.
    + apply Qmult_lt_0_compat.
      * change 0 with (inject_Z 0). rewrite <- Zlt_Qlt. exact E.
      * apply power_per_building_positive.
  - eexists. reflexivity.
Qed.

Lemma average_all_ok (consumers done : list PowerConsumer.t) :
  exists cs,
    for_each (fun done consumer =>
                c <- PowerAnalyzer.average_efficiency consumer ;; Ok (done ++ [c]))
             consumers done = Ok cs.
Proof.
  revert done. induction consumers as [| x rest IH]; intro done.
  - eexists. reflexivity.
  - cbn [for_each]. destruct (average_efficiency_ok x) as [c Hc]. rewrite Hc.
    cbn [bind]. apply IH.
Qed.

Lemma analyze_power_consumers_ok
      (assemblers : list AssemblerMetrics.t) (planet_id : Z) :
  exists cs, PowerAnalyzer._analyze_power_consumers db assemblers planet_id = Ok cs.
Proof.
  unfold PowerAnalyzer._analyze_power_consumers. apply average_all_ok.
Qed.

(** The global recommendations never raise. *)
Lemma global_recommendations_ok (generation consumption : Q) :
  exists recs, PowerAnalyzer._global_recommendations generation consumption = Ok recs.
Proof.
  unfold PowerAnalyzer._global_recommendations.
  destruct (Qgtb consumption 0) eqn:E.
  - apply Qgtb_true in E. rewrite (fdiv_no_fault _ _ E). cbn [bind].
    repeat match goal with |- context [if ?c then _ else _] => destruct c end;
      eexists; reflexivity.
  - cbn [bind].
    repeat match goal with |- context [if ?c then _ else _] => destruct c end;
      eexists; reflexivity.
Qed.

(** The planet loop returns, keeps the entries it had, and adds the
    [planet_report] of every planet in scope that has a power state. *)
Lemma analyze_planets_reports
      (planet_id : option Z) (include_accumulator_cycles include_consumers : bool)
      (planets : list (Z * PlanetState.t)) (st : PowerAnalyzer.tally) :
  exists st',
    for_each (PowerAnalyzer.analyze_planet
                db planet_id include_accumulator_cycles include_consumers)
             planets st = Ok st'
    /\ (forall e, In e (PowerAnalyzer.planets_data st) ->
                  In e (PowerAnalyzer.planets_data st'))
    /\ (forall pid planet power,
           In (pid, planet) planets -> in_scope planet_id pid ->
           PlanetState.power planet = Some power ->
           exists consumers,
             In (PowerAnalyzer.planet_report
                   pid planet power include_accumulator_cycles include_consumers
                   consumers)
                (PowerAnalyzer.planets_data st')).
Proof.
  revert st. induction planets as [| [pid planet] rest IH]; intro st.
  - exists st. split; [reflexivity |]. split; [auto |]. intros ? ? ? [].
  - cbn [for_each]. unfold PowerAnalyzer.analyze_planet at 1.
    destruct (match planet_id with
              | Some wanted => negb (pid =? wanted)%Z
              | None => false
              end) eqn:Hskip.
    + cbn [bind]. destruct (IH st) as (st' & Hrun & Hkeep & Hadd).
      exists st'. split; [exact Hrun |]. split; [exact Hkeep |].
      intros p pl pw [Heq | Hin] Hscope Hpw.
      * injection Heq as <- <-. exfalso.
        unfold in_scope in Hscope. destruct planet_id as [wanted |]; [| discriminate].
        subst wanted. rewrite Z.eqb_refl in Hskip. discriminate.
      * eapply Hadd; eassumption.
    + destruct (PlanetState.power planet) as [power |] eqn:Hpower.
      * assert (Hcons : exists consumers,
                   (if include_consumers
                    then PowerAnalyzer._analyze_power_consumers
                           db (PlanetState.assemblers planet) pid
                    else Ok []) = Ok consumers).
        { destruct include_consumers; [apply analyze_power_consumers_ok |].
          eexists. reflexivity. }
        destruct Hcons as [consumers Hcons]. rewrite Hcons. cbn [bind].
        match goal with
        | |- context [for_each _ rest ?s] =>
            destruct (IH s) as (st' & Hrun & Hkeep & Hadd)
        end.
        cbn [PowerAnalyzer.planets_data] in Hkeep.
        exists st'. split; [exact Hrun |]. split.
        -- intros e He. apply Hkeep. apply in_or_app. left. exact He.
        -- intros p pl pw [Heq | Hin] Hscope Hpw.
           ++ injection Heq as <- <-. rewrite Hpower in Hpw. injection Hpw as <-.
              exists consumers. apply Hkeep. apply in_or_app. right. left. reflexivity.
           ++ eapply Hadd; eassumption.
      * cbn [bind]. destruct (IH st) as (st' & Hrun & Hkeep & Hadd).
        exists st'. split; [exact Hrun |]. split; [exact Hkeep |].
        intros p pl pw [Heq | Hin] Hscope Hpw.
        -- injection Heq as <- <-. rewrite Hpower in Hpw. discriminate.
        -- eapply Hadd; eassumption.
Qed.

End PowerFacts.

Lemma Qabs_of_negative (x : Q) : x < 0 -> Qabs x = - x.
Proof.
  destruct x as [n d]. unfold Qlt, Qabs, Qopp. simpl. intro H.
  f_equal. lia.
Qed.

Lemma computed_percent_scaled (surplus consumption : Q) :
  0 <= surplus -> 0 < consumption ->
  let computed := fl (fl (fl surplus / consumption) * 100) in
  100 * surplus * (1 - percent_margin) <= computed * consumption
  /\ computed * consumption <= 100 * surplus * (1 + percent_margin).
Proof.
  intros Hs Hc computed.
  pose proof (computed_percent_bounds surplus consumption Hs Hc) as H.
  cbv zeta in H. fold computed in H.
  assert (He : surplus / consumption * 100 * consumption == 100 * surplus).
  { field. intro E. rewrite E in Hc. apply (Qlt_irrefl 0 Hc). }
  set (exact := surplus / consumption * 100) in *.
  set (m := percent_margin) in *. clearbody exact computed m.
  destruct H as [Hlo Hhi].
  split.
  - setoid_replace (100 * surplus * (1 - m)) with (exact * (1 - m) * consumption)
      by (rewrite <- He; ring).
    apply Qmult_le_compat_r; [exact Hlo | apply Qlt_le_weak; exact Hc].
  - setoid_replace (100 * surplus * (1 + m)) with (exact * (1 + m) * consumption)
      by (rewrite <- He; ring).
    apply Qmult_le_compat_r; [exact Hhi | apply Qlt_le_weak; exact Hc].
Qed.

(** The four outcomes of the global recommendations, with the computed
    percentage located around the exact one. *)
Lemma global_recommendations_cases (generation consumption : Q) :
  let surplus := generation - consumption in
  (surplus < 0
   /\ PowerAnalyzer._global_recommendations generation consumption
      = Ok [("CRITICAL: Global power deficit of "
               ++ fmt_1f (Qabs (fsub generation consumption)) ++ "MW")%string])
  \/ (0 <= surplus /\ consumption <= 0
      /\ PowerAnalyzer._global_recommendations generation consumption
         = Ok ["Healthy power surplus of 100.0%"%string])
  \/ (0 <= surplus /\ 0 < consumption
      /\ exists percent,
          percent = fl (fl (fl surplus / consumption) * 100)
          /\ 100 * surplus * (1 - percent_margin) <= percent * consumption
          /\ percent * consumption <= 100 * surplus * (1 + percent_margin)
          /\ ((percent < 10
               /\ PowerAnalyzer._global_recommendations generation consumption
                  = Ok [("WARNING: Power surplus below 10% (" ++ fmt_1f percent
                           ++ "%)")%string;
                        "Consider adding generation capacity before expanding"%string])
              \/ (50 < percent
                  /\ PowerAnalyzer._global_recommendations generation consumption
                     = Ok [("Healthy power surplus of " ++ fmt_1f percent
                              ++ "%")%string])
              \/ (10 <= percent /\ percent <= 50
                  /\ PowerAnalyzer._global_recommendations generation consumption
                     = Ok []))).
Proof.
  intro surplus. unfold PowerAnalyzer._global_recommendations, fsub, fmul.
  fold surplus.
  destruct (Qltb (fl surplus) 0) eqn:Es;
    [apply Qltb_true in Es | apply Qltb_false in Es].
  - left.
    assert (Hneg : surplus < 0).
    { apply Qnot_le_lt. intro C. apply fl_nonneg in C. lra. }
    split; [exact Hneg |].
    destruct (Qgtb consumption 0) eqn:Ec.
    + apply Qgtb_true in Ec. rewrite (fdiv_no_fault _ _ Ec). reflexivity.
    + reflexivity.
  - right.
    assert (Hpos : 0 <= surplus).
    { apply Qnot_lt_le. intro C. apply fl_neg in C. lra. }
    destruct (Qgtb consumption 0) eqn:Ec;
      [apply Qgtb_true in Ec | apply Qgtb_false in Ec].
    + right. split; [exact Hpos |]. split; [exact Ec |].
      rewrite (fdiv_no_fault _ _ Ec). cbn [bind].
      destruct (computed_percent_scaled surplus consumption Hpos Ec) as [Hlo Hhi].
      exists (fl (fl (fl surplus / consumption) * 100)).
      split; [reflexivity |]. split; [exact Hlo |]. split; [exact Hhi |].
      set (percent := fl (fl (fl surplus / consumption) * 100)).
      destruct (Qltb percent 10) eqn:Ew;
        [apply Qltb_true in Ew | apply Qltb_false in Ew].
      * left. split; [exact Ew | reflexivity].
      * right. unfold Qgtb.
        destruct (Qltb 50 percent) eqn:Eh;
          [apply Qltb_true in Eh | apply Qltb_false in Eh].
        -- left. split; [exact Eh | reflexivity].
        -- right. split; [exact Ew |]. split; [exact Eh | reflexivity].
    + left. split; [exact Hpos |]. split; [exact Ec |]. reflexivity.
Qed.

Lemma percent_margin_small : 0 < percent_margin /\ percent_margin < 1 # 1000.
Proof. split; reflexivity. Qed.

(** C9, as amended.  For generation and consumption totals, the global
    power recommendations hold a CRITICAL entry exactly when the aggregate
    surplus is negative; a WARNING entry when the surplus is not negative and
    under 10% of consumption by more than the rounding margin of the double
    computation of [surplus / consumption * 100] (a relative [2 ** -51]),
    and only when it is under 10% up to that margin; and, the totals being
    floats, a healthy-surplus note when the surplus (not negative, which the
    first tier takes) exceeds 50% of consumption, and only then or when the
    consumption is not positive. *)
Theorem global_recommendations_tiers (generation consumption : Q) :
  let surplus := generation - consumption in
  exists recs,
    PowerAnalyzer._global_recommendations generation consumption = Ok recs
    /\ (mentions "CRITICAL" recs = true <-> surplus < 0)
    /\ (0 <= surplus ->
        surplus * (1 + percent_margin) < (10 # 100) * consumption ->
        mentions "WARNING" recs = true)
    /\ (mentions "WARNING" recs = true ->
        0 <= surplus /\ surplus * (1 - percent_margin) < (10 # 100) * consumption)
    /\ (is_float generation -> is_float consumption ->
        0 <= surplus ->
        (50 # 100) * consumption < surplus ->
        mentions "Healthy power surplus" recs = true)
    /\ (is_float consumption ->
        mentions "Healthy power surplus" recs = true ->
        0 <= surplus
        /\ (consumption <= 0 \/ (50 # 100) * consumption < surplus)).
Proof.
  intro surplus.
  destruct percent_margin_small as [Hm0 Hm1].
  destruct (global_recommendations_cases generation consumption)
    as [(Hneg & Hrun)
       | [(Hpos & Hc & Hrun) | (Hpos & Hc & percent & Hp & Hlo & Hhi & Hcase)]];
    fold surplus in Hneg || fold surplus in Hpos.
  - eexists. split; [exact Hrun |].
    split; [split; [intros _; exact Hneg | intros _; reflexivity] |].
    split; [intros H; exfalso; lra |].
    split; [intro H; discriminate H |].
    split; [intros _ _ H; exfalso; lra |].
    intros _ H; discriminate H.
  - eexists. split; [exact Hrun |].
    split; [split; [intro H; discriminate H | intro H; exfalso; lra] |].
    split.
    { set (m := percent_margin) in *. clearbody m. intros _ H. exfalso. nra. }
    split; [intro H; discriminate H |].
    split; [intros _ _ _ _; reflexivity |].
    intros _ _. split; [exact Hpos | left; exact Hc].
  - fold surplus in Hlo, Hhi, Hp.
    assert (Hover : is_float generation -> is_float consumption ->
                    (50 # 100) * consumption < surplus -> 50 < percent).
    { intros Hg Hcf Hhalf. rewrite Hp.
      apply computed_percent_over_half; assumption. }
    assert (Hunder : is_float consumption ->
                     surplus <= (50 # 100) * consumption -> percent <= 50).
    { intros Hcf Hhalf. rewrite Hp.
      apply computed_percent_at_most_half; assumption. }
    clear Hp.
    set (m := percent_margin) in *. clearbody m.
    destruct Hcase as [(Hw & Hrun) | [(Hh & Hrun) | (H10 & H50 & Hrun)]].
    + eexists. split; [exact Hrun |].
      split; [split; [intro H; discriminate H | intro H; exfalso; lra] |].
      split; [intros _ _; reflexivity |].
      split; [intros _; split; [exact Hpos | nra] |].
      split; [| intros _ H; discriminate H].
      intros Hg Hcf _ Hhalf. exfalso.
      pose proof (Hover Hg Hcf Hhalf). lra.
    + eexists. split; [exact Hrun |].
      split; [split; [intro H; discriminate H | intro H; exfalso; lra] |].
      split; [intros _ H; exfalso; nra |].
      split; [intro H; discriminate H |].
      split; [intros _ _ _ _; reflexivity |].
      intros Hcf _. split; [exact Hpos |]. right.
      apply Qnot_le_lt. intro C. pose proof (Hunder Hcf C). lra.
    + eexists. split; [exact Hrun |].
      split; [split; [intro H; discriminate H | intro H; exfalso; lra] |].
      split; [intros _ H; exfalso; nra |].
      split; [intro H; discriminate H |].
      split; [| intros _ H; discriminate H].
      intros Hg Hcf _ Hhalf. exfalso.
      pose proof (Hover Hg Hcf Hhalf). lra.
Qed.

(** C9, as first stated, fails on floats: with 8003.553375601769 MW
    generated and 7275.957614183427 MW consumed the surplus is positive and
    under 10% of the consumption, but [surplus / consumption * 100] is
    computed as exactly 10.0 and no recommendation is given. *)
Lemma warning_missed_just_under_ten_percent :
  0 < Example.generation_8003 - Example.consumption_7275
  /\ Example.generation_8003 - Example.consumption_7275
     < (10 # 100) * Example.consumption_7275
  /\ fl (fl (fsub Example.generation_8003 Example.consumption_7275
             / Example.consumption_7275) * 100) == 10
  /\ PowerAnalyzer._global_recommendations
       Example.generation_8003 Example.consumption_7275 = Ok []
  /\ ~ (forall generation consumption recs,
          PowerAnalyzer._global_recommendations generation consumption = Ok recs ->
          0 < generation - consumption ->
          generation - consumption < (10 # 100) * consumption ->
          mentions "WARNING" recs = true).
Proof.
  split; [reflexivity |]. split; [reflexivity |]. split; [vm_compute; reflexivity |].
  assert (Hrun : PowerAnalyzer._global_recommendations
                   Example.generation_8003 Example.consumption_7275 = Ok [])
    by (vm_compute; reflexivity).
  split; [exact Hrun |].
  intro H.
  specialize (H _ _ _ Hrun eq_refl eq_refl). discriminate H.
Qed.

(** The recommendation of a planet in deficit, by tier. *)
Lemma generate_recommendation_tiers (power : PowerState.t) :
  let deficit := Qabs (PowerState.surplus_mw power) in
  let text := PowerAnalyzer._generate_recommendation power in
  (deficit < 10 ->
   text = ("Minor deficit of " ++ fmt_1f deficit ++ "MW - add 1 thermal plant")%string)
  /\ (10 <= deficit -> deficit < 50 ->
      text = ("Deficit of " ++ fmt_1f deficit ++ "MW - add "
                ++ str_of_Z (Qfloor (deficit / 15) + 1) ++ " fusion plants")%string)
  /\ (50 <= deficit ->
      text = ("Major deficit of " ++ fmt_1f deficit
                ++ "MW - consider artificial sun or ray receivers")%string).
Proof.
  intros deficit text. unfold text, PowerAnalyzer._generate_recommendation.
  fold deficit.
  assert (Hpos : 0 <= deficit) by apply Qabs_nonneg.
  destruct (Qltb deficit 10) eqn:E1; [apply Qltb_true in E1 | apply Qltb_false in E1].
  - repeat split; intros; try reflexivity; exfalso; lra.
  - destruct (Qltb deficit 50) eqn:E2; [apply Qltb_true in E2 | apply Qltb_false in E2].
    + repeat split; intros; try (exfalso; lra).
      assert (Hq : 0 <= deficit / 15).
      { apply Qle_shift_div_l; [reflexivity | lra]. }
      destruct (int_nonnegative _ Hq) as [-> _]. reflexivity.
    + repeat split; intros; try reflexivity; exfalso; lra.
Qed.

(** C8.  Every planet in scope whose power state has [surplus_mw < 0]
    appears in the power report with status "deficit" and a recommendation
    tiered by the size of the deficit: one thermal plant below 10 MW,
    [int(deficit/15) + 1] fusion plants below 50 MW, major infrastructure
    otherwise.  With generation 80 and consumption 100 (surplus -20) the
    status is "deficit" and the recommendation names 20.0MW and 2 fusion
    plants. *)
Theorem deficit_planet_gets_tiered_recommendation
        (db : RecipeDatabase.t) (factory_state : FactoryState.t)
        (planet_id : option Z) (include_accumulator_cycles include_consumers : bool)
        (pid : Z) (planet : PlanetState.t) (power : PowerState.t) :
  In (pid, planet) (FactoryState.planets factory_state) ->
  in_scope planet_id pid ->
  PlanetState.power planet = Some power ->
  PowerState.surplus_mw power < 0 ->
  let deficit := Qabs (PowerState.surplus_mw power) in
  (exists report entries entry text,
      PowerAnalyzer.analyze
        db factory_state planet_id include_accumulator_cycles include_consumers
      = Ok report
      /\ get "planets" report = Some (VList entries)
      /\ In entry entries
      /\ get "planet_id" entry = Some (VInt pid)
      /\ get "status" entry = Some (VStr "deficit")
      /\ get "recommendation" entry = Some (VStr text)
      /\ (deficit < 10 ->
          text = ("Minor deficit of " ++ fmt_1f deficit
                    ++ "MW - add 1 thermal plant")%string)
      /\ (10 <= deficit -> deficit < 50 ->
          text = ("Deficit of " ++ fmt_1f deficit ++ "MW - add "
                    ++ str_of_Z (Qfloor (deficit / 15) + 1) ++ " fusion plants")%string)
      /\ (50 <= deficit ->
          text = ("Major deficit of " ++ fmt_1f deficit
                    ++ "MW - consider artificial sun or ray receivers")%string))
  /\ (exists report entry,
         PowerAnalyzer.analyze
           Example.db
           (Example.snapshot [(1%Z, Example.planet_of [] (Some Example.power_80_100))])
           None true true
         = Ok report
         /\ get "planets" report = Some (VList [entry])
         /\ get "surplus_mw" entry = Some (VFloat (- (20)))
         /\ get "status" entry = Some (VStr "deficit")
         /\ get "recommendation" entry
            = Some (VStr "Deficit of 20.0MW - add 2 fusion plants")).
Proof.
  intros Hin Hscope Hpower Hdeficit deficit. split.
  - destruct (analyze_planets_reports
                db planet_id include_accumulator_cycles include_consumers
                (FactoryState.planets factory_state)
                (PowerAnalyzer.mk_tally [] 0 0 0 []))
      as (st' & Hrun & _ & Hadd).
    destruct (Hadd pid planet power Hin Hscope Hpower) as [consumers Hentry].
    destruct (global_recommendations_ok (PowerAnalyzer.total_generation st')
                                        (PowerAnalyzer.total_consumption st'))
      as [recs Hrecs].
    unfold PowerAnalyzer.analyze. rewrite Hrun. cbn [bind]. rewrite Hrecs. cbn [bind].
    eexists. exists (PowerAnalyzer.planets_data st').
    eexists. exists (PowerAnalyzer._generate_recommendation power).
    split; [reflexivity |]. split; [reflexivity |]. split; [exact Hentry |].
    assert (Hlt : Qltb (PowerState.surplus_mw power) 0 = true)
      by (apply Qltb_true; exact Hdeficit).
    assert (Hge : Qgeb (PowerState.surplus_mw power) 0 = false).
    { unfold Qgeb. unfold Qltb in Hlt. apply negb_true_iff in Hlt. exact Hlt. }
    split; [reflexivity |].
    split; [unfold PowerAnalyzer.planet_report; rewrite Hge; reflexivity |].
    split; [unfold PowerAnalyzer.planet_report; rewrite Hlt; reflexivity |].
    apply generate_recommendation_tiers.
  - eexists. eexists. split; [vm_compute; reflexivity |].
    repeat split; reflexivity.
Qed.

Lemma deficit_planet_gets_tiered_recommendation_witness :
  exists report entries entry,
    PowerAnalyzer.analyze
      Example.db
      (Example.snapshot
         [(1%Z, Example.planet_of Example.two_of_four_starved
                                  (Some Example.power_80_100))])
      None true true
    = Ok report
    /\ get "planets" report = Some (VList entries)
    /\ In entry entries
    /\ get "planet_id" entry = Some (VInt 1)
    /\ get "status" entry = Some (VStr "deficit")
    /\ get "recommendation" entry
       = Some (VStr "Deficit of 20.0MW - add 2 fusion plants").
Proof.
  destruct (deficit_planet_gets_tiered_recommendation
              Example.db
              (Example.snapshot
                 [(1%Z, Example.planet_of Example.two_of_four_starved
                                          (Some Example.power_80_100))])
              None true true 1
              (Example.planet_of Example.two_of_four_starved (Some Example.power_80_100))
              Example.power_80_100)
    as ((report & entries & entry & text & Hrun & Hplanets & Hin & Hid & Hst & Hrec
         & _ & Hmid & _) & _).
  - left. reflexivity.
  - exact I.
  - reflexivity.
  - reflexivity.
  - exists report, entries, entry.
    repeat (split; [assumption |]).
    rewrite Hrec, Hmid; [reflexivity | discriminate | reflexivity].
Defined.

Lemma global_recommendations_tiers_witness :
  exists recs,
    PowerAnalyzer._global_recommendations 200 100 = Ok recs
    /\ mentions "CRITICAL" recs = false
    /\ mentions "Healthy power surplus" recs = true.
Proof.
  destruct (global_recommendations_tiers 200 100)
    as (recs & Hrun & Hcrit & _ & _ & Hhealthy & _).
  exists recs. split; [exact Hrun |]. split.
  - destruct (mentions "CRITICAL" recs) eqn:E; [| reflexivity].
    exfalso. apply (Qle_not_lt 0 (200 - 100)); [discriminate |].
    apply Hcrit. reflexivity.
  - apply Hhealthy; [reflexivity | reflexivity | discriminate | reflexivity].
Defined.

(* ================================================================== *)
(** * Further facts: sorting and dictionaries                          *)
(* ================================================================== *)

Section SortFacts.

Context {A : Type} (key : A -> Q).

Lemma in_firstn (n : nat) (l : list A) (y : A) : In y (firstn n l) -> In y l.
Proof.
  revert n. induction l as [| x rest IH]; intros n H.
  - rewrite firstn_nil in H. exact H.
  - destruct n as [| n]; [destruct H |]. simpl in H.
    destruct H as [H | H]; [left; exact H | right; eapply IH; exact H].
Qed.

Lemma insert_desc_perm (x : A) (l : list A) : Permutation (insert_desc key x l) (x :: l).
Proof.
  induction l as [| y rest IH]; simpl.
  - apply Permutation_refl.
  - destruct (Qltb (key x) (key y)).
    + eapply Permutation_trans; [apply perm_skip; exact IH | apply perm_swap].
    + apply Permutation_refl.
Qed.

Lemma sort_desc_perm (l : list A) : Permutation (sort_desc key l) l.
Proof.
  induction l as [| x rest IH]; simpl.
  - apply Permutation_refl.
  - eapply Permutation_trans; [apply insert_desc_perm |]. apply perm_skip. exact IH.
Qed.

Lemma insert_desc_sorted (x : A) (l : list A) :
  descending key l -> descending key (insert_desc key x l).
Proof.
  unfold descending. induction 1 as [| y rest Hsorted IH Hall]; simpl.
  - constructor; constructor.
  - destruct (Qltb (key x) (key y)) eqn:E.
    + apply Qltb_true in E. constructor; [exact IH |].
      eapply Permutation_Forall; [apply Permutation_sym; apply insert_desc_perm |].
      constructor; [apply Qlt_le_weak; exact E | exact Hall].
    + apply Qltb_false in E. constructor.
      * constructor; assumption.
      * constructor; [exact E |].
        eapply Forall_impl; [| exact Hall]. intros z Hz. cbv beta in *.
        eapply Qle_trans; eassumption.
Qed.

Lemma sort_desc_sorted (l : list A) : descending key (sort_desc key l).
Proof.
  induction l as [| x rest IH]; simpl.
  - constructor.
  - apply insert_desc_sorted. exact IH.
Qed.

Lemma sort_desc_length (l : list A) : List.length (sort_desc key l) = List.length l.
Proof. apply Permutation_length. apply sort_desc_perm. Qed.

Lemma descending_head_max (x : A) (l : list A) :
  descending key (x :: l) -> forall y, In y (x :: l) -> key y <= key x.
Proof.
  intros H y [<- | Hin].
  - apply Qle_refl.
  - apply StronglySorted_inv in H. destruct H as [_ Hall].
    rewrite Forall_forall in Hall. apply Hall. exact Hin.
Qed.

Lemma descending_firstn (n : nat) (l : list A) : descending key l -> descending key (firstn n l).
Proof.
  unfold descending. revert n. induction l as [| x rest IH]; intros n H.
  - rewrite firstn_nil. constructor.
  - destruct n as [| n]; [constructor |]. simpl.
    apply StronglySorted_inv in H. destruct H as [Hrest Hall].
    constructor; [apply IH; exact Hrest |].
    rewrite Forall_forall in *. intros y Hy. apply Hall.
    eapply in_firstn. exact Hy.
Qed.

End SortFacts.

Section DictFacts.

Context {K V : Type} (eqb : K -> K -> bool).
Hypothesis eqb_spec : forall a b, eqb a b = true <-> a = b.

Lemma eqb_refl_true (k : K) : eqb k k = true.
Proof. apply eqb_spec. reflexivity. Qed.

Lemma eqb_neq_false (a b : K) : a <> b -> eqb a b = false.
Proof.
  intro H. destruct (eqb a b) eqn:E; [| reflexivity].
  apply eqb_spec in E. contradiction.
Qed.

(** A key that is set is found with the value it was given. *)
Lemma assoc_find_set_same (k : K) (v : V) (d : list (K * V)) :
  assoc_find eqb k (assoc_set eqb k v d) = Some v.
Proof.
  induction d as [| [k' v'] rest IH]; simpl.
  - rewrite eqb_refl_true. reflexivity.
  - destruct (eqb k k') eqn:E; simpl.
    + rewrite eqb_refl_true. reflexivity.
    + rewrite E. exact IH.
Qed.

(** Setting a key leaves the other keys alone. *)
Lemma assoc_find_set_other (k k' : K) (v : V) (d : list (K * V)) :
  k' <> k -> assoc_find eqb k' (assoc_set eqb k v d) = assoc_find eqb k' d.
Proof.
  intro Hne. induction d as [| [k0 v0] rest IH]; simpl.
  - rewrite (eqb_neq_false _ _ Hne). reflexivity.
  - destruct (eqb k k0) eqn:E; simpl.
    + apply eqb_spec in E. subst k0. rewrite (eqb_neq_false _ _ Hne). reflexivity.
    + destruct (eqb k' k0); [reflexivity | exact IH].
Qed.

Lemma assoc_find_app_none (k : K) (d d' : list (K * V)) :
  assoc_find eqb k d = None -> assoc_find eqb k (d ++ d') = assoc_find eqb k d'.
Proof.
  induction d as [| [k0 v0] rest IH]; simpl; [reflexivity |].
  destruct (eqb k k0); [discriminate | exact IH].
Qed.

Lemma assoc_find_app_some (k : K) (v : V) (d d' : list (K * V)) :
  assoc_find eqb k d = Some v -> assoc_find eqb k (d ++ d') = Some v.
Proof.
  induction d as [| [k0 v0] rest IH]; simpl; [discriminate |].
  destruct (eqb k k0); [auto | exact IH].
Qed.

Lemma assoc_find_in (k : K) (v : V) (d : list (K * V)) :
  assoc_find eqb k d = Some v -> In (k, v) d.
Proof.
  induction d as [| [k0 v0] rest IH]; simpl; [discriminate |].
  destruct (eqb k k0) eqn:E.
  - apply eqb_spec in E. subst k0. intros [= ->]. left. reflexivity.
  - intro H. right. apply IH. exact H.
Qed.

Lemma assoc_find_none_not_in (k : K) (d : list (K * V)) :
  assoc_find eqb k d = None <-> ~ In k (map fst d).
Proof.
  induction d as [| [k0 v0] rest IH]; simpl.
  - split; [intros _ [] | reflexivity].
  - destruct (eqb k k0) eqn:E.
    + apply eqb_spec in E. subst k0. split; [discriminate | intro H; exfalso; apply H; left; reflexivity].
    + rewrite IH. split.
      * intros H [Heq | Hin]; [| contradiction]. subst k0.
        rewrite eqb_refl_true in E. discriminate.
      * intros H Hin. apply H. right. exact Hin.
Qed.

Lemma in_assoc_find (k : K) (v : V) (d : list (K * V)) :
  NoDup (map fst d) -> In (k, v) d -> assoc_find eqb k d = Some v.
Proof.
  induction d as [| [k0 v0] rest IH]; simpl; [intros _ [] |].
  intros Hnd [Heq | Hin].
  - injection Heq as -> ->. rewrite eqb_refl_true. reflexivity.
  - inversion Hnd as [| ? ? Hnotin Hnd']; subst.
    destruct (eqb k k0) eqn:E.
    + apply eqb_spec in E. subst k0. exfalso. apply Hnotin.
      apply (in_map fst) in Hin. exact Hin.
    + apply IH; assumption.
Qed.

(** Setting a key keeps the keys in place, or appends the new one. *)
Lemma assoc_set_keys (k : K) (v : V) (d : list (K * V)) :
  map fst (assoc_set eqb k v d)
  = match assoc_find eqb k d with
    | Some _ => map fst d
    | None => map fst d ++ [k]
    end.
Proof.
  induction d as [| [k0 v0] rest IH]; simpl; [reflexivity |].
  destruct (eqb k k0) eqn:E; simpl.
  - apply eqb_spec in E. subst k0. reflexivity.
  - rewrite IH. destruct (assoc_find eqb k rest); reflexivity.
Qed.

Lemma assoc_set_nodup (k : K) (v : V) (d : list (K * V)) :
  NoDup (map fst d) -> NoDup (map fst (assoc_set eqb k v d)).
Proof.
  intro Hnd. rewrite assoc_set_keys.
  destruct (assoc_find eqb k d) eqn:E; [exact Hnd |].
  apply assoc_find_none_not_in in E.
  apply NoDup_rev in Hnd. rewrite <- (rev_involutive (map fst d ++ [k])).
  apply NoDup_rev. rewrite rev_app_distr. simpl. constructor; [| exact Hnd].
  rewrite <- in_rev. exact E.
Qed.

End DictFacts.

Lemma Zeqb_spec (a b : Z) : (a =? b)%Z = true <-> a = b.
Proof. apply Z.eqb_eq. Qed.

Lemma Seqb_spec (a b : string) : String.eqb a b = true <-> a = b.
Proof. apply String.eqb_eq. Qed.

Lemma for_each_ok {A S : Type} (step : S -> A -> result S) (P : S -> Prop)
      (l : list A) (st : S) :
  P st ->
  (forall s x, In x l -> P s -> exists s', step s x = Ok s' /\ P s') ->
  exists st', for_each step l st = Ok st' /\ P st'.
Proof.
  revert st. induction l as [| x rest IH]; intros st Hst Hstep.
  - exists st. split; [reflexivity | exact Hst].
  - destruct (Hstep st x (or_introl eq_refl) Hst) as (s' & Hs' & HP).
    cbn [for_each]. rewrite Hs'. cbn [bind]. apply IH; [exact HP |].
    intros s y Hy. apply Hstep. right. exact Hy.
Qed.

(* ================================================================== *)
(** * Grouping assemblers by recipe                                    *)
(* ================================================================== *)

Lemma group_by_recipe_snoc (l : list AssemblerMetrics.t) (a : AssemblerMetrics.t) :
  BottleneckAnalyzer.group_by_recipe (l ++ [a])
  = let by_recipe := BottleneckAnalyzer.group_by_recipe l in
    let r := AssemblerMetrics.recipe_id a in
    match assoc_find Z.eqb r by_recipe with
    | None => by_recipe ++ [(r, [a])]
    | Some members => assoc_set Z.eqb r (members ++ [a]) by_recipe
    end.
Proof.
  unfold BottleneckAnalyzer.group_by_recipe. rewrite fold_left_app. reflexivity.
Qed.

Lemma group_by_recipe_find (l : list AssemblerMetrics.t) (r : Z) :
  assoc_find Z.eqb r (BottleneckAnalyzer.group_by_recipe l)
  = match recipe_members r l with
    | [] => None
    | m :: ms => Some (m :: ms)
    end.
Proof.
  induction l as [| a l IH] using rev_ind; [reflexivity |].
  rewrite group_by_recipe_snoc. cbv zeta.
  unfold recipe_members in *. rewrite filter_app. simpl filter.
  set (g := BottleneckAnalyzer.group_by_recipe l) in *.
  destruct (Z.eq_dec r (AssemblerMetrics.recipe_id a)) as [-> | Hne].
  - rewrite Z.eqb_refl. rewrite IH.
    destruct (filter _ l) as [| m ms] eqn:Ef.
    + rewrite (assoc_find_app_none Z.eqb _ _ _ IH). simpl. rewrite Z.eqb_refl. reflexivity.
    + rewrite (assoc_find_set_same Z.eqb Zeqb_spec). reflexivity.
  - assert (E : (AssemblerMetrics.recipe_id a =? r)%Z = false)
      by (apply Z.eqb_neq; congruence).
    rewrite E, app_nil_r.
    destruct (assoc_find Z.eqb (AssemblerMetrics.recipe_id a) g) as [members |].
    + rewrite (assoc_find_set_other Z.eqb Zeqb_spec) by exact Hne. exact IH.
    + destruct (assoc_find Z.eqb r g) as [v |] eqn:Er.
      * rewrite (assoc_find_app_some Z.eqb _ _ _ _ Er). exact IH.
      * rewrite (assoc_find_app_none Z.eqb _ _ _ Er). simpl.
        assert (E' : (r =? AssemblerMetrics.recipe_id a)%Z = false)
          by (apply Z.eqb_neq; exact Hne).
        rewrite E'. exact IH.
Qed.

Lemma group_by_recipe_nodup (l : list AssemblerMetrics.t) :
  NoDup (map fst (BottleneckAnalyzer.group_by_recipe l)).
Proof.
  induction l as [| a l IH] using rev_ind; [constructor |].
  rewrite group_by_recipe_snoc. cbv zeta.
  destruct (assoc_find Z.eqb (AssemblerMetrics.recipe_id a)
                       (BottleneckAnalyzer.group_by_recipe l)) as [members |] eqn:E.
  - apply (assoc_set_nodup Z.eqb Zeqb_spec). exact IH.
  - apply (assoc_find_none_not_in Z.eqb Zeqb_spec) in E.
    rewrite map_app. simpl.
    apply NoDup_rev in IH. rewrite <- (rev_involutive (_ ++ _)).
    apply NoDup_rev. rewrite rev_app_distr. simpl. constructor; [| exact IH].
    rewrite <- in_rev. exact E.
Qed.

Lemma group_by_recipe_in (l : list AssemblerMetrics.t) (r : Z)
      (members : list AssemblerMetrics.t) :
  In (r, members) (BottleneckAnalyzer.group_by_recipe l)
  <-> members = recipe_members r l /\ members <> [].
Proof.
  split.
  - intro Hin.
    pose proof (in_assoc_find Z.eqb Zeqb_spec _ _ _ (group_by_recipe_nodup l) Hin) as Hf.
    rewrite group_by_recipe_find in Hf.
    destruct (recipe_members r l) as [| m ms]; [discriminate |].
    injection Hf as <-. split; [reflexivity | discriminate].
  - intros [-> Hne]. apply (assoc_find_in Z.eqb Zeqb_spec).
    rewrite group_by_recipe_find.
    destruct (recipe_members r l); [congruence | reflexivity].
Qed.

Lemma grown_group_size (g : list (Z * list AssemblerMetrics.t)) (r : Z)
      (members : list AssemblerMetrics.t) (a : AssemblerMetrics.t) :
  assoc_find Z.eqb r g = Some members ->
  List.length (List.concat (map snd (assoc_set Z.eqb r (members ++ [a]) g)))
  = S (List.length (List.concat (map snd g))).
Proof.
  induction g as [| [k m] rest IH]; simpl; [discriminate |].
  destruct (r =? k)%Z eqn:E.
  - intros [= ->]. simpl. rewrite !length_app. simpl. lia.
  - intro H. simpl. rewrite !length_app. rewrite (IH H). lia.
Qed.

Lemma group_by_recipe_size (l : list AssemblerMetrics.t) :
  List.length (List.concat (map snd (BottleneckAnalyzer.group_by_recipe l)))
  = List.length l.
Proof.
  induction l as [| a l IH] using rev_ind; [reflexivity |].
  rewrite group_by_recipe_snoc. cbv zeta. rewrite length_app. simpl List.length.
  destruct (assoc_find Z.eqb (AssemblerMetrics.recipe_id a)
                       (BottleneckAnalyzer.group_by_recipe l)) as [members |] eqn:E.
  - rewrite (grown_group_size _ _ _ _ E). lia.
  - rewrite map_app, concat_app, length_app. simpl. lia.
Qed.

(** X1.  Grouping a planet's assemblers by recipe partitions them: the
    keys are pairwise distinct, and the group of a recipe id holds exactly the
    assemblers of that recipe, in snapshot order; no group is empty. *)
Theorem group_by_recipe_partitions (assemblers : list AssemblerMetrics.t) :
  NoDup (map fst (BottleneckAnalyzer.group_by_recipe assemblers))
  /\ (forall recipe_id members,
         In (recipe_id, members) (BottleneckAnalyzer.group_by_recipe assemblers)
         <-> members = recipe_members recipe_id assemblers /\ members <> [])
  /\ List.length (List.concat (map snd (BottleneckAnalyzer.group_by_recipe assemblers)))
     = List.length assemblers.
Proof.
  split; [apply group_by_recipe_nodup |].
  split; [apply group_by_recipe_in | apply group_by_recipe_size].
Qed.

(* ================================================================== *)
(** * The bottleneck analysis of a whole snapshot                      *)
(* ================================================================== *)

Lemma count_le_len {A : Type} (p : A -> bool) (l : list A) : (0 <= count p l <= len l)%Z.
Proof.
  unfold count, len. pose proof (filter_length_le p l). lia.
Qed.

Lemma count_app {A : Type} (p : A -> bool) (l l' : list A) :
  count p (l ++ l') = (count p l + count p l')%Z.
Proof.
  unfold count. rewrite filter_app, length_app. lia.
Qed.

Lemma len_app {A : Type} (l l' : list A) : len (l ++ l') = (len l + len l')%Z.
Proof.
  unfold len. rewrite length_app. lia.
Qed.

Lemma grown_group_count (q : AssemblerMetrics.t -> bool)
      (g : list (Z * list AssemblerMetrics.t)) (r : Z)
      (members : list AssemblerMetrics.t) (a : AssemblerMetrics.t) :
  assoc_find Z.eqb r g = Some members ->
  count q (List.concat (map snd (assoc_set Z.eqb r (members ++ [a]) g)))
  = (count q (List.concat (map snd g)) + count q [a])%Z.
Proof.
  induction g as [| [k m] rest IH]; simpl; [discriminate |].
  destruct (r =? k)%Z eqn:E.
  - intros [= ->]. simpl. rewrite !count_app. lia.
  - intro H. simpl. rewrite !count_app. rewrite (IH H). lia.
Qed.

Lemma group_by_recipe_count (q : AssemblerMetrics.t -> bool) (l : list AssemblerMetrics.t) :
  count q (List.concat (map snd (BottleneckAnalyzer.group_by_recipe l))) = count q l.
Proof.
  induction l as [| a l IH] using rev_ind; [reflexivity |].
  rewrite group_by_recipe_snoc. cbv zeta. rewrite count_app.
  destruct (assoc_find Z.eqb (AssemblerMetrics.recipe_id a)
                       (BottleneckAnalyzer.group_by_recipe l)) as [members |] eqn:E.
  - rewrite (grown_group_count _ _ _ _ _ E). lia.
  - rewrite map_app, concat_app, count_app. simpl. lia.
Qed.

Lemma group_members_keyed (l : list AssemblerMetrics.t) (r : Z)
      (members : list AssemblerMetrics.t) :
  In (r, members) (BottleneckAnalyzer.group_by_recipe l) ->
  Forall (fun a => AssemblerMetrics.recipe_id a = r) members.
Proof.
  intro Hin. apply group_by_recipe_in in Hin. destruct Hin as [-> _].
  apply Forall_forall. intros a Ha. unfold recipe_members in Ha.
  apply filter_In in Ha. destruct Ha as [_ Ha]. apply Z.eqb_eq. exact Ha.
Qed.

Lemma count_keyed (db : RecipeDatabase.t) (target : option Z) (r : Z)
      (members : list AssemblerMetrics.t) :
  Forall (fun a => AssemblerMetrics.recipe_id a = r) members ->
  count (counted_inefficient db target) members
  = if group_analysed db target r
    then count (fun asm => Qltb (AssemblerMetrics.efficiency asm) 90) members
    else 0%Z.
Proof.
  unfold count. induction 1 as [| a rest Ha _ IH]; simpl.
  - destruct (group_analysed db target r); reflexivity.
  - unfold counted_inefficient at 1. rewrite Ha.
    destruct (group_analysed db target r); simpl.
    + destruct (Qltb (AssemblerMetrics.efficiency a) 90); simpl; lia.
    + exact IH.
Qed.

Lemma len_cons {A : Type} (x : A) (l : list A) : len (x :: l) = (1 + len l)%Z.
Proof.
  unfold len. simpl List.length. lia.
Qed.

Lemma planets_in_scope_cons (planet_id : option Z) (pid : Z) (planet : PlanetState.t)
      (rest : list (Z * PlanetState.t)) :
  planets_in_scope planet_id ((pid, planet) :: rest)
  = if match planet_id with
       | Some wanted => negb (pid =? wanted)%Z
       | None => false
       end
    then planets_in_scope planet_id rest
    else (pid, planet) :: planets_in_scope planet_id rest.
Proof.
  unfold planets_in_scope. simpl.
  destruct planet_id as [wanted |]; [| reflexivity].
  destruct (pid =? wanted)%Z; reflexivity.
Qed.

Lemma assemblers_in_scope_cons (planet_id : option Z) (pid : Z) (planet : PlanetState.t)
      (rest : list (Z * PlanetState.t)) :
  assemblers_in_scope planet_id ((pid, planet) :: rest)
  = if match planet_id with
       | Some wanted => negb (pid =? wanted)%Z
       | None => false
       end
    then assemblers_in_scope planet_id rest
    else PlanetState.assemblers planet ++ assemblers_in_scope planet_id rest.
Proof.
  unfold assemblers_in_scope. rewrite planets_in_scope_cons.
  destruct (match planet_id with Some _ => _ | None => _ end); reflexivity.
Qed.

Section SnapshotFacts.

Variable db : RecipeDatabase.t.

Lemma analyze_recipe_group_returns
      (recipe_id : Z) (members : list AssemblerMetrics.t)
      (planet : PlanetState.t) (include_downstream : bool) :
  members <> [] ->
  exists outcome,
    BottleneckAnalyzer._analyze_recipe_group
      db recipe_id members planet include_downstream = Ok outcome.
Proof.
  intro Hne.
  destruct (RecipeDatabase.get_recipe db recipe_id) as [recipe |] eqn:Hrec.
  - destruct (group_statistics_ok db recipe_id members Hne) as (tp & tt & avg & Hstats).
    pose proof (analyze_recipe_group_recorded
                  db recipe_id recipe members planet include_downstream
                  tp tt avg Hrec Hstats) as H.
    destruct (classify_by_precedence _ _ _).
    + destruct H as (b & Hb & _). eexists. exact Hb.
    + eexists. exact H.
  - unfold BottleneckAnalyzer._analyze_recipe_group. rewrite Hrec. eexists. reflexivity.
Qed.

(** One step of the loop over a planet's recipe groups. *)
Lemma analyze_group_step
      (pid : Z) (planet : PlanetState.t) (target : option Z) (include_downstream : bool)
      (st : BottleneckAnalyzer.tally) (r : Z) (members : list AssemblerMetrics.t) :
  In (r, members) (BottleneckAnalyzer.group_by_recipe (PlanetState.assemblers planet)) ->
  exists new,
    BottleneckAnalyzer.analyze_group db pid planet target include_downstream st (r, members)
    = Ok (BottleneckAnalyzer.mk_tally
            (BottleneckAnalyzer.bottlenecks st ++ new)
            (BottleneckAnalyzer.planets_analyzed st)
            (BottleneckAnalyzer.total_assemblers st)
            (BottleneckAnalyzer.inefficient_assemblers st
             + count (counted_inefficient db target) members))
    /\ Forall (recorded_on db include_downstream pid planet) new.
Proof.
  intro Hin.
  pose proof (group_members_keyed _ _ _ Hin) as Hkeyed.
  rewrite (count_keyed db target r members Hkeyed).
  assert (Hne : members <> []) by (apply group_by_recipe_in in Hin; tauto).
  unfold BottleneckAnalyzer.analyze_group, group_analysed.
  destruct (RecipeDatabase.get_recipe db r) as [recipe |] eqn:Hrec.
  - assert (Hskip :
              match target with
              | Some t =>
                  negb (Recipe.primary_output_id recipe =? t)%Z
                  && negb (BottleneckAnalyzer._is_in_dependency_chain db r t)
              | None => false
              end
              = negb match target with
                     | Some t =>
                         (Recipe.primary_output_id recipe =? t)%Z
                         || BottleneckAnalyzer._is_in_dependency_chain db r t
                     | None => true
                     end).
    { destruct target as [t |]; [| reflexivity]. rewrite negb_orb. reflexivity. }
    rewrite Hskip. clear Hskip.
    destruct (match target with
              | Some t =>
                  (Recipe.primary_output_id recipe =? t)%Z
                  || BottleneckAnalyzer._is_in_dependency_chain db r t
              | None => true
              end); cbn [negb].
    + destruct (analyze_recipe_group_returns r members planet include_downstream Hne)
        as [outcome Hout].
      rewrite Hout. cbn [bind]. destruct outcome as [b |].
      * exists [Bottleneck.set_planet_id b pid]. split; [reflexivity |].
        constructor; [| constructor]. exists r, members, b. auto.
      * exists []. rewrite app_nil_r. split; [reflexivity | constructor].
    + exists []. rewrite app_nil_r, Z.add_0_r. destruct st. split; [reflexivity | constructor].
  - exists []. rewrite app_nil_r, Z.add_0_r. destruct st. split; [reflexivity | constructor].
Qed.

Lemma analyze_groups_steps
      (pid : Z) (planet : PlanetState.t) (target : option Z) (include_downstream : bool)
      (groups : list (Z * list AssemblerMetrics.t)) (st : BottleneckAnalyzer.tally) :
  (forall g, In g groups ->
             In g (BottleneckAnalyzer.group_by_recipe (PlanetState.assemblers planet))) ->
  exists new,
    for_each (BottleneckAnalyzer.analyze_group db pid planet target include_downstream)
             groups st
    = Ok (BottleneckAnalyzer.mk_tally
            (BottleneckAnalyzer.bottlenecks st ++ new)
            (BottleneckAnalyzer.planets_analyzed st)
            (BottleneckAnalyzer.total_assemblers st)
            (BottleneckAnalyzer.inefficient_assemblers st
             + count (counted_inefficient db target) (List.concat (map snd groups))))
    /\ Forall (recorded_on db include_downstream pid planet) new.
Proof.
  revert st. induction groups as [| [r members] rest IH]; intros st Hsub.
  - exists []. rewrite app_nil_r. simpl. unfold count. simpl. rewrite Z.add_0_r.
    destruct st. split; [reflexivity | constructor].
  - destruct (analyze_group_step pid planet target include_downstream st r members
                                 (Hsub _ (or_introl eq_refl))) as (new1 & Hstep & Hnew1).
    cbn [for_each]. rewrite Hstep. cbn [bind].
    match goal with
    | |- context [for_each _ rest ?s] =>
        destruct (IH s (fun g Hg => Hsub g (or_intror Hg))) as (new2 & Hrest & Hnew2)
    end.
    rewrite Hrest. exists (new1 ++ new2).
    cbn [BottleneckAnalyzer.bottlenecks BottleneckAnalyzer.planets_analyzed
         BottleneckAnalyzer.total_assemblers BottleneckAnalyzer.inefficient_assemblers].
    split.
    + rewrite app_assoc. simpl map. simpl List.concat. rewrite count_app.
      rewrite Z.add_assoc. reflexivity.
    + apply Forall_app. split; assumption.
Qed.

Lemma recorded_in_cons (include_downstream : bool) (planet_id : option Z)
      (entry : Z * PlanetState.t) (planets : list (Z * PlanetState.t)) (b : Bottleneck.t) :
  recorded_in db include_downstream planet_id planets b ->
  recorded_in db include_downstream planet_id (entry :: planets) b.
Proof.
  intros (pid & planet & Hin & Hrec). exists pid, planet. split; [| exact Hrec].
  unfold planets_in_scope in *. simpl.
  destruct (match planet_id with Some _ => _ | None => _ end); [right |]; exact Hin.
Qed.

(** The loop over the planets: what it records and what it counts. *)
Lemma analyze_planets_steps
      (planet_id target : option Z) (include_downstream : bool)
      (planets : list (Z * PlanetState.t)) (st : BottleneckAnalyzer.tally) :
  exists new,
    for_each (BottleneckAnalyzer.analyze_planet db planet_id target include_downstream)
             planets st
    = Ok (BottleneckAnalyzer.mk_tally
            (BottleneckAnalyzer.bottlenecks st ++ new)
            (BottleneckAnalyzer.planets_analyzed st
             + len (planets_in_scope planet_id planets))
            (BottleneckAnalyzer.total_assemblers st
             + len (assemblers_in_scope planet_id planets))
            (BottleneckAnalyzer.inefficient_assemblers st
             + count (counted_inefficient db target)
                     (assemblers_in_scope planet_id planets)))
    /\ Forall (recorded_in db include_downstream planet_id planets) new.
Proof.
  revert st. induction planets as [| [pid planet] rest IH]; intro st.
  - exists []. rewrite app_nil_r. unfold len, count. simpl. rewrite !Z.add_0_r.
    destruct st. split; [reflexivity | constructor].
  - cbn [for_each]. unfold BottleneckAnalyzer.analyze_planet at 1.
    rewrite planets_in_scope_cons, assemblers_in_scope_cons.
    assert (Hhere : match planet_id with
                    | Some wanted => negb (pid =? wanted)%Z
                    | None => false
                    end = false ->
                    In (pid, planet) (planets_in_scope planet_id ((pid, planet) :: rest))).
    { intro E. rewrite planets_in_scope_cons, E. left. reflexivity. }
    destruct (match planet_id with
              | Some wanted => negb (pid =? wanted)%Z
              | None => false
              end).
    + cbn [bind]. destruct (IH st) as (new & Hrest & Hnew).
      exists new. split; [exact Hrest |].
      eapply Forall_impl; [| exact Hnew]. intros b Hb. apply recorded_in_cons. exact Hb.
    + destruct (analyze_groups_steps
                  pid planet target include_downstream
                  (BottleneckAnalyzer.group_by_recipe (PlanetState.assemblers planet))
                  (BottleneckAnalyzer.mk_tally
                     (BottleneckAnalyzer.bottlenecks st)
                     (BottleneckAnalyzer.planets_analyzed st + 1)
                     (BottleneckAnalyzer.total_assemblers st
                      + len (PlanetState.assemblers planet))
                     (BottleneckAnalyzer.inefficient_assemblers st))
                  (fun g Hg => Hg)) as (new1 & Hgroups & Hnew1).
      rewrite Hgroups. cbn [bind].
      match goal with
      | |- context [for_each _ rest ?s] => destruct (IH s) as (new2 & Hrest & Hnew2)
      end.
      rewrite Hrest. exists (new1 ++ new2).
      cbn [BottleneckAnalyzer.bottlenecks BottleneckAnalyzer.planets_analyzed
           BottleneckAnalyzer.total_assemblers BottleneckAnalyzer.inefficient_assemblers].
      split.
      * rewrite group_by_recipe_count, len_app, count_app, app_assoc.
        rewrite len_cons, !Z.add_assoc. reflexivity.
      * apply Forall_app. split.
        -- eapply Forall_impl; [| exact Hnew1]. intros b Hb.
           exists pid, planet. split; [| exact Hb]. apply Hhere. reflexivity.
        -- eapply Forall_impl; [| exact Hnew2]. intros b Hb.
           apply recorded_in_cons. exact Hb.
Qed.

(** What the three loops append to the list of bottlenecks. *)
Lemma analyze_group_records
      (pid : Z) (planet : PlanetState.t) (target : option Z) (include_downstream : bool)
      (st st' : BottleneckAnalyzer.tally) (group : Z * list AssemblerMetrics.t) :
  BottleneckAnalyzer.analyze_group db pid planet target include_downstream st group
  = Ok st' ->
  BottleneckAnalyzer.bottlenecks st'
  = BottleneckAnalyzer.bottlenecks st
      ++ recorded_for_group db include_downstream target pid planet group.
Proof.
  destruct group as [r members].
  unfold BottleneckAnalyzer.analyze_group, recorded_for_group, group_analysed.
  cbn [fst snd].
  destruct (RecipeDatabase.get_recipe db r) as [recipe |];
    [| intros [= <-]; rewrite app_nil_r; reflexivity].
  assert (Hskip :
            match target with
            | Some t =>
                negb (Recipe.primary_output_id recipe =? t)%Z
                && negb (BottleneckAnalyzer._is_in_dependency_chain db r t)
            | None => false
            end
            = negb match target with
                   | Some t =>
                       (Recipe.primary_output_id recipe =? t)%Z
                       || BottleneckAnalyzer._is_in_dependency_chain db r t
                   | None => true
                   end).
  { destruct target as [t |]; [| reflexivity]. rewrite negb_orb. reflexivity. }
  rewrite Hskip. clear Hskip.
  destruct (match target with
            | Some t =>
                (Recipe.primary_output_id recipe =? t)%Z
                || BottleneckAnalyzer._is_in_dependency_chain db r t
            | None => true
            end); cbn [negb];
    [| intros [= <-]; rewrite app_nil_r; reflexivity].
  destruct (BottleneckAnalyzer._analyze_recipe_group db r members planet include_downstream)
    as [[b |] | e]; cbn [bind]; intros [= <-];
    cbn [BottleneckAnalyzer.bottlenecks]; [reflexivity |].
  rewrite app_nil_r. reflexivity.
Qed.

Lemma analyze_groups_records
      (pid : Z) (planet : PlanetState.t) (target : option Z) (include_downstream : bool)
      (groups : list (Z * list AssemblerMetrics.t)) (st st' : BottleneckAnalyzer.tally) :
  for_each (BottleneckAnalyzer.analyze_group db pid planet target include_downstream)
           groups st = Ok st' ->
  BottleneckAnalyzer.bottlenecks st'
  = BottleneckAnalyzer.bottlenecks st
      ++ flat_map (recorded_for_group db include_downstream target pid planet) groups.
Proof.
  revert st. induction groups as [| g rest IH]; intros st Hrun.
  - injection Hrun as <-. simpl. rewrite app_nil_r. reflexivity.
  - cbn [for_each] in Hrun.
    destruct (BottleneckAnalyzer.analyze_group db pid planet target include_downstream st g)
      as [st1 |] eqn:Hstep; cbn [bind] in Hrun; [| discriminate].
    rewrite (IH _ Hrun), (analyze_group_records _ _ _ _ _ _ _ Hstep).
    cbn [flat_map]. rewrite app_assoc. reflexivity.
Qed.

Lemma analyze_planets_records
      (planet_id target : option Z) (include_downstream : bool)
      (planets : list (Z * PlanetState.t)) (st st' : BottleneckAnalyzer.tally) :
  for_each (BottleneckAnalyzer.analyze_planet db planet_id target include_downstream)
           planets st = Ok st' ->
  BottleneckAnalyzer.bottlenecks st'
  = BottleneckAnalyzer.bottlenecks st
      ++ recorded_bottlenecks db include_downstream planet_id target planets.
Proof.
  unfold recorded_bottlenecks.
  revert st. induction planets as [| [pid planet] rest IH]; intros st Hrun.
  - injection Hrun as <-. simpl. rewrite app_nil_r. reflexivity.
  - cbn [for_each] in Hrun. unfold BottleneckAnalyzer.analyze_planet at 1 in Hrun.
    rewrite planets_in_scope_cons.
    destruct (match planet_id with
              | Some wanted => negb (pid =? wanted)%Z
              | None => false
              end).
    + cbn [bind] in Hrun. apply IH. exact Hrun.
    + match type of Hrun with
      | bind ?m _ = _ => destruct m as [st1 |] eqn:Hgroups
      end; cbn [bind] in Hrun; [| discriminate].
      rewrite (IH _ Hrun), (analyze_groups_records _ _ _ _ _ _ _ Hgroups).
      cbn [BottleneckAnalyzer.bottlenecks flat_map fst snd].
      rewrite app_assoc. reflexivity.
Qed.

End SnapshotFacts.

Lemma generate_summary_returns
      (bottlenecks : list Bottleneck.t) (total_assemblers inefficient_assemblers : Z) :
  exists summary,
    BottleneckAnalyzer._generate_summary bottlenecks total_assemblers inefficient_assemblers
    = Ok summary.
Proof.
  unfold BottleneckAnalyzer._generate_summary.
  destruct bottlenecks as [| most_severe rest].
  - destruct (total_assemblers =? 0)%Z eqn:E.
    + eexists. reflexivity.
    + rewrite div_ok; [eexists; reflexivity |].
      intro H. apply Z.eqb_neq in E. apply E.
      apply (inject_Z_injective total_assemblers 0). exact H.
  - rewrite div_no_fault; [eexists; reflexivity |].
    change 0 with (inject_Z 0). rewrite <- Zlt_Qlt. lia.
Qed.

(** The report of [analyze], in terms of the bottlenecks recorded in scope. *)
Lemma analyze_report_shape
      (db : RecipeDatabase.t) (factory_state : FactoryState.t)
      (planet_id : option Z) (target_item : option string)
      (time_window : Z) (include_downstream : bool) :
  let planets := FactoryState.planets factory_state in
  let target := BottleneckAnalyzer.resolve_target db target_item in
  exists all summary,
    Forall (recorded_in db include_downstream planet_id planets) all
    /\ descending Bottleneck.severity all
    /\ BottleneckAnalyzer._generate_summary
         all (len (assemblers_in_scope planet_id planets))
         (count (counted_inefficient db target) (assemblers_in_scope planet_id planets))
       = Ok summary
    /\ BottleneckAnalyzer.analyze
         db factory_state planet_id target_item time_window include_downstream
       = Ok (VDict
               [("timestamp"%string, VStr (FactoryState.timestamp factory_state));
                ("planets_analyzed"%string, VInt (len (planets_in_scope planet_id planets)));
                ("total_assemblers"%string,
                 VInt (len (assemblers_in_scope planet_id planets)));
                ("inefficient_assemblers"%string,
                 VInt (count (counted_inefficient db target)
                             (assemblers_in_scope planet_id planets)));
                ("bottlenecks_found"%string, VInt (len all));
                ("summary"%string, summary);
                ("bottlenecks"%string,
                 VList (map (BottleneckAnalyzer.bottleneck_entry) (firstn 10 all)));
                ("critical_path"%string,
                 VList (if include_downstream
                        then BottleneckAnalyzer._build_critical_path db all target
                        else []))]).
Proof.
  intros planets target.
  destruct (analyze_planets_steps db planet_id target include_downstream planets
                                  (BottleneckAnalyzer.mk_tally [] 0 0 0))
    as (new & Hrun & Hnew).
  cbn [BottleneckAnalyzer.bottlenecks BottleneckAnalyzer.planets_analyzed
       BottleneckAnalyzer.total_assemblers BottleneckAnalyzer.inefficient_assemblers
       app] in Hrun.
  rewrite !Z.add_0_l in Hrun.
  set (all := sort_desc Bottleneck.severity new).
  destruct (generate_summary_returns
              all (len (assemblers_in_scope planet_id planets))
              (count (counted_inefficient db target)
                     (assemblers_in_scope planet_id planets))) as [summary Hsummary].
  exists all, summary.
  split.
  { eapply Permutation_Forall; [| exact Hnew].
    apply Permutation_sym. apply sort_desc_perm. }
  split; [apply sort_desc_sorted |].
  split; [exact Hsummary |].
  unfold BottleneckAnalyzer.analyze. fold planets. fold target.
  rewrite Hrun. cbn [bind BottleneckAnalyzer.bottlenecks BottleneckAnalyzer.planets_analyzed
                          BottleneckAnalyzer.total_assemblers
                          BottleneckAnalyzer.inefficient_assemblers].
  fold all. rewrite Hsummary. reflexivity.
Qed.

(** X2.  The bottleneck analysis returns a report for every snapshot and
    every choice of parameters: no division and no list access in it can
    raise ([assemblers[0]] is only evaluated on non-empty groups, every
    divisor is guarded). *)
Theorem bottleneck_analysis_never_raises
        (db : RecipeDatabase.t) (factory_state : FactoryState.t)
        (planet_id : option Z) (target_item : option string)
        (time_window : Z) (include_downstream : bool) :
  exists report,
    BottleneckAnalyzer.analyze
      db factory_state planet_id target_item time_window include_downstream
    = Ok report.
Proof.
  destruct (analyze_report_shape db factory_state planet_id target_item
                                 time_window include_downstream)
    as (all & summary & _ & _ & _ & H).
  eexists. exact H.
Qed.

(** X3.  The counters of the report: [planets_analyzed] is the number of
    planets in scope, [total_assemblers] the number of their assemblers
    (whatever their recipe), and [inefficient_assemblers] the number of those
    with efficiency below 90 whose recipe is catalogued and passes the target
    filter; so [0 <= inefficient_assemblers <= total_assemblers]. *)
Theorem bottleneck_report_counters
        (db : RecipeDatabase.t) (factory_state : FactoryState.t)
        (planet_id : option Z) (target_item : option string)
        (time_window : Z) (include_downstream : bool) :
  let planets := FactoryState.planets factory_state in
  let inefficient :=
    count (counted_inefficient db (BottleneckAnalyzer.resolve_target db target_item))
          (assemblers_in_scope planet_id planets) in
  exists report,
    BottleneckAnalyzer.analyze
      db factory_state planet_id target_item time_window include_downstream
    = Ok report
    /\ get "planets_analyzed" report = Some (VInt (len (planets_in_scope planet_id planets)))
    /\ get "total_assemblers" report
       = Some (VInt (len (assemblers_in_scope planet_id planets)))
    /\ get "inefficient_assemblers" report = Some (VInt inefficient)
    /\ (0 <= inefficient <= len (assemblers_in_scope planet_id planets))%Z.
Proof.
  intros planets inefficient.
  destruct (analyze_report_shape db factory_state planet_id target_item
                                 time_window include_downstream)
    as (all & summary & _ & _ & _ & H).
  eexists. split; [exact H |].
  repeat (split; [reflexivity |]).
  apply count_le_len.
Qed.

(** X4.  The report lists the ten most severe bottlenecks, most severe
    first: its entries are the first ten of a list that holds exactly the
    bottlenecks recorded for the snapshot (those of the analysed recipe
    groups of the planets in scope) ordered by decreasing severity;
    [bottlenecks_found] is the number of recorded bottlenecks, and no
    recorded bottleneck that is left out is more severe than one that is
    shown. *)
Theorem report_lists_ten_most_severe
        (db : RecipeDatabase.t) (factory_state : FactoryState.t)
        (planet_id : option Z) (target_item : option string)
        (time_window : Z) (include_downstream : bool) :
  let recorded :=
    recorded_bottlenecks db include_downstream planet_id
                         (BottleneckAnalyzer.resolve_target db target_item)
                         (FactoryState.planets factory_state) in
  exists report all,
    BottleneckAnalyzer.analyze
      db factory_state planet_id target_item time_window include_downstream
    = Ok report
    /\ Permutation all recorded
    /\ descending Bottleneck.severity all
    /\ get "bottlenecks_found" report = Some (VInt (len recorded))
    /\ get "bottlenecks" report
       = Some (VList (map BottleneckAnalyzer.bottleneck_entry (firstn 10 all)))
    /\ List.length (firstn 10 all) = Nat.min 10 (List.length recorded)
    /\ (forall shown hidden,
           In shown (firstn 10 all) -> In hidden (skipn 10 all) ->
           Bottleneck.severity hidden <= Bottleneck.severity shown).
Proof.
  intro recorded.
  set (planets := FactoryState.planets factory_state) in *.
  set (target := BottleneckAnalyzer.resolve_target db target_item) in *.
  destruct (analyze_planets_steps db planet_id target include_downstream planets
                                  (BottleneckAnalyzer.mk_tally [] 0 0 0))
    as (new & Hrun & _).
  pose proof (analyze_planets_records db _ _ _ _ _ _ Hrun) as Hnew.
  cbn [BottleneckAnalyzer.bottlenecks app] in Hnew. fold recorded in Hnew.
  subst new.
  cbn [BottleneckAnalyzer.bottlenecks BottleneckAnalyzer.planets_analyzed
       BottleneckAnalyzer.total_assemblers BottleneckAnalyzer.inefficient_assemblers
       app] in Hrun.
  set (all := sort_desc Bottleneck.severity recorded).
  destruct (generate_summary_returns
              all (0 + len (assemblers_in_scope planet_id planets))
              (0 + count (counted_inefficient db target)
                         (assemblers_in_scope planet_id planets))) as [summary Hsummary].
  assert (Hsorted : descending Bottleneck.severity all) by apply sort_desc_sorted.
  assert (Hperm : Permutation all recorded) by apply sort_desc_perm.
  eexists. exists all. split.
  { unfold BottleneckAnalyzer.analyze. fold planets. fold target.
    rewrite Hrun.
    cbn [bind BottleneckAnalyzer.bottlenecks BottleneckAnalyzer.planets_analyzed
              BottleneckAnalyzer.total_assemblers
              BottleneckAnalyzer.inefficient_assemblers].
    fold all. rewrite Hsummary. reflexivity. }
  split; [exact Hperm |]. split; [exact Hsorted |].
  split.
  { cbn. unfold len. rewrite (Permutation_length Hperm). reflexivity. }
  split; [reflexivity |].
  split.
  { rewrite length_firstn, (Permutation_length Hperm). reflexivity. }
  intros shown hidden Hshown Hhidden.
  rewrite <- (firstn_skipn 10 all) in Hsorted.
  unfold descending in Hsorted.
  revert Hshown Hhidden Hsorted.
  generalize (firstn 10 all) as front, (skipn 10 all) as back.
  induction front as [| x front IH]; intros back Hshown Hhidden Hsorted;
    [destruct Hshown |].
  simpl in Hsorted. apply StronglySorted_inv in Hsorted. destruct Hsorted as [Hrest Hall].
  destruct Hshown as [<- | Hshown].
  - rewrite Forall_forall in Hall. apply Hall. apply in_or_app. right. exact Hhidden.
  - eapply IH; eassumption.
Qed.

(* ================================================================== *)
(** * What a recorded bottleneck holds                                 *)
(* ================================================================== *)

Lemma sum_of_nonnegative (xs : list Q) : Forall (fun x => 0 <= x) xs -> 0 <= sum xs.
Proof.
  induction 1 as [| x rest Hx _ IH].
  - unfold sum. simpl. lra.
  - rewrite sum_cons. lra.
Qed.

Lemma fraction_at_most_one {A : Type} (p : A -> bool) (l : list A) :
  l <> [] -> inject_Z (count p l) / inject_Z (len l) <= 1.
Proof.
  intro Hne. pose proof (len_positive l Hne) as Hlen.
  apply Qle_shift_div_r; [exact Hlen |]. rewrite Qmult_1_l.
  rewrite <- Zle_Qle. apply count_le_len.
Qed.

(** The fields of the record [_analyze_recipe_group] builds. *)
Lemma analyze_recipe_group_fields
      (db : RecipeDatabase.t) (recipe_id : Z) (members : list AssemblerMetrics.t)
      (planet : PlanetState.t) (include_downstream : bool) (b : Bottleneck.t) :
  BottleneckAnalyzer._analyze_recipe_group
    db recipe_id members planet include_downstream = Ok (Some b) ->
  exists recipe,
    RecipeDatabase.get_recipe db recipe_id = Some recipe
    /\ members <> []
    /\ Bottleneck.recipe_id b = recipe_id
    /\ Bottleneck.item_id b = Recipe.primary_output_id recipe
    /\ Bottleneck.planet_id b = 0%Z
    /\ Bottleneck.assembler_count b = len members
    /\ Bottleneck.upstream_items b
       = firstn 5 (BottleneckAnalyzer._get_upstream_items db recipe_id)
    /\ Bottleneck.downstream_impact b
       = firstn 5 (if include_downstream
                   then BottleneckAnalyzer._get_downstream_items
                          db (Recipe.primary_output_id recipe)
                   else []).
Proof.
  intro H.
  destruct (RecipeDatabase.get_recipe db recipe_id) as [recipe |] eqn:Hrec;
    [| unfold BottleneckAnalyzer._analyze_recipe_group in H; rewrite Hrec in H;
       discriminate H].
  exists recipe. split; [reflexivity |].
  assert (Hne : members <> []).
  { intro E. subst members.
    unfold BottleneckAnalyzer._analyze_recipe_group in H. rewrite Hrec in H.
    discriminate H. }
  split; [exact Hne |].
  destruct (group_statistics_ok db recipe_id members Hne) as (tp & tt & avg & Hstats).
  pose proof (len_positive members Hne) as Hlen.
  unfold BottleneckAnalyzer._analyze_recipe_group in H.
  rewrite Hrec, Hstats in H. cbn [bind] in H.
  rewrite !(div_no_fault _ _ Hlen) in H.
  repeat match type of H with
         | context [if ?c then _ else _] => destruct c
         end;
    cbn [bind] in H; try discriminate H;
    injection H as <-; repeat split; reflexivity.
Qed.

(** X5.  The severity of a recorded bottleneck: its type is one of the
    three, an input_starvation or output_blocked bottleneck has severity in
    (30, 100], a low_efficiency one has severity above 20 and equal to 100
    minus its efficiency, and when no production rate of the group is
    negative every severity is at most 100. *)
Theorem recorded_severity_range
        (db : RecipeDatabase.t) (recipe_id : Z) (members : list AssemblerMetrics.t)
        (planet : PlanetState.t) (include_downstream : bool) (b : Bottleneck.t) :
  BottleneckAnalyzer._analyze_recipe_group
    db recipe_id members planet include_downstream = Ok (Some b) ->
  let ty := Bottleneck.bottleneck_type b in
  (ty = "input_starvation"%string \/ ty = "output_blocked"%string
   \/ ty = "low_efficiency"%string)
  /\ (ty <> "low_efficiency"%string ->
      30 < Bottleneck.severity b /\ Bottleneck.severity b <= 100)
  /\ (ty = "low_efficiency"%string ->
      20 < Bottleneck.severity b
      /\ Bottleneck.severity b == 100 - Bottleneck.efficiency b)
  /\ (Forall (fun a => 0 <= AssemblerMetrics.production_rate a) members ->
      Bottleneck.severity b <= 100).
Proof.
  intros H ty. subst ty.
  destruct (analyze_recipe_group_fields _ _ _ _ _ _ H) as (recipe & Hrec & Hne & _).
  destruct (group_statistics_ok db recipe_id members Hne) as (tp & tt & avg & Hstats).
  pose proof (analyze_recipe_group_recorded
                db recipe_id recipe members planet include_downstream
                tp tt avg Hrec Hstats) as Hrecd.
  pose proof (fraction_at_most_one AssemblerMetrics.input_starved members Hne) as Hs1.
  pose proof (fraction_at_most_one AssemblerMetrics.output_blocked members Hne) as Hb1.
  fold (starved_fraction members) in Hs1. fold (blocked_fraction members) in Hb1.
  assert (Havg : Forall (fun a => 0 <= AssemblerMetrics.production_rate a) members ->
                 0 <= avg).
  { intro Hnonneg.
    destruct (group_statistics_inv db _ _ _ _ _ Hstats) as (_ & Htt & ->).
    rewrite (group_statistics_of_total db _ _ _ Htt) in Hstats.
    injection Hstats as <- _.
    destruct (Qgtb tt 0) eqn:E; [| discriminate].
    apply Qgtb_true in E.
    assert (Hsum : 0 <= sum (map AssemblerMetrics.production_rate members)).
    { apply sum_of_nonnegative. apply (proj2 (Forall_map _ _ _)). exact Hnonneg. }
    apply Qmult_le_0_compat; [| discriminate].
    apply Qle_shift_div_l; [exact E |]. lra. }
  unfold classify_by_precedence in Hrecd.
  destruct (Qgtb (starved_fraction members) (3 # 10)) eqn:Es.
  - destruct Hrecd as (b' & Hb' & Hty & _ & Hsev).
    rewrite H in Hb'. injection Hb' as <-. apply Qgtb_true in Es.
    rewrite Hty, Hsev.
    split; [left; reflexivity |]. split; [intros _; split; lra |].
    split; [discriminate | intros _; lra].
  - destruct (Qgtb (blocked_fraction members) (3 # 10)) eqn:Eb.
    + destruct Hrecd as (b' & Hb' & Hty & _ & Hsev).
      rewrite H in Hb'. injection Hb' as <-. apply Qgtb_true in Eb.
      rewrite Hty, Hsev.
      split; [right; left; reflexivity |]. split; [intros _; split; lra |].
      split; [discriminate | intros _; lra].
    + destruct (Qltb avg 80) eqn:Ea.
      * destruct Hrecd as (b' & Hb' & Hty & Heff & Hsev).
        rewrite H in Hb'. injection Hb' as <-. apply Qltb_true in Ea.
        rewrite Hty, Hsev, Heff.
        split; [right; right; reflexivity |].
        split; [intro C; exfalso; apply C; reflexivity |].
        split; [intros _; split; lra |].
        intro Hnonneg. specialize (Havg Hnonneg). lra.
      * rewrite H in Hrecd. discriminate Hrecd.
Qed.

Lemma recorded_severity_range_witness :
  exists b,
    BottleneckAnalyzer._analyze_recipe_group
      Example.db 1 Example.two_of_four_starved (Example.planet_of [] None) true
    = Ok (Some b)
    /\ 30 < Bottleneck.severity b /\ Bottleneck.severity b <= 100.
Proof.
  eexists. split; [vm_compute; reflexivity |].
  match goal with
  | |- 30 < Bottleneck.severity ?b /\ _ =>
      destruct (recorded_severity_range
                  Example.db 1 Example.two_of_four_starved
                  (Example.planet_of [] None) true b eq_refl) as (_ & Hrange & _)
  end.
  apply Hrange. discriminate.
Defined.

(* ================================================================== *)
(** * The summary of the bottleneck report                             *)
(* ================================================================== *)

(** X6.  On the list [analyze] passes (ordered by decreasing severity),
    the summary status follows the worst bottleneck of the whole list:
    "healthy" exactly for no bottleneck, "critical" exactly when some
    severity exceeds 80, "warning" when none exceeds 80 but some exceeds 50,
    "minor" when there are bottlenecks and none exceeds 50. *)
Theorem summary_status_follows_worst
        (bottlenecks : list Bottleneck.t) (total_assemblers inefficient_assemblers : Z) :
  descending Bottleneck.severity bottlenecks ->
  exists summary status,
    BottleneckAnalyzer._generate_summary bottlenecks total_assemblers inefficient_assemblers
    = Ok summary
    /\ get "status" summary = Some (VStr status)
    /\ (status = "healthy"%string <-> bottlenecks = [])
    /\ (status = "critical"%string
        <-> Exists (fun b => 80 < Bottleneck.severity b) bottlenecks)
    /\ (status = "warning"%string
        <-> Exists (fun b => 50 < Bottleneck.severity b) bottlenecks
            /\ Forall (fun b => Bottleneck.severity b <= 80) bottlenecks)
    /\ (status = "minor"%string
        <-> bottlenecks <> []
            /\ Forall (fun b => Bottleneck.severity b <= 50) bottlenecks).
Proof.
  intro Hsorted.
  destruct (generate_summary_returns bottlenecks total_assemblers inefficient_assemblers)
    as [summary Hsummary].
  destruct bottlenecks as [| worst rest].
  - exists summary, "healthy"%string. split; [exact Hsummary |].
    unfold BottleneckAnalyzer._generate_summary in Hsummary.
    split.
    { destruct (total_assemblers =? 0)%Z; cbn [bind] in Hsummary.
      - injection Hsummary as <-. reflexivity.
      - destruct (div _ _); cbn [bind] in Hsummary; [| discriminate].
        injection Hsummary as <-. reflexivity. }
    split; [tauto |].
    split; [split; [discriminate | intro H; inversion H] |].
    split; [split; [discriminate | intros [H _]; inversion H] |].
    split; [discriminate | intros [H _]; congruence].
  - pose proof (descending_head_max Bottleneck.severity worst rest Hsorted) as Hmax.
    assert (Hex : forall bound,
               Exists (fun b => bound < Bottleneck.severity b) (worst :: rest)
               <-> bound < Bottleneck.severity worst).
    { intro bound. rewrite Exists_exists. split.
      - intros (b & Hin & Hb). eapply Qlt_le_trans; [exact Hb | apply Hmax; exact Hin].
      - intro H. exists worst. split; [left; reflexivity | exact H]. }
    assert (Hall : forall bound,
               Forall (fun b => Bottleneck.severity b <= bound) (worst :: rest)
               <-> Bottleneck.severity worst <= bound).
    { intro bound. rewrite Forall_forall. split.
      - intro H. apply H. left. reflexivity.
      - intros H b Hin. eapply Qle_trans; [apply Hmax; exact Hin | exact H]. }
    unfold BottleneckAnalyzer._generate_summary in Hsummary.
    destruct (div _ _) as [q |] eqn:Hdiv; cbn [bind] in Hsummary; [| discriminate].
    injection Hsummary as <-.
    eexists. eexists.
    split; [unfold BottleneckAnalyzer._generate_summary; rewrite Hdiv; reflexivity |].
    split; [reflexivity |].
    rewrite !Hex, !Hall.
    destruct (Qgtb (Bottleneck.severity worst) 80) eqn:E80;
      [apply Qgtb_true in E80 | apply Qgtb_false in E80].
    + split; [split; discriminate |].
      split; [split; [intros _; exact E80 | reflexivity] |].
      split; [split; [discriminate | intros [_ H]; exfalso; lra] |].
      split; [discriminate | intros [_ H]; exfalso; lra].
    + destruct (Qgtb (Bottleneck.severity worst) 50) eqn:E50;
        [apply Qgtb_true in E50 | apply Qgtb_false in E50].
      * split; [split; discriminate |].
        split; [split; [discriminate | intro H; exfalso; lra] |].
        split; [split; [intros _; split; assumption | reflexivity] |].
        split; [discriminate | intros [_ H]; exfalso; lra].
      * split; [split; discriminate |].
        split; [split; [discriminate | intro H; exfalso; lra] |].
        split; [split; [discriminate | intros [H _]; exfalso; lra] |].
        split; [intros _; split; [discriminate | exact E50] | reflexivity].
Qed.

Lemma count_by_type_snoc (bs : list Bottleneck.t) (b : Bottleneck.t) :
  BottleneckAnalyzer.count_by_type (bs ++ [b])
  = let by_type := BottleneckAnalyzer.count_by_type bs in
    let t := Bottleneck.bottleneck_type b in
    assoc_set String.eqb t
              (match assoc_find String.eqb t by_type with
               | Some n => n
               | None => 0
               end + 1)%Z
              by_type.
Proof.
  unfold BottleneckAnalyzer.count_by_type. rewrite fold_left_app. reflexivity.
Qed.

Lemma count_single {A : Type} (p : A -> bool) (x : A) :
  count p [x] = if p x then 1%Z else 0%Z.
Proof.
  unfold count. simpl. destruct (p x); reflexivity.
Qed.

Lemma count_by_type_find (bs : list Bottleneck.t) (t : string) :
  assoc_find String.eqb t (BottleneckAnalyzer.count_by_type bs)
  = if (type_count t bs =? 0)%Z then None else Some (type_count t bs).
Proof.
  induction bs as [| b bs IH] using rev_ind; [reflexivity |].
  rewrite count_by_type_snoc. cbv zeta.
  unfold type_count in *. rewrite count_app, count_single.
  pose proof (count_le_len (fun b0 => String.eqb (Bottleneck.bottleneck_type b0) t) bs)
    as Hc.
  destruct (String.eqb (Bottleneck.bottleneck_type b) t) eqn:E.
  - apply String.eqb_eq in E. rewrite E.
    rewrite (assoc_find_set_same String.eqb Seqb_spec). rewrite IH.
    destruct (count _ bs =? 0)%Z eqn:E0.
    + apply Z.eqb_eq in E0. rewrite E0. reflexivity.
    + destruct (count _ bs + 1 =? 0)%Z eqn:E'; [apply Z.eqb_eq in E'; lia | reflexivity].
  - assert (Hne : t <> Bottleneck.bottleneck_type b).
    { intro C. subst t. rewrite String.eqb_refl in E. discriminate. }
    rewrite (assoc_find_set_other String.eqb Seqb_spec) by exact Hne.
    rewrite Z.add_0_r. exact IH.
Qed.

Lemma count_by_type_nodup (bs : list Bottleneck.t) :
  NoDup (map fst (BottleneckAnalyzer.count_by_type bs)).
Proof.
  induction bs as [| b bs IH] using rev_ind; [constructor |].
  rewrite count_by_type_snoc. cbv zeta.
  apply (assoc_set_nodup String.eqb Seqb_spec). exact IH.
Qed.

Lemma max_key_fold (d : list (string * Z)) (best : string * Z) :
  exists k v,
    fold_left
      (fun best kv =>
         match best with
         | None => Some kv
         | Some b => if (snd b <? snd kv)%Z then Some kv else Some b
         end)
      d (Some best) = Some (k, v)
    /\ ((k, v) = best \/ In (k, v) d)
    /\ (snd best <= v)%Z
    /\ (forall k' v', In (k', v') d -> (v' <= v)%Z).
Proof.
  revert best. induction d as [| [k0 v0] rest IH]; intro best.
  - destruct best as [k v]. exists k, v. simpl.
    split; [reflexivity |]. split; [left; reflexivity |]. split; [lia | intros ? ? []].
  - simpl. destruct (snd best <? v0)%Z eqn:E.
    + apply Z.ltb_lt in E. destruct (IH (k0, v0)) as (k & v & Hrun & Hin & Hge & Hall).
      exists k, v. split; [exact Hrun |]. simpl in Hge.
      split; [right; destruct Hin as [Hin | Hin]; [left; symmetry; exact Hin | right; exact Hin] |].
      split; [lia |].
      intros k' v' [Heq | Hin']; [injection Heq as <- <-; exact Hge | eapply Hall; exact Hin'].
    + apply Z.ltb_ge in E. destruct (IH best) as (k & v & Hrun & Hin & Hge & Hall).
      exists k, v. split; [exact Hrun |].
      split; [destruct Hin as [Hin | Hin]; [left; exact Hin | right; right; exact Hin] |].
      split; [exact Hge |].
      intros k' v' [Heq | Hin']; [injection Heq as <- <-; lia | eapply Hall; exact Hin'].
Qed.

(** [max(d, key=d.get)] on a non-empty dictionary is a key of [d] whose
    value no other value exceeds. *)
Lemma max_key_is_maximal (d : list (string * Z)) :
  d <> [] ->
  exists k v,
    BottleneckAnalyzer.max_key d = Some k
    /\ In (k, v) d
    /\ (forall k' v', In (k', v') d -> (v' <= v)%Z).
Proof.
  intro Hne. destruct d as [| [k0 v0] rest]; [congruence |].
  unfold BottleneckAnalyzer.max_key. simpl fold_left.
  destruct (max_key_fold rest (k0, v0)) as (k & v & Hrun & Hin & Hge & Hall).
  exists k, v. rewrite Hrun. split; [reflexivity |].
  split; [destruct Hin as [Hin | Hin]; [left; symmetry; exact Hin | right; exact Hin] |].
  intros k' v' [Heq | Hin']; [injection Heq as <- <-; exact Hge | eapply Hall; exact Hin'].
Qed.

(** X7.  When there are bottlenecks, the summary's [most_common_type] is a
    type that occurs among them, and no type occurs more often. *)
Theorem most_common_type_is_most_frequent
        (bottlenecks : list Bottleneck.t) (total_assemblers inefficient_assemblers : Z) :
  bottlenecks <> [] ->
  exists summary ty,
    BottleneckAnalyzer._generate_summary bottlenecks total_assemblers inefficient_assemblers
    = Ok summary
    /\ get "most_common_type" summary = Some (VStr ty)
    /\ (0 < type_count ty bottlenecks)%Z
    /\ (forall other, (type_count other bottlenecks <= type_count ty bottlenecks)%Z).
Proof.
  intro Hne.
  destruct (generate_summary_returns bottlenecks total_assemblers inefficient_assemblers)
    as [summary Hsummary].
  assert (Hd : BottleneckAnalyzer.count_by_type bottlenecks <> []).
  { destruct bottlenecks as [| b rest]; [congruence |].
    intro E.
    pose proof (count_by_type_find (b :: rest) (Bottleneck.bottleneck_type b)) as Hf.
    rewrite E in Hf. simpl assoc_find in Hf.
    pose proof (count_le_len (fun b0 => String.eqb (Bottleneck.bottleneck_type b0)
                                                   (Bottleneck.bottleneck_type b)) rest)
      as Hc.
    change (b :: rest) with ([b] ++ rest) in Hf.
    unfold type_count in Hf. rewrite count_app, count_single, String.eqb_refl in Hf.
    destruct (1 + count _ rest =? 0)%Z eqn:E0; [| discriminate].
    apply Z.eqb_eq in E0. lia. }
  destruct (max_key_is_maximal _ Hd) as (k & v & Hmax & Hin & Hall).
  assert (Hfind : forall t c,
             In (t, c) (BottleneckAnalyzer.count_by_type bottlenecks) ->
             c = type_count t bottlenecks /\ (0 < c)%Z).
  { intros t c Htc.
    apply (in_assoc_find String.eqb Seqb_spec _ _ _ (count_by_type_nodup bottlenecks))
      in Htc.
    rewrite count_by_type_find in Htc.
    destruct (type_count t bottlenecks =? 0)%Z eqn:E; [discriminate |].
    injection Htc as <-. apply Z.eqb_neq in E.
    pose proof (count_le_len (fun b => String.eqb (Bottleneck.bottleneck_type b) t)
                             bottlenecks).
    unfold type_count in *. split; [reflexivity | lia]. }
  destruct (Hfind k v Hin) as [-> Hpos].
  exists summary, k. split; [exact Hsummary |].
  split.
  { unfold BottleneckAnalyzer._generate_summary in Hsummary.
    destruct bottlenecks as [| b rest]; [congruence |].
    destruct (div _ _) as [q |]; cbn [bind] in Hsummary; [| discriminate].
    injection Hsummary as <-. rewrite Hmax. reflexivity. }
  split; [exact Hpos |].
  intro other.
  destruct (type_count other bottlenecks =? 0)%Z eqn:E.
  - apply Z.eqb_eq in E. lia.
  - assert (Hother : In (other, type_count other bottlenecks)
                        (BottleneckAnalyzer.count_by_type bottlenecks)).
    { apply (assoc_find_in String.eqb Seqb_spec). rewrite count_by_type_find, E.
      reflexivity. }
    apply (Hall _ _ Hother).
Qed.

Lemma summary_status_follows_worst_witness :
  exists summary,
    BottleneckAnalyzer._generate_summary Example.ranked_bottlenecks 4 1 = Ok summary
    /\ get "status" summary = Some (VStr "critical").
Proof.
  destruct (summary_status_follows_worst Example.ranked_bottlenecks 4 1)
    as (summary & status & Hrun & Hstatus & _ & Hcritical & _).
  - unfold descending, Example.ranked_bottlenecks.
    repeat (constructor; [| repeat constructor; discriminate]). constructor.
  - exists summary. split; [exact Hrun |]. rewrite Hstatus.
    assert (E : status = "critical"%string).
    { apply Hcritical. apply Exists_cons_hd. reflexivity. }
    rewrite E. reflexivity.
Defined.

Lemma most_common_type_is_most_frequent_witness :
  exists summary,
    BottleneckAnalyzer._generate_summary Example.ranked_bottlenecks 4 1 = Ok summary
    /\ get "most_common_type" summary = Some (VStr "low_efficiency").
Proof.
  destruct (most_common_type_is_most_frequent Example.ranked_bottlenecks 4 1)
    as (summary & ty & Hrun & Hty & _ & _).
  - discriminate.
  - exists summary. split; [exact Hrun |].
    vm_compute in Hrun. injection Hrun as <-. reflexivity.
Defined.

(* ================================================================== *)
(** * Downstream tracing, bounded name lists, unknown recipes          *)
(* ================================================================== *)

Lemma recorded_on_fields
      (db : RecipeDatabase.t) (include_downstream : bool)
      (pid : Z) (planet : PlanetState.t) (b : Bottleneck.t) :
  recorded_on db include_downstream pid planet b ->
  Bottleneck.planet_id b = pid
  /\ (1 <= Bottleneck.assembler_count b <= len (PlanetState.assemblers planet))%Z
  /\ (List.length (Bottleneck.upstream_items b) <= 5)%nat
  /\ (List.length (Bottleneck.downstream_impact b) <= 5)%nat
  /\ (include_downstream = false -> Bottleneck.downstream_impact b = [])
  /\ RecipeDatabase.get_recipe db (Bottleneck.recipe_id b) <> None.
Proof.
  intros (r & members & b0 & Hin & Hrun & ->).
  destruct (analyze_recipe_group_fields _ _ _ _ _ _ Hrun)
    as (recipe & Hrec & Hne & Hrid & _ & _ & Hcount & Hup & Hdown).
  cbn [Bottleneck.set_planet_id Bottleneck.planet_id Bottleneck.assembler_count
       Bottleneck.upstream_items Bottleneck.downstream_impact Bottleneck.recipe_id].
  split; [reflexivity |].
  split.
  { rewrite Hcount. apply group_by_recipe_in in Hin. destruct Hin as [-> _].
    pose proof (len_positive _ Hne) as Hpos.
    change 0 with (inject_Z 0) in Hpos. rewrite <- Zlt_Qlt in Hpos.
    unfold recipe_members, len in *.
    pose proof (filter_length_le
                  (fun a => (AssemblerMetrics.recipe_id a =? r)%Z)
                  (PlanetState.assemblers planet)).
    lia. }
  split; [rewrite Hup; apply firstn_le_length |].
  split; [rewrite Hdown; apply firstn_le_length |].
  split; [intros ->; rewrite Hdown; reflexivity |].
  rewrite Hrid, Hrec. discriminate.
Qed.

(** X8.  With [include_downstream = False] the report has an empty
    critical path and none of its bottlenecks lists a downstream impact. *)
Theorem no_downstream_tracing_when_disabled
        (db : RecipeDatabase.t) (factory_state : FactoryState.t)
        (planet_id : option Z) (target_item : option string) (time_window : Z) :
  exists report entries,
    BottleneckAnalyzer.analyze db factory_state planet_id target_item time_window false
    = Ok report
    /\ get "critical_path" report = Some (VList [])
    /\ get "bottlenecks" report = Some (VList entries)
    /\ Forall (fun e => get "downstream_impact" e = Some (VList [])) entries.
Proof.
  destruct (analyze_report_shape db factory_state planet_id target_item time_window false)
    as (all & summary & Hrec & _ & _ & H).
  eexists. eexists. split; [exact H |].
  split; [reflexivity |]. split; [reflexivity |].
  apply Forall_map. apply Forall_forall. intros b Hb.
  apply in_firstn in Hb. rewrite Forall_forall in Hrec.
  destruct (Hrec b Hb) as (pid & planet & _ & Hon).
  destruct (recorded_on_fields _ _ _ _ _ Hon) as (_ & _ & _ & _ & Hdown & _).
  cbn. rewrite (Hdown eq_refl). reflexivity.
Qed.

(** X9.  Every bottleneck of the report names a planet in scope, counts
    between 1 and that planet's number of assemblers, and lists at most 5
    upstream and at most 5 downstream item names. *)
Theorem listed_bottlenecks_are_bounded
        (db : RecipeDatabase.t) (factory_state : FactoryState.t)
        (planet_id : option Z) (target_item : option string)
        (time_window : Z) (include_downstream : bool) :
  exists report all,
    BottleneckAnalyzer.analyze
      db factory_state planet_id target_item time_window include_downstream
    = Ok report
    /\ get "bottlenecks" report
       = Some (VList (map BottleneckAnalyzer.bottleneck_entry (firstn 10 all)))
    /\ Forall
         (fun b =>
            (exists planet,
                In (Bottleneck.planet_id b, planet)
                   (planets_in_scope planet_id (FactoryState.planets factory_state))
                /\ (1 <= Bottleneck.assembler_count b
                    <= len (PlanetState.assemblers planet))%Z)
            /\ (List.length (Bottleneck.upstream_items b) <= 5)%nat
            /\ (List.length (Bottleneck.downstream_impact b) <= 5)%nat)
         all.
Proof.
  destruct (analyze_report_shape db factory_state planet_id target_item
                                 time_window include_downstream)
    as (all & summary & Hrec & _ & _ & H).
  eexists. exists all. split; [exact H |]. split; [reflexivity |].
  eapply Forall_impl; [| exact Hrec].
  intros b (pid & planet & Hin & Hon).
  destruct (recorded_on_fields _ _ _ _ _ Hon) as (Hpid & Hcount & Hup & Hdown & _).
  split; [| split; assumption].
  exists planet. rewrite Hpid. split; assumption.
Qed.

Lemma filter_none {A : Type} (p : A -> bool) (l : list A) :
  (forall a, In a l -> p a = false) -> filter p l = [].
Proof.
  induction l as [| x rest IH]; intro H; [reflexivity |].
  simpl. rewrite (H x (or_introl eq_refl)). apply IH.
  intros a Ha. apply H. right. exact Ha.
Qed.


(** X10.  When no assembler in scope runs a catalogued recipe, nothing is
    analysed: the report has no bottleneck and no inefficient assembler,
    its summary is "healthy" with efficiency 100.0, while [total_assemblers]
    still counts every assembler in scope. *)
Theorem uncatalogued_recipes_report_healthy
        (db : RecipeDatabase.t) (factory_state : FactoryState.t)
        (planet_id : option Z) (target_item : option string)
        (time_window : Z) (include_downstream : bool) :
  (forall a,
      In a (assemblers_in_scope planet_id (FactoryState.planets factory_state)) ->
      RecipeDatabase.get_recipe db (AssemblerMetrics.recipe_id a) = None) ->
  exists report summary,
    BottleneckAnalyzer.analyze
      db factory_state planet_id target_item time_window include_downstream
    = Ok report
    /\ get "total_assemblers" report
       = Some (VInt (len (assemblers_in_scope planet_id
                                              (FactoryState.planets factory_state))))
    /\ get "inefficient_assemblers" report = Some (VInt 0)
    /\ get "bottlenecks" report = Some (VList [])
    /\ get "summary" report = Some summary
    /\ get "status" summary = Some (VStr "healthy")
    /\ get "efficiency" summary = Some (VFloat 100).
Proof.
  intro Hunknown.
  destruct (analyze_report_shape db factory_state planet_id target_item
                                 time_window include_downstream)
    as (all & summary & Hrec & _ & Hsummary & H).
  cbv zeta in *.
  set (planets := FactoryState.planets factory_state) in *.
  assert (Hall : all = []).
  { destruct all as [| b rest]; [reflexivity |]. exfalso.
    inversion Hrec as [| ? ? (pid & planet & Hin & Hon) _]; subst.
    destruct (recorded_on_fields _ _ _ _ _ Hon) as (_ & _ & _ & _ & _ & Hknown).
    destruct Hon as (r & members & b0 & Hgroup & Hrun & ->).
    destruct (analyze_recipe_group_fields _ _ _ _ _ _ Hrun)
      as (recipe & Hrecipe & Hne & _).
    pose proof (group_members_keyed _ _ _ Hgroup) as Hkeyed.
    apply group_by_recipe_in in Hgroup. destruct Hgroup as [Hmem _].
    destruct members as [| a members]; [congruence |].
    inversion Hkeyed as [| ? ? Ha _]; subst r.
    assert (Hina : In a (assemblers_in_scope planet_id planets)).
    { unfold assemblers_in_scope. apply in_flat_map. exists (pid, planet).
      split; [exact Hin |]. simpl.
      assert (Hm : In a (recipe_members (AssemblerMetrics.recipe_id a)
                                        (PlanetState.assemblers planet)))
        by (rewrite <- Hmem; left; reflexivity).
      unfold recipe_members in Hm. apply filter_In in Hm. tauto. }
    rewrite (Hunknown a Hina) in Hrecipe. discriminate. }
  assert (Hzero : count (counted_inefficient
                           db (BottleneckAnalyzer.resolve_target db target_item))
                        (assemblers_in_scope planet_id planets) = 0%Z).
  { unfold count.
    replace (filter _ (assemblers_in_scope planet_id planets)) with
      (@nil AssemblerMetrics.t); [reflexivity |].
    symmetry. apply filter_none.
    intros a Ha. unfold counted_inefficient, group_analysed.
    rewrite (Hunknown a Ha). reflexivity. }
  rewrite Hall, Hzero in *.
  exists (VDict
            [("timestamp"%string, VStr (FactoryState.timestamp factory_state));
             ("planets_analyzed"%string, VInt (len (planets_in_scope planet_id planets)));
             ("total_assemblers"%string, VInt (len (assemblers_in_scope planet_id planets)));
             ("inefficient_assemblers"%string, VInt 0);
             ("bottlenecks_found"%string, VInt (len (@nil Bottleneck.t)));
             ("summary"%string, summary);
             ("bottlenecks"%string, VList []);
             ("critical_path"%string,
              VList (if include_downstream then [] else []))]), summary.
  split; [exact H |].
  repeat (split; [reflexivity |]).
  unfold BottleneckAnalyzer._generate_summary in Hsummary.
  destruct (len (assemblers_in_scope planet_id planets) =? 0)%Z.
  - cbn [bind] in Hsummary. injection Hsummary as <-. split; reflexivity.
  - destruct (div _ _) as [q |] eqn:Hdiv; cbn [bind] in Hsummary; [| discriminate].
    assert (Hround : round ((1 - q) * 100) 1 = 100).
    { unfold div in Hdiv. destruct (Qeq_bool _ _); [discriminate |].
      injection Hdiv as <-.
      rewrite (round_comp _ 100); [reflexivity |].
      unfold Qdiv. change (inject_Z 0) with 0. rewrite Qmult_0_l. reflexivity. }
    rewrite Hround in Hsummary.
    injection Hsummary as <-. split; reflexivity.
Qed.

Lemma uncatalogued_recipes_report_healthy_witness :
  exists report summary,
    BottleneckAnalyzer.analyze
      Example.db
      (Example.snapshot [(1%Z, Example.planet_of Example.uncatalogued_group None)])
      None None 60 true
    = Ok report
    /\ get "total_assemblers" report = Some (VInt 2)
    /\ get "inefficient_assemblers" report = Some (VInt 0)
    /\ get "bottlenecks" report = Some (VList [])
    /\ get "summary" report = Some summary
    /\ get "status" summary = Some (VStr "healthy")
    /\ get "efficiency" summary = Some (VFloat 100).
Proof.
  apply (uncatalogued_recipes_report_healthy
           Example.db
           (Example.snapshot [(1%Z, Example.planet_of Example.uncatalogued_group None)])
           None None 60 true).
  intros a Ha. vm_compute in Ha.
  destruct Ha as [<- | [<- | []]]; reflexivity.
Defined.

(* ================================================================== *)
(** * Throughput requirements                                          *)
(* ================================================================== *)

Section ThroughputFacts.

Variable db : RecipeDatabase.t.

Lemma aggregate_assembler_outcome
      (st : list (Z * Q) * list (Z * Q)) (a : AssemblerMetrics.t) :
  if divides_by_zero db a
  then LogisticsAnalyzer.aggregate_assembler db st a = Raise ZeroDivisionError
  else exists st', LogisticsAnalyzer.aggregate_assembler db st a = Ok st'.
Proof.
  unfold divides_by_zero, LogisticsAnalyzer.aggregate_assembler.
  destruct st as [production consumption].
  destruct (RecipeDatabase.get_recipe db (AssemblerMetrics.recipe_id a)) as [recipe |];
    [| eexists; reflexivity].
  destruct (Qgtb (AssemblerMetrics.production_rate a) 0 && Qgtb (Recipe.time recipe) 0);
    cbn [andb]; [| eexists; reflexivity].
  unfold fdiv.
  destruct (Qeq_bool (RecipeOutput.count (Recipe.primary_output recipe)) 0);
    [reflexivity | eexists; reflexivity].
Qed.

Lemma aggregate_all_outcome
      (assemblers : list AssemblerMetrics.t) (st : list (Z * Q) * list (Z * Q)) :
  if existsb (divides_by_zero db) assemblers
  then for_each (LogisticsAnalyzer.aggregate_assembler db) assemblers st
       = Raise ZeroDivisionError
  else exists st',
      for_each (LogisticsAnalyzer.aggregate_assembler db) assemblers st = Ok st'.
Proof.
  revert st. induction assemblers as [| a rest IH]; intro st.
  - eexists. reflexivity.
  - cbn [existsb for_each].
    pose proof (aggregate_assembler_outcome st a) as Ha.
    destruct (divides_by_zero db a); cbn [orb].
    + rewrite Ha. reflexivity.
    + destruct Ha as [st' Ha]. rewrite Ha. cbn [bind]. apply IH.
Qed.

(** The loop over the items: it stops at the first infinite total. *)
Lemma requirements_loop
      (production consumption : list (Z * Q)) (items : list Z)
      (done : list ThroughputRequirement.t) :
  for_each (fun requirements item_id =>
              r <- LogisticsAnalyzer.checked_requirement
                     db production consumption item_id ;;
              Ok (requirements ++ [r]))
           items done
  = if existsb (overflowed production consumption) items
    then Raise OverflowError
    else Ok (done ++ map (LogisticsAnalyzer.requirement_for db production consumption)
                         items).
Proof.
  revert done. induction items as [| k rest IH]; intro done.
  - simpl. rewrite app_nil_r. reflexivity.
  - cbn [for_each existsb map]. unfold LogisticsAnalyzer.checked_requirement at 1.
    fold (overflowed production consumption k).
    destruct (overflowed production consumption k); cbn [bind orb]; [reflexivity |].
    rewrite IH. destruct (existsb _ rest); [reflexivity |].
    rewrite <- app_assoc. reflexivity.
Qed.

End ThroughputFacts.

(** X11.  The exceptions of the throughput analysis, for recipes with
    whole counts.  It raises [ZeroDivisionError] exactly when some assembler
    produces (rate > 0) with a catalogued recipe of positive cycle time whose
    primary output has count 0.  Otherwise the aggregation loop ends, and the
    analysis raises [OverflowError] exactly when the float total produced or
    consumed of some item has overflowed to [inf], and returns its list of
    requirements exactly when none has. *)
Theorem throughput_requirements_faults
        (db : RecipeDatabase.t) (assemblers : list AssemblerMetrics.t) :
  forallb (whole_counts db) assemblers = true ->
  let outcome := LogisticsAnalyzer._calculate_throughput_requirements db assemblers in
  (existsb (divides_by_zero db) assemblers = true <-> outcome = Raise ZeroDivisionError)
  /\ (existsb (divides_by_zero db) assemblers = false ->
      exists production consumption,
        for_each (LogisticsAnalyzer.aggregate_assembler db) assemblers ([], [])
        = Ok (production, consumption)
        /\ (existsb (overflowed production consumption)
                    (LogisticsAnalyzer.all_items production consumption) = true
            <-> outcome = Raise OverflowError)
        /\ (existsb (overflowed production consumption)
                    (LogisticsAnalyzer.all_items production consumption) = false
            <-> exists requirements, outcome = Ok requirements)).
Proof.
  intros _ outcome. unfold outcome.
  pose proof (aggregate_all_outcome db assemblers ([], [])) as H.
  unfold LogisticsAnalyzer._calculate_throughput_requirements.
  destruct (existsb (divides_by_zero db) assemblers).
  - rewrite H. cbn [bind]. split; [split; reflexivity | discriminate].
  - destruct H as [[production consumption] H]. rewrite H. cbn [bind].
    rewrite requirements_loop.
    split.
    + split; [discriminate |].
      destruct (existsb _ (LogisticsAnalyzer.all_items production consumption));
        discriminate.
    + intros _. exists production, consumption. split; [reflexivity |].
      destruct (existsb _ (LogisticsAnalyzer.all_items production consumption)).
      * split; split; try reflexivity; try discriminate.
        intros [requirements C]. discriminate C.
      * split; split; try reflexivity; try discriminate.
        intros _. eexists. reflexivity.
Qed.

(** Two smelters producing [2.0 ** 1023] items a minute each: the total
    is [inf] and the belt count cannot be computed. *)
Lemma throughput_requirements_faults_witness :
  LogisticsAnalyzer._calculate_throughput_requirements
    Example.db
    [Example.smelter Example.rate_2_1023 60 false false;
     Example.smelter Example.rate_2_1023 60 false false]
  = Raise OverflowError.
Proof.
  destruct (throughput_requirements_faults
              Example.db
              [Example.smelter Example.rate_2_1023 60 false false;
               Example.smelter Example.rate_2_1023 60 false false] eq_refl)
    as [_ H].
  destruct (H eq_refl) as (production & consumption & Hrun & Hover & _).
  apply Hover.
  vm_compute in Hrun. injection Hrun as <- <-. vm_compute. reflexivity.
Defined.


Lemma requirement_rates
      (db : RecipeDatabase.t)
      (production_by_item consumption_by_item : list (Z * Q)) (item_id : Z) :
  let r := LogisticsAnalyzer.requirement_for
             db production_by_item consumption_by_item item_id in
  ThroughputRequirement.item_id r = item_id
  /\ ThroughputRequirement.production_rate r
     = LogisticsAnalyzer.rate_of production_by_item item_id
  /\ ThroughputRequirement.consumption_rate r
     = LogisticsAnalyzer.rate_of consumption_by_item item_id
  /\ ThroughputRequirement.net_rate r
     = ThroughputRequirement.production_rate r - ThroughputRequirement.consumption_rate r.
Proof.
  unfold LogisticsAnalyzer.requirement_for.
  repeat match goal with
         | |- context [if ?c then (_, _) else _] => destruct c
         end;
    repeat split; reflexivity.
Qed.


Section AggregationFacts.

Variable db : RecipeDatabase.t.

Lemma add_rate_keys (d : list (Z * Q)) (k : Z) (x : Q) (k' : Z) :
  In k' (map fst (LogisticsAnalyzer.add_rate d k x)) <-> In k' (map fst d) \/ k' = k.
Proof.
  unfold LogisticsAnalyzer.add_rate. rewrite (assoc_set_keys Z.eqb Zeqb_spec).
  destruct (assoc_find Z.eqb k d) as [v |] eqn:E.
  - split; [auto |]. intros [H | ->]; [exact H |].
    apply (assoc_find_in Z.eqb Zeqb_spec) in E. apply (in_map fst) in E. exact E.
  - rewrite in_app_iff. simpl. split; intros [H | H]; auto.
    + destruct H as [<- | []]. right. reflexivity.
Qed.

Lemma add_rate_nodup (d : list (Z * Q)) (k : Z) (x : Q) :
  NoDup (map fst d) -> NoDup (map fst (LogisticsAnalyzer.add_rate d k x)).
Proof.
  apply (assoc_set_nodup Z.eqb Zeqb_spec).
Qed.

(** Adding a rate for each of a list of entries. *)
Lemma add_rates_keys {Y : Type} (key : Y -> Z) (amount : Y -> Q)
      (ys : list Y) (d : list (Z * Q)) :
  let d' := fold_left (fun d y => LogisticsAnalyzer.add_rate d (key y) (amount y)) ys d in
  (NoDup (map fst d) -> NoDup (map fst d'))
  /\ (forall k, In k (map fst d') <-> In k (map fst d) \/ exists y, In y ys /\ key y = k).
Proof.
  revert d. induction ys as [| y rest IH]; intro d; cbn [fold_left].
  - split; [auto |]. intro k. split; [auto |]. intros [H | (y & [] & _)]. exact H.
  - destruct (IH (LogisticsAnalyzer.add_rate d (key y) (amount y))) as [Hnd Hkeys].
    split.
    + intro H. apply Hnd. apply add_rate_nodup. exact H.
    + intro k. rewrite Hkeys, add_rate_keys. split.
      * intros [[H | ->] | (y' & Hin & Hk)].
        -- left. exact H.
        -- right. exists y. split; [left; reflexivity | reflexivity].
        -- right. exists y'. split; [right; exact Hin | exact Hk].
      * intros [H | (y' & [<- | Hin] & Hk)].
        -- left. left. exact H.
        -- left. right. symmetry. exact Hk.
        -- right. exists y'. split; assumption.
Qed.

Lemma aggregate_assembler_keys
      (p c p' c' : list (Z * Q)) (a : AssemblerMetrics.t) :
  LogisticsAnalyzer.aggregate_assembler db (p, c) a = Ok (p', c') ->
  (NoDup (map fst p) -> NoDup (map fst p'))
  /\ (NoDup (map fst c) -> NoDup (map fst c'))
  /\ (forall k, In k (map fst p') <-> In k (map fst p) \/ produced_by db [a] k)
  /\ (forall k, In k (map fst c') <-> In k (map fst c) \/ consumed_by db [a] k).
Proof.
  unfold LogisticsAnalyzer.aggregate_assembler.
  destruct (RecipeDatabase.get_recipe db (AssemblerMetrics.recipe_id a))
    as [recipe |] eqn:Hrec.
  - pose proof (add_rates_keys RecipeOutput.item_id
                               (fun _ => AssemblerMetrics.production_rate a)
                               (Recipe.outputs recipe) p) as [Hpn Hpk].
    assert (Hprod : forall k,
               (exists y, In y (Recipe.outputs recipe) /\ RecipeOutput.item_id y = k)
               <-> produced_by db [a] k).
    { intro k. split.
      - intros (y & Hy & Hk). exists a, recipe, y. simpl. auto.
      - intros (a' & r' & y & [<- | []] & Hr & Hy & Hk).
        rewrite Hrec in Hr. injection Hr as <-. exists y. auto. }
    destruct (Qgtb (AssemblerMetrics.production_rate a) 0) eqn:E1;
      [destruct (Qgtb (Recipe.time recipe) 0) eqn:E2 |]; cbn [andb].
    + destruct (fdiv _ _) as [cycles |]; cbn [bind]; [| discriminate].
      intros [= <- <-].
      pose proof (add_rates_keys RecipeInput.item_id
                                 (fun inp => fmul cycles (RecipeInput.count inp))
                                 (Recipe.inputs recipe) c) as [Hcn Hck].
      split; [exact Hpn |]. split; [exact Hcn |].
      split; [intro k; rewrite Hpk, Hprod; reflexivity |].
      intro k. rewrite Hck. apply Qgtb_true in E1. apply Qgtb_true in E2.
      split; (intros [H | H]; [left; exact H | right]).
      * destruct H as (y & Hy & Hk). exists a, recipe, y. simpl. auto 10.
      * destruct H as (a' & r' & y & [<- | []] & Hr & _ & _ & Hy & Hk).
        rewrite Hrec in Hr. injection Hr as <-. exists y. auto.
    + intros [= <- <-]. split; [exact Hpn |]. split; [auto |].
      split; [intro k; rewrite Hpk, Hprod; reflexivity |].
      intro k. split; [auto |]. intros [H | H]; [exact H |]. exfalso.
      destruct H as (a' & r' & y & [<- | []] & Hr & _ & Ht & _).
      rewrite Hrec in Hr. injection Hr as <-.
      apply Qgtb_false in E2. apply (Qlt_irrefl 0). eapply Qlt_le_trans; eassumption.
    + intros [= <- <-]. split; [exact Hpn |]. split; [auto |].
      split; [intro k; rewrite Hpk, Hprod; reflexivity |].
      intro k. split; [auto |]. intros [H | H]; [exact H |]. exfalso.
      destruct H as (a' & r' & y & [<- | []] & _ & Hp & _).
      apply Qgtb_false in E1. apply (Qlt_irrefl 0). eapply Qlt_le_trans; eassumption.
  - intros [= <- <-]. split; [auto |]. split; [auto |].
    split; intro k; (split; [auto |]); (intros [H | H]; [exact H |]); exfalso.
    + destruct H as (a' & r' & y & [<- | []] & Hr & _). rewrite Hrec in Hr. discriminate.
    + destruct H as (a' & r' & y & [<- | []] & Hr & _). rewrite Hrec in Hr. discriminate.
Qed.

Lemma produced_by_cons (a : AssemblerMetrics.t) (rest : list AssemblerMetrics.t) (k : Z) :
  produced_by db (a :: rest) k <-> produced_by db [a] k \/ produced_by db rest k.
Proof.
  split.
  - intros (a' & r & y & [<- | Hin] & H).
    + left. exists a, r, y. split; [left; reflexivity | exact H].
    + right. exists a', r, y. split; assumption.
  - intros [(a' & r & y & [<- | []] & H) | (a' & r & y & Hin & H)].
    + exists a, r, y. split; [left; reflexivity | exact H].
    + exists a', r, y. split; [right; exact Hin | exact H].
Qed.

Lemma consumed_by_cons (a : AssemblerMetrics.t) (rest : list AssemblerMetrics.t) (k : Z) :
  consumed_by db (a :: rest) k <-> consumed_by db [a] k \/ consumed_by db rest k.
Proof.
  split.
  - intros (a' & r & y & [<- | Hin] & H).
    + left. exists a, r, y. split; [left; reflexivity | exact H].
    + right. exists a', r, y. split; assumption.
  - intros [(a' & r & y & [<- | []] & H) | (a' & r & y & Hin & H)].
    + exists a, r, y. split; [left; reflexivity | exact H].
    + exists a', r, y. split; [right; exact Hin | exact H].
Qed.

Lemma aggregate_all_keys
      (assemblers : list AssemblerMetrics.t) (p c p' c' : list (Z * Q)) :
  for_each (LogisticsAnalyzer.aggregate_assembler db) assemblers (p, c) = Ok (p', c') ->
  (NoDup (map fst p) -> NoDup (map fst p'))
  /\ (NoDup (map fst c) -> NoDup (map fst c'))
  /\ (forall k, In k (map fst p') <-> In k (map fst p) \/ produced_by db assemblers k)
  /\ (forall k, In k (map fst c') <-> In k (map fst c) \/ consumed_by db assemblers k).
Proof.
  revert p c. induction assemblers as [| a rest IH]; intros p c; cbn [for_each].
  - intros [= <- <-]. split; [auto |]. split; [auto |].
    split; intro k; (split; [auto |]); (intros [H | H]; [exact H |]);
      destruct H as (a & r & y & [] & _).
  - destruct (LogisticsAnalyzer.aggregate_assembler db (p, c) a) as [[p1 c1] |] eqn:Hstep;
      cbn [bind]; [| discriminate].
    intro Hrest.
    destruct (aggregate_assembler_keys _ _ _ _ _ Hstep) as (Hp1 & Hc1 & Hpk1 & Hck1).
    destruct (IH _ _ Hrest) as (Hp2 & Hc2 & Hpk2 & Hck2).
    split; [auto |]. split; [auto |].
    split; intro k.
    + rewrite Hpk2, Hpk1, (produced_by_cons a rest k). tauto.
    + rewrite Hck2, Hck1, (consumed_by_cons a rest k). tauto.
Qed.

Lemma all_items_spec (p c : list (Z * Q)) :
  (NoDup (map fst p) -> NoDup (map fst c) -> NoDup (LogisticsAnalyzer.all_items p c))
  /\ (forall k, In k (LogisticsAnalyzer.all_items p c)
                <-> In k (map fst p) \/ In k (map fst c)).
Proof.
  unfold LogisticsAnalyzer.all_items.
  assert (Hfilter : forall k,
             In k (filter (fun k => match assoc_find Z.eqb k p with
                                    | Some _ => false
                                    | None => true
                                    end) (map fst c))
             <-> In k (map fst c) /\ ~ In k (map fst p)).
  { intro k. rewrite filter_In.
    rewrite <- (assoc_find_none_not_in Z.eqb Zeqb_spec).
    destruct (assoc_find Z.eqb k p); split; intros [H1 H2]; split; auto; discriminate. }
  split.
  - intros Hp Hc. apply NoDup_app; [exact Hp | apply NoDup_filter; exact Hc |].
    intros k Hk Hk'. apply Hfilter in Hk'. tauto.
  - intro k. rewrite in_app_iff, Hfilter.
    destruct (in_dec Z.eq_dec k (map fst p)); tauto.
Qed.

End AggregationFacts.

(** X13.  The throughput analysis returns exactly one requirement per
    item touched: an item has a requirement if and only if it is an output
    of the catalogued recipe of some assembler, or an input of the catalogued
    recipe (of positive cycle time) of some assembler that produces; and no
    item has two. *)
Theorem one_requirement_per_touched_item
        (db : RecipeDatabase.t) (assemblers : list AssemblerMetrics.t)
        (requirements : list ThroughputRequirement.t) :
  LogisticsAnalyzer._calculate_throughput_requirements db assemblers = Ok requirements ->
  NoDup (map ThroughputRequirement.item_id requirements)
  /\ (forall k,
         In k (map ThroughputRequirement.item_id requirements)
         <-> produced_by db assemblers k \/ consumed_by db assemblers k).
Proof.
  unfold LogisticsAnalyzer._calculate_throughput_requirements.
  destruct (for_each (LogisticsAnalyzer.aggregate_assembler db) assemblers ([], []))
    as [[p c] |] eqn:Hrun; cbn [bind]; [| discriminate].
  rewrite requirements_loop.
  destruct (existsb (overflowed p c) (LogisticsAnalyzer.all_items p c));
    [discriminate |].
  cbn [app]. intros [= <-].
  destruct (aggregate_all_keys db _ _ _ _ _ Hrun) as (Hp & Hc & Hpk & Hck).
  destruct (all_items_spec p c) as [Hnd Hin].
  assert (Hids : map ThroughputRequirement.item_id
                     (map (LogisticsAnalyzer.requirement_for db p c)
                          (LogisticsAnalyzer.all_items p c))
                 = LogisticsAnalyzer.all_items p c).
  { rewrite map_map. rewrite <- (map_id (LogisticsAnalyzer.all_items p c)) at 2.
    apply map_ext. intro k. apply requirement_rates. }
  rewrite Hids. split.
  - apply Hnd; [apply Hp | apply Hc]; constructor.
  - intro k. rewrite Hin, Hpk, Hck. simpl. tauto.
Qed.

Lemma one_requirement_per_touched_item_witness :
  exists requirements,
    LogisticsAnalyzer._calculate_throughput_requirements
      Example.db Example.two_of_four_starved = Ok requirements
    /\ NoDup (map ThroughputRequirement.item_id requirements)
    /\ In Example.iron_ore (map ThroughputRequirement.item_id requirements).
Proof.
  eexists. split; [vm_compute; reflexivity |].
  match goal with
  | |- NoDup (map _ ?reqs) /\ _ =>
      destruct (one_requirement_per_touched_item
                  Example.db Example.two_of_four_starved reqs eq_refl) as [Hnd Hin]
  end.
  split; [exact Hnd |].
  apply Hin. right.
  exists (Example.smelter 60 60 false false), Example.smelt_iron,
    (RecipeInput.mk Example.iron_ore 1 (Some "Iron Ore"%string)).
  split; [left; reflexivity |].
  split; [reflexivity |].
  split; [reflexivity |].
  split; [reflexivity |].
  split; [left; reflexivity | reflexivity].
Defined.

(* ================================================================== *)
(** * The logistics report                                             *)
(* ================================================================== *)

Section BeltReportFacts.

Variable db : RecipeDatabase.t.
Variable parse_int : string -> option Z.

Lemma analyze_belt_step
      (pid : Z) (item_filter : option (list string)) (threshold : Q)
      (belt : BeltMetrics.t) (sat near : list LogisticsAnalyzer.belt_data) :
  LogisticsAnalyzer.analyze_belt db parse_int pid item_filter threshold (sat, near) belt
  = (sat ++ (if passes_filter db parse_int item_filter belt && is_saturated threshold belt
             then [flagged_belt db parse_int "saturated" true (pid, belt)]
             else []),
     near ++ (if passes_filter db parse_int item_filter belt
                 && is_near_saturation threshold belt
              then [flagged_belt db parse_int "near_saturation" false (pid, belt)]
              else [])).
Proof.
  unfold LogisticsAnalyzer.analyze_belt, passes_filter, is_saturated, is_near_saturation.
  destruct (Qgeb (BeltMetrics.saturation_percent belt) threshold);
    destruct (Qgeb (BeltMetrics.saturation_percent belt) (threshold - 10));
    destruct item_filter as [[| f fs] |];
    try (rewrite <- negb_orb;
         destruct (LogisticsAnalyzer.str_in
                     (LogisticsAnalyzer.item_display db parse_int belt) (f :: fs)
                   || LogisticsAnalyzer.str_in (BeltMetrics.item_type belt) (f :: fs)));
    cbn [negb andb]; rewrite ?app_nil_r; reflexivity.
Qed.

Lemma analyze_belts_fold
      (pid : Z) (item_filter : option (list string)) (threshold : Q)
      (belts : list BeltMetrics.t) (sat near : list LogisticsAnalyzer.belt_data) :
  fold_left (LogisticsAnalyzer.analyze_belt db parse_int pid item_filter threshold)
            belts (sat, near)
  = (sat ++ map (flagged_belt db parse_int "saturated" true)
                (filter (fun pb => passes_filter db parse_int item_filter (snd pb)
                                   && is_saturated threshold (snd pb))
                        (map (pair pid) belts)),
     near ++ map (flagged_belt db parse_int "near_saturation" false)
                 (filter (fun pb => passes_filter db parse_int item_filter (snd pb)
                                    && is_near_saturation threshold (snd pb))
                         (map (pair pid) belts))).
Proof.
  revert sat near. induction belts as [| belt rest IH]; intros sat near.
  - simpl. rewrite !app_nil_r. reflexivity.
  - cbn [fold_left map filter snd]. rewrite analyze_belt_step, IH.
    destruct (passes_filter db parse_int item_filter belt && is_saturated threshold belt);
      destruct (passes_filter db parse_int item_filter belt
                && is_near_saturation threshold belt);
      cbn [map]; rewrite <- ?app_assoc, ?app_nil_r; reflexivity.
Qed.

Lemma belts_in_scope_cons (planet_id : option Z) (pid : Z) (planet : PlanetState.t)
      (rest : list (Z * PlanetState.t)) :
  belts_in_scope planet_id ((pid, planet) :: rest)
  = if match planet_id with
       | Some wanted => negb (pid =? wanted)%Z
       | None => false
       end
    then belts_in_scope planet_id rest
    else map (pair pid) (PlanetState.belts planet) ++ belts_in_scope planet_id rest.
Proof.
  unfold belts_in_scope. rewrite planets_in_scope_cons.
  destruct (match planet_id with Some _ => _ | None => _ end); reflexivity.
Qed.

Lemma analyze_planets_fold
      (planet_id : option Z) (item_filter : option (list string)) (threshold : Q)
      (planets : list (Z * PlanetState.t)) (st : LogisticsAnalyzer.tally) :
  fold_left (LogisticsAnalyzer.analyze_planet db parse_int planet_id item_filter threshold)
            planets st
  = LogisticsAnalyzer.mk_tally
      (LogisticsAnalyzer.saturated_belts st
         ++ map (flagged_belt db parse_int "saturated" true)
                (filter (fun pb => passes_filter db parse_int item_filter (snd pb)
                                   && is_saturated threshold (snd pb))
                        (belts_in_scope planet_id planets)))
      (LogisticsAnalyzer.near_saturation st
         ++ map (flagged_belt db parse_int "near_saturation" false)
                (filter (fun pb => passes_filter db parse_int item_filter (snd pb)
                                   && is_near_saturation threshold (snd pb))
                        (belts_in_scope planet_id planets)))
      (LogisticsAnalyzer.all_assemblers st ++ assemblers_in_scope planet_id planets).
Proof.
  revert st. induction planets as [| [pid planet] rest IH]; intro st.
  - simpl. unfold belts_in_scope, assemblers_in_scope. simpl. rewrite !app_nil_r.
    destruct st. reflexivity.
  - cbn [fold_left]. rewrite IH. clear IH.
    unfold LogisticsAnalyzer.analyze_planet.
    rewrite belts_in_scope_cons, assemblers_in_scope_cons.
    destruct (match planet_id with Some _ => _ | None => _ end); [reflexivity |].
    rewrite analyze_belts_fold.
    cbn [LogisticsAnalyzer.saturated_belts LogisticsAnalyzer.near_saturation
         LogisticsAnalyzer.all_assemblers fst snd].
    rewrite !filter_app, !map_app, <- !app_assoc. reflexivity.
Qed.

End BeltReportFacts.

Section LogisticsReport.

Variable db : RecipeDatabase.t.
Variable parse_int : string -> option Z.

Lemma logistics_report_shape
      (factory_state : FactoryState.t) (planet_id : option Z)
      (item_filter : option (list string)) (threshold : Q) (include : bool) :
  let planets := FactoryState.planets factory_state in
  let sat := saturated_listing db parse_int planet_id item_filter threshold planets in
  let near := near_listing db parse_int planet_id item_filter threshold planets in
  let base :=
    [("timestamp"%string, VStr (FactoryState.timestamp factory_state));
     ("threshold"%string, VFloat threshold);
     ("summary"%string,
      VDict [("saturated_count"%string, VInt (len sat));
             ("near_saturation_count"%string, VInt (len near))]);
     ("saturated_belts"%string,
      VList (map LogisticsAnalyzer.belt_entry (firstn 20 sat)));
     ("near_saturation"%string,
      VList (map LogisticsAnalyzer.belt_entry (firstn 10 near)));
     ("recommendations"%string,
      VList (map VStr (LogisticsAnalyzer._global_recommendations sat)))] in
  LogisticsAnalyzer.analyze db parse_int factory_state planet_id item_filter threshold include
  = if include
    then
      match LogisticsAnalyzer._calculate_throughput_requirements
              db (assemblers_in_scope planet_id planets) with
      | Raise e => Raise e
      | Ok [] => Ok (VDict base)
      | Ok (r :: rs) =>
          Ok (VDict
                (base
                   ++ [("throughput_requirements"%string,
                        VList (map LogisticsAnalyzer.requirement_entry
                                   (firstn 15
                                      (sort_desc
                                         (fun x => Qabs (ThroughputRequirement.net_rate x))
                                         (r :: rs)))))]))
      end
    else Ok (VDict base).
Proof.
  intros planets sat near base.
  unfold LogisticsAnalyzer.analyze. fold planets.
  rewrite analyze_planets_fold.
  cbn [LogisticsAnalyzer.saturated_belts LogisticsAnalyzer.near_saturation
       LogisticsAnalyzer.all_assemblers app].
  fold (saturated_listing db parse_int planet_id item_filter threshold planets).
  fold (near_listing db parse_int planet_id item_filter threshold planets).
  fold sat. fold near. fold base.
  destruct include; [| reflexivity].
  destruct (LogisticsAnalyzer._calculate_throughput_requirements
              db (assemblers_in_scope planet_id planets)) as [[| r rs] | e];
    reflexivity.
Qed.

Lemma flagged_count (status : string) (with_rec : bool)
      (p : Z * BeltMetrics.t -> bool) (belts : list (Z * BeltMetrics.t)) :
  len (sort_desc LogisticsAnalyzer.bd_saturation
                 (map (flagged_belt db parse_int status with_rec) (filter p belts)))
  = count p belts.
Proof.
  unfold len, count. rewrite sort_desc_length, length_map. reflexivity.
Qed.

(** Whenever the logistics analysis returns, its report starts with the
    six fixed sections. *)
Lemma logistics_report_sections
      (factory_state : FactoryState.t) (planet_id : option Z)
      (item_filter : option (list string)) (threshold : Q) (include : bool)
      (report : value) :
  LogisticsAnalyzer.analyze db parse_int factory_state planet_id item_filter threshold include
  = Ok report ->
  let planets := FactoryState.planets factory_state in
  let sat := saturated_listing db parse_int planet_id item_filter threshold planets in
  let near := near_listing db parse_int planet_id item_filter threshold planets in
  get "summary" report
  = Some (VDict [("saturated_count"%string, VInt (len sat));
                 ("near_saturation_count"%string, VInt (len near))])
  /\ get "saturated_belts" report
     = Some (VList (map LogisticsAnalyzer.belt_entry (firstn 20 sat)))
  /\ get "near_saturation" report
     = Some (VList (map LogisticsAnalyzer.belt_entry (firstn 10 near)))
  /\ get "recommendations" report
     = Some (VList (map VStr (LogisticsAnalyzer._global_recommendations sat))).
Proof.
  rewrite logistics_report_shape. cbv zeta.
  destruct include.
  - destruct (LogisticsAnalyzer._calculate_throughput_requirements _ _)
      as [[| r rs] | e]; [| | discriminate];
      intros [= <-]; repeat split; reflexivity.
  - intros [= <-]. repeat split; reflexivity.
Qed.

End LogisticsReport.

(** X14.  Whenever the logistics analysis returns, its summary counts
    every belt in scope that passes the item filter: [saturated_count] those
    whose saturation is at least the threshold, [near_saturation_count] those
    below the threshold by at most 10 points.  No belt counts in both. *)
Theorem belt_counts_are_exact
        (db : RecipeDatabase.t) (parse_int : string -> option Z)
        (factory_state : FactoryState.t) (planet_id : option Z)
        (item_filter : option (list string)) (threshold : Q) (include : bool)
        (report : value) :
  LogisticsAnalyzer.analyze db parse_int factory_state planet_id item_filter threshold include
  = Ok report ->
  let belts := belts_in_scope planet_id (FactoryState.planets factory_state) in
  exists summary,
    get "summary" report = Some summary
    /\ get "saturated_count" summary
       = Some (VInt (count (fun pb => passes_filter db parse_int item_filter (snd pb)
                                      && is_saturated threshold (snd pb)) belts))
    /\ get "near_saturation_count" summary
       = Some (VInt (count (fun pb => passes_filter db parse_int item_filter (snd pb)
                                      && is_near_saturation threshold (snd pb)) belts))
    /\ (forall belt, is_saturated threshold belt
                     && is_near_saturation threshold belt = false).
Proof.
  intros Hrun belts.
  destruct (logistics_report_sections db parse_int _ _ _ _ _ _ Hrun) as (Hsummary & _).
  cbv zeta in Hsummary. unfold saturated_listing, near_listing in Hsummary.
  rewrite !flagged_count in Hsummary.
  eexists. split; [exact Hsummary |].
  split; [reflexivity |]. split; [reflexivity |].
  intro belt. unfold is_saturated, is_near_saturation.
  destruct (Qgeb (BeltMetrics.saturation_percent belt) threshold); reflexivity.
Qed.

Lemma upgrade_recommendation_cases (belt : BeltMetrics.t) :
  In (LogisticsAnalyzer._upgrade_recommendation belt)
     ["Upgrade to Mk2 (green) belt for 2x throughput"%string;
      "Upgrade to Mk3 (yellow) belt for 2.5x throughput"%string;
      "At max tier - consider parallel belt lines"%string].
Proof.
  unfold LogisticsAnalyzer._upgrade_recommendation, LogisticsAnalyzer._detect_tier.
  destruct (Qleb (BeltMetrics.max_throughput belt) 6);
    [| destruct (Qleb (BeltMetrics.max_throughput belt) 12)]; simpl; auto.
Qed.

(** X15.  Whenever the logistics analysis returns, the report shows the 20
    most saturated of the saturated belts and the 10 most saturated of the
    nearly saturated ones, most saturated first (by the saturation rounded to
    one decimal).  A saturated belt has status "saturated" and one of the
    three upgrade recommendations; a nearly saturated one has status
    "near_saturation" and no recommendation. *)
Theorem flagged_belts_capped_and_ordered
        (db : RecipeDatabase.t) (parse_int : string -> option Z)
        (factory_state : FactoryState.t) (planet_id : option Z)
        (item_filter : option (list string)) (threshold : Q) (include : bool)
        (report : value) :
  LogisticsAnalyzer.analyze db parse_int factory_state planet_id item_filter threshold include
  = Ok report ->
  let planets := FactoryState.planets factory_state in
  let sat := saturated_listing db parse_int planet_id item_filter threshold planets in
  let near := near_listing db parse_int planet_id item_filter threshold planets in
  get "saturated_belts" report
  = Some (VList (map LogisticsAnalyzer.belt_entry (firstn 20 sat)))
  /\ get "near_saturation" report
     = Some (VList (map LogisticsAnalyzer.belt_entry (firstn 10 near)))
  /\ (List.length (firstn 20 sat) <= 20)%nat
  /\ (List.length (firstn 10 near) <= 10)%nat
  /\ descending LogisticsAnalyzer.bd_saturation sat
  /\ descending LogisticsAnalyzer.bd_saturation near
  /\ Forall (fun b =>
               LogisticsAnalyzer.bd_status b = Some "saturated"%string
               /\ exists r,
                   LogisticsAnalyzer.bd_recommendation b = Some r
                   /\ In r ["Upgrade to Mk2 (green) belt for 2x throughput"%string;
                            "Upgrade to Mk3 (yellow) belt for 2.5x throughput"%string;
                            "At max tier - consider parallel belt lines"%string])
            sat
  /\ Forall (fun b =>
               LogisticsAnalyzer.bd_status b = Some "near_saturation"%string
               /\ LogisticsAnalyzer.bd_recommendation b = None)
            near.
Proof.
  intros Hrun planets sat near.
  destruct (logistics_report_sections db parse_int _ _ _ _ _ _ Hrun)
    as (_ & Hsat & Hnear & _).
  split; [exact Hsat |]. split; [exact Hnear |].
  split; [apply firstn_le_length |]. split; [apply firstn_le_length |].
  split; [apply sort_desc_sorted |]. split; [apply sort_desc_sorted |].
  split.
  - eapply Permutation_Forall; [apply Permutation_sym; apply sort_desc_perm |].
    apply Forall_map. apply Forall_forall. intros [pid belt] _. cbn.
    split; [reflexivity |]. eexists. split; [reflexivity |].
    apply upgrade_recommendation_cases.
  - eapply Permutation_Forall; [apply Permutation_sym; apply sort_desc_perm |].
    apply Forall_map. apply Forall_forall. intros [pid belt] _. cbn.
    split; reflexivity.
Qed.

(** X16.  The logistics analysis can only fail in its throughput section:
    without it the analysis always returns; with it, and for recipes with
    whole counts, the analysis raises exactly the exception the throughput
    analysis of the assemblers in scope raises, and returns exactly when that
    analysis returns.  So it raises [ZeroDivisionError] exactly when an
    assembler in scope divides by a zero primary-output count, and otherwise
    [OverflowError] exactly when a total of the aggregation over those
    assemblers is [inf]. *)
Theorem logistics_analysis_fails_with_throughput
        (db : RecipeDatabase.t) (parse_int : string -> option Z)
        (factory_state : FactoryState.t) (planet_id : option Z)
        (item_filter : option (list string)) (threshold : Q) :
  let assemblers := assemblers_in_scope planet_id (FactoryState.planets factory_state) in
  let throughput := LogisticsAnalyzer._calculate_throughput_requirements db assemblers in
  let outcome :=
    LogisticsAnalyzer.analyze db parse_int factory_state planet_id item_filter threshold
                              true in
  forallb (whole_counts db) assemblers = true ->
  (exists report,
      LogisticsAnalyzer.analyze
        db parse_int factory_state planet_id item_filter threshold false = Ok report)
  /\ (forall e, outcome = Raise e <-> throughput = Raise e)
  /\ ((exists report, outcome = Ok report) <-> exists requirements, throughput = Ok requirements)
  /\ (existsb (divides_by_zero db) assemblers = true <-> outcome = Raise ZeroDivisionError)
  /\ (existsb (divides_by_zero db) assemblers = false ->
      exists production consumption,
        for_each (LogisticsAnalyzer.aggregate_assembler db) assemblers ([], [])
        = Ok (production, consumption)
        /\ (existsb (overflowed production consumption)
                    (LogisticsAnalyzer.all_items production consumption) = true
            <-> outcome = Raise OverflowError)).
Proof.
  intros assemblers throughput outcome _.
  split; [rewrite logistics_report_shape; eexists; reflexivity |].
  assert (Hshape : (forall e, outcome = Raise e <-> throughput = Raise e)
                   /\ ((exists report, outcome = Ok report)
                       <-> exists requirements, throughput = Ok requirements)).
  { unfold outcome. rewrite logistics_report_shape. cbv zeta.
    fold assemblers. fold throughput.
    destruct throughput as [[| r rs] | e'].
    - split.
      + intro e. split; discriminate.
      + split; intros _; eexists; reflexivity.
    - split.
      + intro e. split; discriminate.
      + split; intros _; eexists; reflexivity.
    - split.
      + intro e. split; intros [= ->]; reflexivity.
      + split; intros [x C]; discriminate C. }
  destruct Hshape as [Hraise Hok].
  split; [exact Hraise |]. split; [exact Hok |].
  pose proof (aggregate_all_outcome db assemblers ([], [])) as H.
  split.
  - rewrite Hraise. unfold throughput,
      LogisticsAnalyzer._calculate_throughput_requirements.
    destruct (existsb (divides_by_zero db) assemblers).
    + rewrite H. cbn [bind]. split; reflexivity.
    + destruct H as [[p c] H]. rewrite H. cbn [bind]. rewrite requirements_loop.
      split; [discriminate |].
      destruct (existsb _ (LogisticsAnalyzer.all_items p c)); discriminate.
  - intro Hzero. rewrite Hzero in H. destruct H as [[p c] H].
    exists p, c. split; [exact H |].
    rewrite Hraise. unfold throughput,
      LogisticsAnalyzer._calculate_throughput_requirements.
    rewrite H. cbn [bind]. rewrite requirements_loop.
    destruct (existsb _ (LogisticsAnalyzer.all_items p c));
      split; try reflexivity; discriminate.
Qed.

(** A planet whose two smelters produce [2.0 ** 1023] items a minute each:
    the report is built without the throughput section and lost with it. *)
Lemma logistics_analysis_fails_with_throughput_witness :
  (exists report,
      LogisticsAnalyzer.analyze
        Example.db Example.parse_decimal
        (Example.snapshot
           [(1%Z, Example.planet_of
                    [Example.smelter Example.rate_2_1023 60 false false;
                     Example.smelter Example.rate_2_1023 60 false false] None)])
        None None 95 false = Ok report)
  /\ LogisticsAnalyzer.analyze
       Example.db Example.parse_decimal
       (Example.snapshot
          [(1%Z, Example.planet_of
                   [Example.smelter Example.rate_2_1023 60 false false;
                    Example.smelter Example.rate_2_1023 60 false false] None)])
       None None 95 true = Raise OverflowError.
Proof.
  destruct (logistics_analysis_fails_with_throughput
              Example.db Example.parse_decimal
              (Example.snapshot
                 [(1%Z, Example.planet_of
                          [Example.smelter Example.rate_2_1023 60 false false;
                           Example.smelter Example.rate_2_1023 60 false false] None)])
              None None 95 eq_refl)
    as (Hplain & _ & _ & _ & H).
  split; [exact Hplain |].
  destruct (H eq_refl) as (production & consumption & Hrun & Hover).
  apply Hover.
  vm_compute in Hrun. injection Hrun as <- <-. vm_compute. reflexivity.
Defined.

Lemma count_items_snoc (bs : list LogisticsAnalyzer.belt_data)
      (b : LogisticsAnalyzer.belt_data) :
  LogisticsAnalyzer.count_items (bs ++ [b])
  = let item_counts := LogisticsAnalyzer.count_items bs in
    let item := LogisticsAnalyzer.bd_item b in
    assoc_set String.eqb item
              (match assoc_find String.eqb item item_counts with
               | Some n => n
               | None => 0
               end + 1)%Z
              item_counts.
Proof.
  unfold LogisticsAnalyzer.count_items. rewrite fold_left_app. reflexivity.
Qed.

Lemma count_items_find (bs : list LogisticsAnalyzer.belt_data) (item : string) :
  assoc_find String.eqb item (LogisticsAnalyzer.count_items bs)
  = if (item_count item bs =? 0)%Z then None else Some (item_count item bs).
Proof.
  induction bs as [| b bs IH] using rev_ind; [reflexivity |].
  rewrite count_items_snoc. cbv zeta.
  unfold item_count in *. rewrite count_app, count_single.
  pose proof (count_le_len (fun b0 => String.eqb (LogisticsAnalyzer.bd_item b0) item) bs)
    as Hc.
  destruct (String.eqb (LogisticsAnalyzer.bd_item b) item) eqn:E.
  - apply String.eqb_eq in E. rewrite E.
    rewrite (assoc_find_set_same String.eqb Seqb_spec). rewrite IH.
    destruct (count _ bs =? 0)%Z eqn:E0.
    + apply Z.eqb_eq in E0. rewrite E0. reflexivity.
    + destruct (count _ bs + 1 =? 0)%Z eqn:E'; [apply Z.eqb_eq in E'; lia | reflexivity].
  - assert (Hne : item <> LogisticsAnalyzer.bd_item b).
    { intro C. subst item. rewrite String.eqb_refl in E. discriminate. }
    rewrite (assoc_find_set_other String.eqb Seqb_spec) by exact Hne.
    rewrite Z.add_0_r. exact IH.
Qed.

Lemma count_items_nodup (bs : list LogisticsAnalyzer.belt_data) :
  NoDup (map fst (LogisticsAnalyzer.count_items bs)).
Proof.
  induction bs as [| b bs IH] using rev_ind; [constructor |].
  rewrite count_items_snoc. cbv zeta.
  apply (assoc_set_nodup String.eqb Seqb_spec). exact IH.
Qed.

(** X17.  The global logistics recommendations: one "healthy" line for no
    saturated belt, one "targeted upgrades" line for 1 to 4 of them, and from
    5 on a "systematic upgrade" line followed by the most congested item,
    which is an item with the largest number of saturated belts, given with
    that number. *)
Theorem logistics_recommendations_by_count (belts : list LogisticsAnalyzer.belt_data) :
  let n := len belts in
  let recs := LogisticsAnalyzer._global_recommendations belts in
  (n = 0%Z -> recs = ["No saturated belts detected - logistics healthy"%string])
  /\ ((0 < n < 5)%Z ->
      recs = [(str_of_Z n ++ " saturated belts - targeted upgrades recommended")%string])
  /\ ((5 <= n)%Z ->
      exists item,
        recs = [(str_of_Z n ++ " saturated belts - consider systematic belt upgrade")%string;
                ("Most congested item: " ++ item ++ " ("
                   ++ str_of_Z (item_count item belts) ++ " belts)")%string]
        /\ (0 < item_count item belts)%Z
        /\ forall other, (item_count other belts <= item_count item belts)%Z).
Proof.
  intros n recs. subst recs. unfold LogisticsAnalyzer._global_recommendations. fold n.
  split; [intros ->; reflexivity |].
  split.
  { intro H. destruct (n =? 0)%Z eqn:E0; [apply Z.eqb_eq in E0; lia |].
    destruct (n <? 5)%Z eqn:E5; [reflexivity | apply Z.ltb_ge in E5; lia]. }
  intro H. destruct (n =? 0)%Z eqn:E0; [apply Z.eqb_eq in E0; lia |].
  destruct (n <? 5)%Z eqn:E5; [apply Z.ltb_lt in E5; lia |].
  assert (Hne : belts <> []) by (intro C; subst belts; unfold n, len in H; simpl in H; lia).
  assert (Hd : LogisticsAnalyzer.count_items belts <> []).
  { destruct belts as [| b rest]; [congruence |].
    intro C.
    pose proof (count_items_find (b :: rest) (LogisticsAnalyzer.bd_item b)) as Hf.
    rewrite C in Hf. simpl assoc_find in Hf.
    pose proof (count_le_len (fun b0 => String.eqb (LogisticsAnalyzer.bd_item b0)
                                                   (LogisticsAnalyzer.bd_item b)) rest)
      as Hc.
    change (b :: rest) with ([b] ++ rest) in Hf.
    unfold item_count in Hf. rewrite count_app, count_single, String.eqb_refl in Hf.
    destruct (1 + count _ rest =? 0)%Z eqn:E; [| discriminate].
    apply Z.eqb_eq in E. lia. }
  destruct (max_key_is_maximal _ Hd) as (k & v & Hmax & Hin & Hall).
  assert (Hfind : forall t c,
             In (t, c) (LogisticsAnalyzer.count_items belts) ->
             assoc_find String.eqb t (LogisticsAnalyzer.count_items belts) = Some c
             /\ c = item_count t belts /\ (0 < c)%Z).
  { intros t c Htc.
    apply (in_assoc_find String.eqb Seqb_spec _ _ _ (count_items_nodup belts)) in Htc.
    split; [exact Htc |].
    rewrite count_items_find in Htc.
    destruct (item_count t belts =? 0)%Z eqn:E; [discriminate |].
    injection Htc as <-. apply Z.eqb_neq in E.
    pose proof (count_le_len (fun b => String.eqb (LogisticsAnalyzer.bd_item b) t) belts).
    unfold item_count in *. split; [reflexivity | lia]. }
  destruct (Hfind k v Hin) as (Hk & -> & Hpos).
  exists k. rewrite Hmax, Hk. split; [reflexivity |]. split; [exact Hpos |].
  intro other.
  destruct (item_count other belts =? 0)%Z eqn:E.
  - apply Z.eqb_eq in E. lia.
  - assert (Hother : In (other, item_count other belts)
                        (LogisticsAnalyzer.count_items belts)).
    { apply (assoc_find_in String.eqb Seqb_spec). rewrite count_items_find, E.
      reflexivity. }
    apply (Hall _ _ Hother).
Qed.

(* ================================================================== *)
(** * The power report, planet by planet                               *)
(* ================================================================== *)

Lemma powered_in_scope_cons (planet_id : option Z) (pid : Z) (planet : PlanetState.t)
      (rest : list (Z * PlanetState.t)) :
  powered_in_scope planet_id ((pid, planet) :: rest)
  = if match planet_id with
       | Some wanted => negb (pid =? wanted)%Z
       | None => false
       end
    then powered_in_scope planet_id rest
    else match PlanetState.power planet with
         | Some power => (pid, planet, power) :: powered_in_scope planet_id rest
         | None => powered_in_scope planet_id rest
         end.
Proof.
  unfold powered_in_scope. rewrite planets_in_scope_cons.
  destruct (match planet_id with Some _ => _ | None => _ end); [reflexivity |].
  cbn [flat_map fst snd]. destruct (PlanetState.power planet); reflexivity.
Qed.

Lemma planet_report_reports
      (pid : Z) (planet : PlanetState.t) (power : PowerState.t)
      (include_accumulator_cycles include_consumers : bool)
      (consumers : list PowerConsumer.t) :
  reports_power (PowerAnalyzer.planet_report pid planet power include_accumulator_cycles
                                             include_consumers consumers)
                (pid, planet, power).
Proof.
  unfold reports_power, PowerAnalyzer.planet_report.
  split; [reflexivity |]. split; [reflexivity |]. split; [reflexivity |].
  split.
  - intro H.
    assert (Hlt : Qltb (PowerState.surplus_mw power) 0 = true) by (apply Qltb_true; exact H).
    assert (Hge : Qgeb (PowerState.surplus_mw power) 0 = false).
    { unfold Qgeb. unfold Qltb in Hlt. apply negb_true_iff in Hlt. exact Hlt. }
    rewrite Hlt, Hge. split; reflexivity.
  - intro H.
    assert (Hlt : Qltb (PowerState.surplus_mw power) 0 = false) by (apply Qltb_false; exact H).
    assert (Hge : Qgeb (PowerState.surplus_mw power) 0 = true).
    { unfold Qgeb. apply Qle_bool_iff. exact H. }
    rewrite Hlt, Hge. split; [reflexivity |].
    destruct include_accumulator_cycles, include_consumers;
      try destruct consumers; reflexivity.
Qed.

Section PowerLoop.

Variable db : RecipeDatabase.t.

(** The loop over the planets of the power analysis. *)
Lemma power_planets_steps
      (planet_id : option Z) (include_accumulator_cycles include_consumers : bool)
      (planets : list (Z * PlanetState.t)) (st : PowerAnalyzer.tally) :
  exists new consumers,
    for_each (PowerAnalyzer.analyze_planet
                db planet_id include_accumulator_cycles include_consumers)
             planets st
    = Ok (PowerAnalyzer.mk_tally
            (PowerAnalyzer.planets_data st ++ new)
            (fold_left fadd
                       (map (fun l => PowerState.generation_mw (snd l))
                            (powered_in_scope planet_id planets))
                       (PowerAnalyzer.total_generation st))
            (fold_left fadd
                       (map (fun l => PowerState.consumption_mw (snd l))
                            (powered_in_scope planet_id planets))
                       (PowerAnalyzer.total_consumption st))
            (PowerAnalyzer.deficits_found st
             + count (fun l => in_deficit (snd l)) (powered_in_scope planet_id planets))
            (PowerAnalyzer.all_consumers st ++ consumers))
    /\ Forall2 reports_power new (powered_in_scope planet_id planets)
    /\ (include_consumers = false -> consumers = []).
Proof.
  revert st. induction planets as [| [pid planet] rest IH]; intro st.
  - exists [], []. unfold count. simpl. rewrite !app_nil_r, Z.add_0_r.
    destruct st. split; [reflexivity |]. split; [constructor | reflexivity].
  - cbn [for_each]. unfold PowerAnalyzer.analyze_planet at 1.
    rewrite powered_in_scope_cons.
    destruct (match planet_id with Some _ => _ | None => _ end).
    + cbn [bind]. apply IH.
    + destruct (PlanetState.power planet) as [power |] eqn:Hpower.
      * assert (Hcons : exists consumers,
                   (if include_consumers
                    then PowerAnalyzer._analyze_power_consumers
                           db (PlanetState.assemblers planet) pid
                    else Ok []) = Ok consumers
                   /\ (include_consumers = false -> consumers = [])).
        { destruct include_consumers.
          - destruct (analyze_power_consumers_ok db (PlanetState.assemblers planet) pid)
              as [cs Hcs].
            exists cs. split; [exact Hcs | discriminate].
          - exists []. split; reflexivity. }
        destruct Hcons as (consumers1 & Hcons & Hnone1). rewrite Hcons. cbn [bind].
        match goal with
        | |- context [for_each _ rest ?s] =>
            destruct (IH s) as (new2 & consumers2 & Hrest & Hnew2 & Hnone2)
        end.
        rewrite Hrest.
        exists (PowerAnalyzer.planet_report pid planet power include_accumulator_cycles
                                            include_consumers consumers1 :: new2),
          (consumers1 ++ consumers2).
        cbn [PowerAnalyzer.planets_data PowerAnalyzer.total_generation
             PowerAnalyzer.total_consumption PowerAnalyzer.deficits_found
             PowerAnalyzer.all_consumers map fold_left snd].
        split.
        -- rewrite <- !app_assoc. cbn [app].
           change ((pid, planet, power) :: powered_in_scope planet_id rest)
             with ([(pid, planet, power)] ++ powered_in_scope planet_id rest).
           rewrite count_app, count_single. cbn [snd]. unfold in_deficit at 2.
           destruct (Qltb (PowerState.surplus_mw power) 0);
             rewrite ?Z.add_assoc, ?Z.add_0_r; reflexivity.
        -- split.
           ++ constructor; [apply planet_report_reports | exact Hnew2].
           ++ intro E. rewrite (Hnone1 E), (Hnone2 E). reflexivity.
      * cbn [bind]. apply IH.
Qed.

End PowerLoop.

(** X18.  The power analysis returns a report for every snapshot and
    every choice of parameters: the divisor of a consumer's efficiency
    (building count times a table value that is never 0) and the divisor of
    the surplus percentage are never zero where they are used. *)
Theorem power_analysis_never_raises
        (db : RecipeDatabase.t) (factory_state : FactoryState.t) (planet_id : option Z)
        (include_accumulator_cycles include_consumers : bool) :
  exists report,
    PowerAnalyzer.analyze
      db factory_state planet_id include_accumulator_cycles include_consumers
    = Ok report.
Proof.
  destruct (power_planets_steps db planet_id include_accumulator_cycles include_consumers
                                (FactoryState.planets factory_state)
                                (PowerAnalyzer.mk_tally [] 0 0 0 []))
    as (new & consumers & Hrun & _).
  unfold PowerAnalyzer.analyze. rewrite Hrun. cbn [bind].
  match goal with
  | |- context [PowerAnalyzer._global_recommendations ?g ?c] =>
      destruct (global_recommendations_ok g c) as [recs Hrecs]
  end.
  rewrite Hrecs. cbn [bind]. eexists. reflexivity.
Qed.

(** X19.  The power report has one planet entry per planet in scope that
    has a power state, in snapshot order; planets without a power state are
    left out.  Each entry carries the planet's id and name, status "deficit"
    with the planet's recommendation when [surplus_mw < 0], and status
    "surplus" with no recommendation otherwise.  [planets_with_deficit]
    counts the entries in deficit. *)
Theorem power_report_entries
        (db : RecipeDatabase.t) (factory_state : FactoryState.t) (planet_id : option Z)
        (include_accumulator_cycles include_consumers : bool) :
  let powered := powered_in_scope planet_id (FactoryState.planets factory_state) in
  exists report entries summary,
    PowerAnalyzer.analyze
      db factory_state planet_id include_accumulator_cycles include_consumers
    = Ok report
    /\ get "planets" report = Some (VList entries)
    /\ Forall2 reports_power entries powered
    /\ get "summary" report = Some summary
    /\ get "planets_with_deficit" summary
       = Some (VInt (count (fun l => in_deficit (snd l)) powered)).
Proof.
  intro powered.
  destruct (power_planets_steps db planet_id include_accumulator_cycles include_consumers
                                (FactoryState.planets factory_state)
                                (PowerAnalyzer.mk_tally [] 0 0 0 []))
    as (new & consumers & Hrun & Hnew & _).
  unfold PowerAnalyzer.analyze. rewrite Hrun. cbn [bind].
  match goal with
  | |- context [PowerAnalyzer._global_recommendations ?g ?c] =>
      destruct (global_recommendations_ok g c) as [recs Hrecs]
  end.
  rewrite Hrecs. cbn [bind].
  eexists. exists new. eexists.
  split; [reflexivity |]. split; [reflexivity |]. split; [exact Hnew |].
  split; reflexivity.
Qed.

(** X20.  The totals of the power report are those of the planets in scope
    that have a power state: generation and consumption are accumulated over
    them in snapshot order, in float arithmetic (each addition rounded), the
    net surplus is their rounded difference, and the global recommendations
    are those of these two totals.  The report shows the three figures
    rounded to two decimals. *)
Theorem power_report_totals
        (db : RecipeDatabase.t) (factory_state : FactoryState.t) (planet_id : option Z)
        (include_accumulator_cycles include_consumers : bool) :
  let powered := powered_in_scope planet_id (FactoryState.planets factory_state) in
  let generation := fsum (map (fun l => PowerState.generation_mw (snd l)) powered) in
  let consumption := fsum (map (fun l => PowerState.consumption_mw (snd l)) powered) in
  exists report summary recs,
    PowerAnalyzer.analyze
      db factory_state planet_id include_accumulator_cycles include_consumers
    = Ok report
    /\ get "summary" report = Some summary
    /\ get "total_generation_mw" summary = Some (VFloat (round generation 2))
    /\ get "total_consumption_mw" summary = Some (VFloat (round consumption 2))
    /\ get "net_surplus_mw" summary
       = Some (VFloat (round (fsub generation consumption) 2))
    /\ PowerAnalyzer._global_recommendations generation consumption = Ok recs
    /\ get "recommendations" report = Some (VList (map VStr recs)).
Proof.
  intros powered generation consumption.
  destruct (power_planets_steps db planet_id include_accumulator_cycles include_consumers
                                (FactoryState.planets factory_state)
                                (PowerAnalyzer.mk_tally [] 0 0 0 []))
    as (new & consumers & Hrun & _).
  cbn [PowerAnalyzer.total_generation PowerAnalyzer.total_consumption] in Hrun.
  fold powered in Hrun.
  fold (fsum (map (fun l => PowerState.generation_mw (snd l)) powered)) in Hrun.
  fold (fsum (map (fun l => PowerState.consumption_mw (snd l)) powered)) in Hrun.
  fold generation in Hrun. fold consumption in Hrun.
  destruct (global_recommendations_ok generation consumption) as [recs Hrecs].
  unfold PowerAnalyzer.analyze. rewrite Hrun. cbn [bind].
  cbn [PowerAnalyzer.total_generation PowerAnalyzer.total_consumption].
  rewrite Hrecs. cbn [bind].
  eexists. eexists. exists recs.
  split; [reflexivity |]. split; [reflexivity |].
  split; [reflexivity |]. split; [reflexivity |]. split; [reflexivity |].
  split; reflexivity.
Qed.

(** Two planets generating 50.92 MW and 474.575 MW: the float total is
    525.495 rounded up to the next float, and the report shows 525.5, where
    the exact sum of the two floats would show 525.49. *)
Example float_total_in_the_report :
  exists report summary,
    PowerAnalyzer.analyze
      Example.db
      (Example.snapshot
         [(1%Z, Example.planet_of [] (Some (Example.generating Example.mw_50_92)));
          (2%Z, Example.planet_of [] (Some (Example.generating Example.mw_474_575)))])
      None false false = Ok report
    /\ get "summary" report = Some summary
    /\ get "total_generation_mw" summary = Some (VFloat (1051 # 2))
    /\ round (Example.mw_50_92 + Example.mw_474_575) 2 == 52549 # 100.
Proof.
  eexists. eexists. split; [vm_compute; reflexivity |].
  split; [reflexivity |]. split; reflexivity.
Qed.

(* ================================================================== *)
(** * Power recommendations at their edges                             *)
(* ================================================================== *)

(** X21.  In the moderate tier (a deficit from 10 MW up to, but not
    including, 50 MW) the recommendation asks for between 1 and 4 fusion
    plants. *)
Theorem fusion_plants_between_one_and_four (power : PowerState.t) :
  let deficit := Qabs (PowerState.surplus_mw power) in
  10 <= deficit -> deficit < 50 ->
  exists plants,
    (1 <= plants <= 4)%Z
    /\ PowerAnalyzer._generate_recommendation power
       = ("Deficit of " ++ fmt_1f deficit ++ "MW - add " ++ str_of_Z plants
            ++ " fusion plants")%string.
Proof.
  intros deficit Hlo Hhi.
  destruct (generate_recommendation_tiers power) as (_ & Hmid & _).
  fold deficit in Hmid.
  exists (Qfloor (deficit / 15) + 1)%Z. split; [| apply Hmid; assumption].
  assert (Hq0 : 0 <= deficit / 15) by (apply Qle_shift_div_l; [reflexivity | lra]).
  assert (Hq4 : deficit / 15 < 4) by (apply Qlt_shift_div_r; [reflexivity | lra]).
  pose proof (Qfloor_le (deficit / 15)) as Hfl.
  assert (H0 : (0 <= Qfloor (deficit / 15))%Z).
  { change 0%Z with (Qfloor 0). apply Qfloor_resp_le. exact Hq0. }
  assert (H4 : (Qfloor (deficit / 15) < 4)%Z).
  { rewrite Zlt_Qlt. eapply Qle_lt_trans; [exact Hfl | exact Hq4]. }
  lia.
Qed.

Lemma fusion_plants_between_one_and_four_witness :
  exists plants,
    (1 <= plants <= 4)%Z
    /\ PowerAnalyzer._generate_recommendation Example.power_80_100
       = ("Deficit of 20.0MW - add " ++ str_of_Z plants ++ " fusion plants")%string.
Proof.
  destruct (fusion_plants_between_one_and_four Example.power_80_100)
    as (plants & Hrange & Htext).
  - discriminate.
  - reflexivity.
  - exists plants. split; [exact Hrange |]. rewrite Htext. reflexivity.
Defined.

(** X22.  The global power recommendations, on float totals, are silent
    in the moderate band: the list is empty when consumption is positive and
    the surplus is at most 50% of it and at least 10% of it with the rounding
    margin [2 ** -51] of the computed percentage to spare; and an empty list
    means a positive consumption and a surplus of at most 50% of it and at
    least 10% of it up to that margin.  The list never has more than two
    entries. *)
Theorem moderate_surplus_is_silent (generation consumption : Q) :
  is_float generation -> is_float consumption ->
  let surplus := generation - consumption in
  exists recs,
    PowerAnalyzer._global_recommendations generation consumption = Ok recs
    /\ (List.length recs <= 2)%nat
    /\ (0 < consumption ->
        (10 # 100) * consumption <= surplus * (1 - percent_margin) ->
        surplus <= (50 # 100) * consumption ->
        recs = [])
    /\ (recs = [] ->
        0 < consumption
        /\ (10 # 100) * consumption <= surplus * (1 + percent_margin)
        /\ surplus <= (50 # 100) * consumption).
Proof.
  intros Hg Hcf surplus.
  destruct percent_margin_small as [Hm0 Hm1].
  destruct (global_recommendations_cases generation consumption)
    as [(Hneg & Hrun)
       | [(Hpos & Hc & Hrun) | (Hpos & Hc & percent & Hp & Hlo & Hhi & Hcase)]];
    fold surplus in Hneg || fold surplus in Hpos.
  - eexists. split; [exact Hrun |]. split; [simpl; lia |].
    set (m := percent_margin) in *. clearbody m.
    split; [intros H1 H2 _; exfalso; nra | discriminate].
  - eexists. split; [exact Hrun |]. split; [simpl; lia |].
    split; [intros H; exfalso; lra | discriminate].
  - fold surplus in Hlo, Hhi, Hp.
    assert (Hover : (50 # 100) * consumption < surplus -> 50 < percent).
    { intro Hhalf. rewrite Hp. apply computed_percent_over_half; assumption. }
    assert (Hunder : surplus <= (50 # 100) * consumption -> percent <= 50).
    { intro Hhalf. rewrite Hp. apply computed_percent_at_most_half; assumption. }
    clear Hp.
    set (m := percent_margin) in *. clearbody m.
    destruct Hcase as [(Hw & Hrun) | [(Hh & Hrun) | (H10 & H50 & Hrun)]].
    + eexists. split; [exact Hrun |]. split; [simpl; lia |].
      split; [intros _ H1 _; exfalso; nra | discriminate].
    + eexists. split; [exact Hrun |]. split; [simpl; lia |].
      split; [| discriminate].
      intros _ _ H2. exfalso. pose proof (Hunder H2). lra.
    + eexists. split; [exact Hrun |]. split; [simpl; lia |].
      split; [reflexivity |].
      intros _. split; [exact Hc |]. split; [nra |].
      apply Qnot_lt_le. intro C. pose proof (Hover C). lra.
Qed.

Lemma moderate_surplus_is_silent_witness :
  PowerAnalyzer._global_recommendations 130 100 = Ok [].
Proof.
  destruct (moderate_surplus_is_silent 130 100) as (recs & Hrun & _ & Hsilent & _);
    [reflexivity | reflexivity |].
  rewrite Hrun. f_equal. apply Hsilent; vm_compute; congruence.
Defined.

(** X23.  With no consumption (a total of 0, or below) and no deficit,
    the surplus percentage is taken as 100: the only global recommendation is
    "Healthy power surplus of 100.0%", also for a grid that generates
    nothing. *)
Theorem no_consumption_reports_full_surplus (generation consumption : Q) :
  consumption <= 0 ->
  consumption <= generation ->
  PowerAnalyzer._global_recommendations generation consumption
  = Ok ["Healthy power surplus of 100.0%"%string].
Proof.
  intros Hc Hg. unfold PowerAnalyzer._global_recommendations, fsub.
  assert (E1 : Qgtb consumption 0 = false) by (apply Qgtb_false; exact Hc).
  assert (E2 : Qltb (fl (generation - consumption)) 0 = false).
  { apply Qltb_false. apply fl_nonneg. lra. }
  rewrite E1. cbn [bind]. rewrite E2. reflexivity.
Qed.

Lemma no_consumption_reports_full_surplus_witness :
  PowerAnalyzer._global_recommendations 0 0 = Ok ["Healthy power surplus of 100.0%"%string].
Proof.
  apply (no_consumption_reports_full_surplus 0 0); discriminate.
Defined.

(* ================================================================== *)
(** * Power consumers                                                  *)
(* ================================================================== *)

Lemma fold_add_sum {A : Type} (f : A -> Q) (l : list A) (acc : Q) :
  fold_left (fun acc a => acc + f a) l acc == acc + sum (map f l).
Proof.
  revert acc. induction l as [| x rest IH]; intro acc.
  - unfold sum. simpl. lra.
  - cbn [fold_left map]. rewrite IH, sum_cons. lra.
Qed.

Section ConsumerFacts.

Variable db : RecipeDatabase.t.

Lemma account_snoc (l : list AssemblerMetrics.t) (a : AssemblerMetrics.t) :
  fold_left (PowerAnalyzer.account_assembler db) (l ++ [a]) []
  = PowerAnalyzer.account_assembler db (fold_left (PowerAnalyzer.account_assembler db) l []) a.
Proof.
  rewrite fold_left_app. reflexivity.
Qed.

Lemma recipe_members_snoc (r : Z) (l : list AssemblerMetrics.t) (a : AssemblerMetrics.t) :
  recipe_members r (l ++ [a])
  = recipe_members r l ++ (if (AssemblerMetrics.recipe_id a =? r)%Z then [a] else []).
Proof.
  unfold recipe_members. rewrite filter_app. simpl.
  destruct (AssemblerMetrics.recipe_id a =? r)%Z; reflexivity.
Qed.

Lemma consumer_of_snoc (r : Z) (recipe : Recipe.t)
      (members : list AssemblerMetrics.t) (a : AssemblerMetrics.t) :
  consumer_of db r recipe (members ++ [a])
  = {| PowerConsumer.recipe_id := r;
       PowerConsumer.item_name := PowerConsumer.item_name (consumer_of db r recipe members);
       PowerConsumer.building_type := Recipe.building recipe;
       PowerConsumer.building_count := (len members + 1)%Z;
       PowerConsumer.power_mw :=
         attributed_power (Recipe.building recipe) members
         + PowerAnalyzer.power_per_building (Recipe.building recipe)
           * (AssemblerMetrics.efficiency a / 100);
       PowerConsumer.efficiency := 0;
       PowerConsumer.production_rate :=
         attributed_production members + AssemblerMetrics.production_rate a |}.
Proof.
  unfold consumer_of, attributed_power, attributed_production.
  rewrite !fold_left_app, len_app. reflexivity.
Qed.

(** The dictionary of consumers holds, for each catalogued recipe that has
    buildings, the entry built from exactly those buildings. *)
Lemma account_find (l : list AssemblerMetrics.t) (r : Z) :
  assoc_find Z.eqb r (fold_left (PowerAnalyzer.account_assembler db) l [])
  = match RecipeDatabase.get_recipe db r, recipe_members r l with
    | Some recipe, m :: ms => Some (consumer_of db r recipe (m :: ms))
    | _, _ => None
    end.
Proof.
  induction l as [| a l IH] using rev_ind.
  - simpl. destruct (RecipeDatabase.get_recipe db r); reflexivity.
  - rewrite account_snoc, recipe_members_snoc.
    set (d := fold_left (PowerAnalyzer.account_assembler db) l []) in *.
    unfold PowerAnalyzer.account_assembler.
    destruct (Z.eq_dec r (AssemblerMetrics.recipe_id a)) as [-> | Hne].
    + rewrite Z.eqb_refl.
      destruct (RecipeDatabase.get_recipe db (AssemblerMetrics.recipe_id a))
        as [recipe |] eqn:Hrec.
      * rewrite (assoc_find_set_same Z.eqb Zeqb_spec). rewrite IH.
        destruct (recipe_members (AssemblerMetrics.recipe_id a) l) as [| m ms].
        -- reflexivity.
        -- cbn [app].
           change (m :: (ms ++ [a])) with ((m :: ms) ++ [a]).
           rewrite consumer_of_snoc. reflexivity.
      * rewrite IH. reflexivity.
    + assert (E : (AssemblerMetrics.recipe_id a =? r)%Z = false)
        by (apply Z.eqb_neq; congruence).
      rewrite E, app_nil_r.
      destruct (RecipeDatabase.get_recipe db (AssemblerMetrics.recipe_id a)).
      * rewrite (assoc_find_set_other Z.eqb Zeqb_spec) by exact Hne. exact IH.
      * exact IH.
Qed.

Lemma account_nodup (l : list AssemblerMetrics.t) :
  NoDup (map fst (fold_left (PowerAnalyzer.account_assembler db) l [])).
Proof.
  induction l as [| a l IH] using rev_ind; [constructor |].
  rewrite account_snoc. unfold PowerAnalyzer.account_assembler.
  destruct (RecipeDatabase.get_recipe db (AssemblerMetrics.recipe_id a)); [| exact IH].
  apply (assoc_set_nodup Z.eqb Zeqb_spec). exact IH.
Qed.

Lemma average_efficiency_averaged (c : PowerConsumer.t) :
  PowerAnalyzer.average_efficiency c = Ok (averaged c).
Proof.
  unfold PowerAnalyzer.average_efficiency, averaged.
  destruct (0 <? PowerConsumer.building_count c)%Z eqn:E; [| reflexivity].
  apply Z.ltb_lt in E. rewrite div_no_fault; [reflexivity |].
  apply Qmult_lt_0_compat.
  - change 0 with (inject_Z 0). rewrite <- Zlt_Qlt. exact E.
  - apply power_per_building_positive.
Qed.

Lemma average_all_averaged (consumers done : list PowerConsumer.t) :
  for_each (fun done consumer =>
              c <- PowerAnalyzer.average_efficiency consumer ;; Ok (done ++ [c]))
           consumers done
  = Ok (done ++ map averaged consumers).
Proof.
  revert done. induction consumers as [| x rest IH]; intro done.
  - simpl. rewrite app_nil_r. reflexivity.
  - cbn [for_each]. rewrite average_efficiency_averaged. cbn [bind].
    rewrite IH. rewrite <- app_assoc. reflexivity.
Qed.

End ConsumerFacts.

(** X24.  Power attribution groups the assemblers by recipe: there is one
    consumer per catalogued recipe that has buildings, and none other.  A
    consumer counts the buildings of its recipe, its power is the table
    value of its building type times the summed efficiency percentages of
    those buildings, its production is their summed production, and its
    reported efficiency is the mean of their efficiencies. *)
Theorem consumers_average_their_buildings
        (db : RecipeDatabase.t) (assemblers : list AssemblerMetrics.t) (planet_id : Z) :
  exists consumers,
    PowerAnalyzer._analyze_power_consumers db assemblers planet_id = Ok consumers
    /\ NoDup (map PowerConsumer.recipe_id consumers)
    /\ (forall r,
           In r (map PowerConsumer.recipe_id consumers)
           <-> RecipeDatabase.get_recipe db r <> None /\ recipe_members r assemblers <> [])
    /\ Forall
         (fun c =>
            let members := recipe_members (PowerConsumer.recipe_id c) assemblers in
            let efficiencies := sum (map AssemblerMetrics.efficiency members) in
            PowerConsumer.building_count c = len members
            /\ PowerConsumer.power_mw c
               == PowerAnalyzer.power_per_building (PowerConsumer.building_type c)
                  * (efficiencies / 100)
            /\ PowerConsumer.production_rate c
               == sum (map AssemblerMetrics.production_rate members)
            /\ PowerConsumer.efficiency c == efficiencies / inject_Z (len members))
         consumers.
Proof.
  set (d := fold_left (PowerAnalyzer.account_assembler db) assemblers []).
  assert (Hentry : forall r c,
             In (r, c) d ->
             exists recipe,
               RecipeDatabase.get_recipe db r = Some recipe
               /\ recipe_members r assemblers <> []
               /\ c = consumer_of db r recipe (recipe_members r assemblers)).
  { intros r c Hin.
    apply (in_assoc_find Z.eqb Zeqb_spec _ _ _ (account_nodup db assemblers)) in Hin.
    fold d in Hin. unfold d in Hin. rewrite account_find in Hin.
    destruct (RecipeDatabase.get_recipe db r) as [recipe |]; [| discriminate].
    destruct (recipe_members r assemblers) as [| m ms]; [discriminate |].
    injection Hin as <-. exists recipe. split; [reflexivity |].
    split; [discriminate | reflexivity]. }
  assert (Hids : map PowerConsumer.recipe_id (map averaged (map snd d)) = map fst d).
  { rewrite !map_map. apply map_ext_in. intros [r c] Hin.
    destruct (Hentry r c Hin) as (recipe & _ & _ & ->).
    unfold averaged. cbn [snd fst].
    destruct (0 <? _)%Z; reflexivity. }
  exists (map averaged (map snd d)).
  split.
  { unfold PowerAnalyzer._analyze_power_consumers. fold d.
    rewrite average_all_averaged. reflexivity. }
  split; [rewrite Hids; apply account_nodup |].
  split.
  { intro r. rewrite Hids. split.
    - intro Hin. apply in_map_iff in Hin. destruct Hin as ([r' c] & <- & Hin).
      destruct (Hentry r' c Hin) as (recipe & Hrec & Hne & _).
      cbn [fst]. rewrite Hrec. split; [discriminate | exact Hne].
    - intros [Hrec Hne].
      pose proof (account_find db assemblers r) as Hf. fold d in Hf.
      destruct (RecipeDatabase.get_recipe db r) as [recipe |]; [| congruence].
      destruct (recipe_members r assemblers) as [| m ms]; [congruence |].
      apply (assoc_find_in Z.eqb Zeqb_spec) in Hf.
      apply (in_map fst) in Hf. exact Hf. }
  apply Forall_map. apply Forall_map. apply Forall_forall. intros [r c] Hin.
  destruct (Hentry r c Hin) as (recipe & Hrec & Hne & ->).
  cbn [snd].
  set (members := recipe_members r assemblers) in *.
  pose proof (len_positive members Hne) as Hlen.
  assert (Hcount : (0 <? len members)%Z = true).
  { apply Z.ltb_lt. change 0 with (inject_Z 0) in Hlen. rewrite <- Zlt_Qlt in Hlen.
    exact Hlen. }
  unfold averaged, consumer_of.
  cbn [PowerConsumer.building_count PowerConsumer.recipe_id PowerConsumer.power_mw
       PowerConsumer.building_type PowerConsumer.production_rate
       PowerConsumer.efficiency PowerConsumer.item_name].
  rewrite Hcount.
  cbn [PowerConsumer.building_count PowerConsumer.recipe_id PowerConsumer.power_mw
       PowerConsumer.building_type PowerConsumer.production_rate
       PowerConsumer.efficiency PowerConsumer.item_name].
  fold members.
  pose proof (power_per_building_positive (Recipe.building recipe)) as Hppb.
  set (ppb := PowerAnalyzer.power_per_building (Recipe.building recipe)) in *.
  assert (Hpower : attributed_power (Recipe.building recipe) members
                   == ppb * (sum (map AssemblerMetrics.efficiency members) / 100)).
  { unfold attributed_power. fold ppb.
    rewrite (fold_add_sum (fun a => ppb * (AssemblerMetrics.efficiency a / 100))).
    clear. induction members as [| a rest IH].
    - unfold sum. simpl. field.
    - cbn [map]. rewrite !sum_cons. rewrite Qplus_0_l in IH.
      rewrite Qplus_0_l, IH. field. }
  split; [reflexivity |]. split; [exact Hpower |].
  split.
  { unfold attributed_production. rewrite fold_add_sum. lra. }
  rewrite Hpower. field. split; lra.
Qed.

(* ================================================================== *)
(** * Power breakdown                                                  *)
(* ================================================================== *)

Lemma sum_snoc (xs : list Q) (x : Q) : sum (xs ++ [x]) = sum xs + x.
Proof.
  unfold sum. rewrite fold_left_app. reflexivity.
Qed.

Lemma power_of_type_snoc (k : string) (l : list PowerConsumer.t) (c : PowerConsumer.t) :
  power_of_type k (l ++ [c])
  = if String.eqb (PowerConsumer.building_type c) k
    then fadd (power_of_type k l) (PowerConsumer.power_mw c)
    else power_of_type k l.
Proof.
  unfold power_of_type. rewrite filter_app. cbn [filter].
  destruct (String.eqb (PowerConsumer.building_type c) k).
  - rewrite map_app. cbn [map]. apply fsum_snoc.
  - rewrite app_nil_r. reflexivity.
Qed.

Lemma power_by_building_find (l : list PowerConsumer.t) (k : string) :
  match assoc_find String.eqb k (power_by_building l) with
  | Some v => (exists c, In c l /\ PowerConsumer.building_type c = k)
              /\ v = power_of_type k l
  | None => forall c, In c l -> PowerConsumer.building_type c <> k
  end.
Proof.
  induction l as [| a l IH] using rev_ind.
  - simpl. intros c [].
  - unfold power_by_building in *. rewrite fold_left_app. cbn [fold_left].
    set (d := fold_left _ l []) in *.
    destruct (String.eqb (PowerConsumer.building_type a) k) eqn:E.
    + apply String.eqb_eq in E. subst k.
      rewrite (assoc_find_set_same String.eqb Seqb_spec).
      split; [exists a; split; [apply in_or_app; right; left |]; reflexivity |].
      rewrite power_of_type_snoc, String.eqb_refl.
      destruct (assoc_find String.eqb (PowerConsumer.building_type a) d) as [v |].
      * destruct IH as [_ IH]. rewrite IH. reflexivity.
      * unfold power_of_type. rewrite filter_none; [reflexivity |].
        intros c Hc. apply String.eqb_neq. apply IH. exact Hc.
    + assert (Hne : k <> PowerConsumer.building_type a).
      { intro C. subst k. rewrite String.eqb_refl in E. discriminate. }
      rewrite (assoc_find_set_other String.eqb Seqb_spec) by exact Hne.
      destruct (assoc_find String.eqb k d) as [v |].
      * destruct IH as [(c & Hc & Hk) IH]. split.
        -- exists c. split; [apply in_or_app; left; exact Hc | exact Hk].
        -- rewrite power_of_type_snoc, E. exact IH.
      * intros c Hc. apply in_app_or in Hc. destruct Hc as [Hc | [<- | []]].
        -- apply IH. exact Hc.
        -- congruence.
Qed.

Lemma power_by_building_nodup (l : list PowerConsumer.t) :
  NoDup (map fst (power_by_building l)).
Proof.
  induction l as [| a l IH] using rev_ind; [constructor |].
  unfold power_by_building in *. rewrite fold_left_app. cbn [fold_left].
  apply (assoc_set_nodup String.eqb Seqb_spec). exact IH.
Qed.

(** X25.  The power breakdown totals the consumers by building type: each
    building type that occurs among the consumers has exactly one entry,
    no other type has one, the entry is the power of the consumers of that
    type, added up in list order in float arithmetic (each addition
    rounded) and shown rounded to two decimals, and the entries are ordered
    by decreasing power. *)
Theorem breakdown_totals_by_building_type (consumers : list PowerConsumer.t) :
  exists by_building,
    get "by_building_type" (PowerAnalyzer._generate_power_breakdown consumers)
    = Some (VDict (map (fun kv => (fst kv, VFloat (round (snd kv) 2))) by_building))
    /\ NoDup (map fst by_building)
    /\ (forall k,
           In k (map fst by_building)
           <-> exists c, In c consumers /\ PowerConsumer.building_type c = k)
    /\ Forall (fun kv => snd kv = power_of_type (fst kv) consumers) by_building
    /\ descending snd by_building.
Proof.
  exists (sort_desc snd (power_by_building consumers)).
  pose proof (sort_desc_perm snd (power_by_building consumers)) as Hperm.
  pose proof (power_by_building_nodup consumers) as Hnd.
  split; [reflexivity |].
  split.
  { eapply Permutation_NoDup; [| exact Hnd].
    apply Permutation_map. apply Permutation_sym. exact Hperm. }
  split.
  { intro k. pose proof (power_by_building_find consumers k) as Hf.
    split.
    - intro Hin.
      assert (Hin' : In k (map fst (power_by_building consumers))).
      { eapply Permutation_in; [apply Permutation_map; exact Hperm | exact Hin]. }
      destruct (assoc_find String.eqb k (power_by_building consumers)) eqn:E.
      + apply Hf.
      + apply (assoc_find_none_not_in String.eqb Seqb_spec) in E. contradiction.
    - intros (c & Hc & Hk).
      destruct (assoc_find String.eqb k (power_by_building consumers)) eqn:E.
      + apply (assoc_find_in String.eqb Seqb_spec) in E.
        apply (in_map fst) in E.
        eapply Permutation_in; [apply Permutation_map, Permutation_sym; exact Hperm |].
        exact E.
      + exfalso. exact (Hf c Hc Hk). }
  split.
  { eapply Permutation_Forall; [apply Permutation_sym; exact Hperm |].
    apply Forall_forall. intros [k v] Hin. cbn [fst snd].
    apply (in_assoc_find String.eqb Seqb_spec _ _ _ Hnd) in Hin.
    pose proof (power_by_building_find consumers k) as Hf. rewrite Hin in Hf.
    apply Hf. }
  apply sort_desc_sorted.
Qed.

(** Three smelter lines drawing 2.2344, 4.138848 and 4.231751999999999 MW:
    the breakdown shows 10.61 for smelters, where the exact sum of the three
    floats would show 10.6. *)
Example float_breakdown_entry :
  get "by_building_type"
      (PowerAnalyzer._generate_power_breakdown Example.three_smelter_lines)
  = Some (VDict [("smelter"%string, VFloat (1061 # 100))])
  /\ round (sum (map PowerConsumer.power_mw Example.three_smelter_lines)) 2 == 106 # 10.
Proof.
  split; vm_compute; reflexivity.
Qed.

(** X26.  The list of top power consumers holds at most ten consumers,
    all taken from the input, in order of decreasing power, and no
    consumer left out draws more power than one that is listed. *)
Theorem top_consumers_are_the_ten_largest (consumers : list PowerConsumer.t) :
  exists top,
    get "top_power_consumers" (PowerAnalyzer._generate_power_breakdown consumers)
    = Some (VList (map (fun c =>
                          VDict [("item"%string, VStr (PowerConsumer.item_name c));
                                 ("recipe_id"%string, VInt (PowerConsumer.recipe_id c));
                                 ("building_type"%string,
                                  VStr (PowerConsumer.building_type c));
                                 ("building_count"%string,
                                  VInt (PowerConsumer.building_count c));
                                 ("power_mw"%string,
                                  VFloat (round (PowerConsumer.power_mw c) 2));
                                 ("production_rate"%string,
                                  VFloat (round (PowerConsumer.production_rate c) 2))])
                       top))
    /\ List.length top = Nat.min 10 (List.length consumers)
    /\ descending PowerConsumer.power_mw top
    /\ exists rest,
        Permutation (top ++ rest) consumers
        /\ forall shown hidden,
            In shown top -> In hidden rest ->
            PowerConsumer.power_mw hidden <= PowerConsumer.power_mw shown.
Proof.
  set (sorted := sort_desc PowerConsumer.power_mw consumers).
  exists (firstn 10 sorted).
  split; [reflexivity |].
  split.
  { rewrite length_firstn. unfold sorted. rewrite sort_desc_length. reflexivity. }
  split; [apply descending_firstn; apply sort_desc_sorted |].
  exists (skipn 10 sorted).
  split; [rewrite firstn_skipn; apply sort_desc_perm |].
  intros shown hidden Hshown Hhidden.
  pose proof (sort_desc_sorted PowerConsumer.power_mw consumers) as Hsorted.
  fold sorted in Hsorted.
  rewrite <- (firstn_skipn 10 sorted) in Hsorted.
  unfold descending in Hsorted.
  revert Hshown Hhidden Hsorted.
  generalize (firstn 10 sorted) as front, (skipn 10 sorted) as back.
  induction front as [| x front IH]; intros back Hshown Hhidden Hsorted;
    [destruct Hshown |].
  simpl in Hsorted. apply StronglySorted_inv in Hsorted. destruct Hsorted as [Hrest Hall].
  destruct Hshown as [<- | Hshown].
  - rewrite Forall_forall in Hall. apply Hall. apply in_or_app. right. exact Hhidden.
  - eapply IH; eassumption.
Qed.

(* ================================================================== *)
(** * Critical path                                                    *)
(* ================================================================== *)

Lemma find_first_on (item_id : Z) (bottlenecks : list Bottleneck.t) :
  find (fun b => (Bottleneck.item_id b =? item_id)%Z) bottlenecks
  = hd_error (bottlenecks_on item_id bottlenecks).
Proof.
  unfold bottlenecks_on. induction bottlenecks as [| b rest IH]; [reflexivity |].
  simpl. destruct (Bottleneck.item_id b =? item_id)%Z; [reflexivity | exact IH].
Qed.

(** X27.  The critical path has one step per entry of the upstream trace
    (depth 5) of the first bottleneck's item, in the same order, and is
    empty without bottlenecks.  A step is flagged [has_bottleneck] exactly
    when some bottleneck in the list is on the step's item; it then carries
    the type and severity of the first such bottleneck in the list, and
    otherwise has neither key. *)
Theorem critical_path_follows_upstream_trace
        (db : RecipeDatabase.t) (bottlenecks : list Bottleneck.t)
        (target_item_id : option Z) :
  match bottlenecks with
  | [] => BottleneckAnalyzer._build_critical_path db bottlenecks target_item_id = []
  | root :: _ =>
      Forall2
        (fun entry step =>
           let '(item_id, item_name, recipe_id) := entry in
           get "item" step = Some (VStr item_name)
           /\ get "item_id" step = Some (VInt item_id)
           /\ get "recipe_id" step = Some (VInt recipe_id)
           /\ match bottlenecks_on item_id bottlenecks with
              | [] =>
                  get "has_bottleneck" step = Some (VBool false)
                  /\ get "bottleneck_type" step = None
                  /\ get "severity" step = None
              | first :: _ =>
                  get "has_bottleneck" step = Some (VBool true)
                  /\ get "bottleneck_type" step
                     = Some (VStr (Bottleneck.bottleneck_type first))
                  /\ get "severity" step = Some (VFloat (Bottleneck.severity first))
              end)
        (RecipeDatabase.trace_bottleneck_upstream db (Bottleneck.item_id root) 5)
        (BottleneckAnalyzer._build_critical_path db bottlenecks target_item_id)
  end.
Proof.
  destruct bottlenecks as [| root rest]; [reflexivity |].
  unfold BottleneckAnalyzer._build_critical_path.
  generalize (root :: rest) as bs.
  generalize (RecipeDatabase.trace_bottleneck_upstream db (Bottleneck.item_id root) 5).
  intros upstream bs.
  induction upstream as [| [[item_id item_name] recipe_id] upstream IH];
    [constructor |].
  cbn [map]. constructor; [| exact IH].
  rewrite find_first_on.
  destruct (bottlenecks_on item_id bs) as [| first others];
    cbn [hd_error]; repeat split; reflexivity.
Qed.

Lemma belt_counts_are_exact_witness :
  exists report,
    LogisticsAnalyzer.analyze
      Example.db Example.parse_decimal
      (Example.snapshot [(1%Z, Example.belt_planet)]) None None 95 false
    = Ok report
    /\ exists summary,
        get "summary" report = Some summary
        /\ get "saturated_count" summary = Some (VInt 1)
        /\ get "near_saturation_count" summary = Some (VInt 1).
Proof.
  eexists. split; [vm_compute; reflexivity |].
  match goal with
  | |- exists _, get _ ?r = _ /\ _ =>
      destruct (belt_counts_are_exact
                  Example.db Example.parse_decimal
                  (Example.snapshot [(1%Z, Example.belt_planet)]) None None 95 false
                  r eq_refl) as (summary & Hsummary & Hsat & Hnear & _)
  end.
  exists summary. split; [exact Hsummary |]. split; [exact Hsat | exact Hnear].
Defined.

Lemma flagged_belts_capped_and_ordered_witness :
  exists report saturated near,
    LogisticsAnalyzer.analyze
      Example.db Example.parse_decimal
      (Example.snapshot [(1%Z, Example.belt_planet)]) None None 95 false
    = Ok report
    /\ get "saturated_belts" report
       = Some (VList (map LogisticsAnalyzer.belt_entry saturated))
    /\ get "near_saturation" report
       = Some (VList (map LogisticsAnalyzer.belt_entry near))
    /\ map LogisticsAnalyzer.bd_belt_id saturated = [1%Z]
    /\ map LogisticsAnalyzer.bd_belt_id near = [2%Z].
Proof.
  eexists. eexists. eexists. split; [vm_compute; reflexivity |].
  match goal with
  | |- get _ ?r = _ /\ _ =>
      destruct (flagged_belts_capped_and_ordered
                  Example.db Example.parse_decimal
                  (Example.snapshot [(1%Z, Example.belt_planet)]) None None 95 false
                  r eq_refl) as (Hsat & Hnear & _)
  end.
  split; [exact Hsat |]. split; [exact Hnear |].
  split; vm_compute; reflexivity.
Defined.
